(** * Code-skeleton extraction: serializer, language adapters and facade

    A shallow embedding of [openviking/parse/parsers/code/ast]: the skeleton
    data model and its text serializer ([skeleton.py]), the six tree-walking
    language adapters ([languages/*.py]) and the public facade
    ([__init__.py]).

    Modelling conventions.
    - A Python [str] is a [string]; source text is taken to be ASCII, so that
      encoding to bytes and decoding a byte slice are the identity and a byte
      offset is a character offset.
    - A tree-sitter node is a [Node]: its grammar type, its byte span and its
      ordered children.  The parser itself is an external collaborator; an
      adapter is modelled from the root node on.
    - A [for] loop over a list that only threads local variables is a
      [fold_left] over that list with the variables as accumulator; a loop
      that can [break] or [return] is a structural recursion over the list. *)

From Stdlib Require Import Ascii.
From Stdlib Require String.
From stdpp Require Import base list strings gmap.

#[local] Set Warnings "-register-all".

(** ** Python string methods used by the code *)

Module PyStr.

Definition nl_char : ascii := "010"%char.
Definition nl : string := String nl_char "".
Definition dquote : string := String "034"%char "".
Definition squote : string := String "039"%char "".
(** the three double-quote characters that open and close a doc block *)
Definition q3 : string := dquote +:+ dquote +:+ dquote.
Definition sq3 : string := squote +:+ squote +:+ squote.

(** [str.isspace] on the ASCII range: TAB, LF, VT, FF, CR, FS, GS, RS, US
    and SPACE.  The regex class [\s] on a [str] pattern agrees with it. *)
Definition is_space (c : ascii) : bool :=
  let n := nat_of_ascii c in
  ((9 <=? n) && (n <=? 13)) || ((28 <=? n) && (n <=? 32)).

Fixpoint char_in (chars : string) (c : ascii) : bool :=
  match chars with
  | EmptyString => false
  | String d r => Ascii.eqb c d || char_in r c
  end.

Definition is_empty (s : string) : bool :=
  match s with EmptyString => true | _ => false end.

Fixpoint lstrip_by (p : ascii → bool) (s : string) : string :=
  match s with
  | EmptyString => EmptyString
  | String c s' => if p c then lstrip_by p s' else s
  end.

Fixpoint rstrip_by (p : ascii → bool) (s : string) : string :=
  match s with
  | EmptyString => EmptyString
  | String c s' =>
      match rstrip_by p s' with
      | EmptyString => if p c then EmptyString else String c EmptyString
      | r => String c r
      end
  end.

Definition strip_by (p : ascii → bool) (s : string) : string :=
  rstrip_by p (lstrip_by p s).

(** [s.strip()], [s.strip(chars)], [s.lstrip(chars)], [s.rstrip(chars)] *)
Definition strip : string → string := strip_by is_space.
Definition strip_chars (chars : string) : string → string :=
  strip_by (char_in chars).
Definition lstrip_chars (chars : string) : string → string :=
  lstrip_by (char_in chars).
Definition rstrip_chars (chars : string) : string → string :=
  rstrip_by (char_in chars).

(** [s.startswith(p)] and [s.endswith(p)] *)
Definition startswith (s p : string) : bool := String.prefix p s.
Definition endswith (s p : string) : bool :=
  let n := String.length s in
  let m := String.length p in
  (m <=? n) && String.eqb (String.substring (n - m) m s) p.

(** [s[a:-b]] for [0 <= a] and [0 < b]; [s[a:]] *)
Definition slice_inner (a b : nat) (s : string) : string :=
  String.substring a (String.length s - b - a) s.
Definition slice_from (a : nat) (s : string) : string :=
  String.substring a (String.length s - a) s.

(** [s.split(sep)] for a one-character separator: never the empty list *)
Fixpoint split (sep : ascii) (s : string) : list string :=
  match s with
  | EmptyString => [EmptyString]
  | String c s' =>
      if Ascii.eqb c sep then EmptyString :: split sep s'
      else match split sep s' with
           | [] => [String c EmptyString]
           | w :: ws => String c w :: ws
           end
  end.

(** [sep.join(l)] *)
Definition join (sep : string) (l : list string) : string :=
  String.concat sep l.

(** [s.replace(old, new)] for a non-empty [old]: occurrences are replaced
    from the left and do not overlap; [skip] counts the characters of a
    matched occurrence still to be dropped. *)
Fixpoint replace_go (old new : string) (skip : nat) (s : string) : string :=
  match s with
  | EmptyString => EmptyString
  | String c s' =>
      match skip with
      | S k => replace_go old new k s'
      | O =>
          if String.prefix old s
          then new +:+ replace_go old new (String.length old - 1) s'
          else String c (replace_go old new 0 s')
      end
  end.
Definition replace (old new s : string) : string := replace_go old new 0 s.

(** [re.sub(r"\s+", " ", s)]: each maximal run of whitespace becomes one
    space; [in_run] records that the previous character was whitespace. *)
Fixpoint re_sub_ws_go (in_run : bool) (s : string) : string :=
  match s with
  | EmptyString => EmptyString
  | String c s' =>
      if is_space c
      then (if in_run then re_sub_ws_go true s'
            else String " "%char (re_sub_ws_go true s'))
      else String c (re_sub_ws_go false s')
  end.
Definition re_sub_ws (s : string) : string := re_sub_ws_go false s.

(** [x in (a, b, ...)] on strings *)
Definition str_in (x : string) (l : list string) : bool :=
  existsb (String.eqb x) l.

End PyStr.

Import PyStr.

Infix "==" := String.eqb (at level 70, no associativity).

(** ** skeleton.py *)

Module skeleton.

(** Collapse multi-line params into a single line. *)
Definition _compact_params (params : string) : string :=
  strip_chars "," (strip (re_sub_ws params)).

Record FunctionSig : Type := mkFunctionSig {
  fs_name : string;
  fs_params : string;
  fs_return_type : string;
  fs_docstring : string
}.

Record ClassSkeleton : Type := mkClassSkeleton {
  cs_name : string;
  cs_bases : list string;
  cs_docstring : string;
  cs_methods : list FunctionSig
}.

Record CodeSkeleton : Type := mkCodeSkeleton {
  file_name : string;
  language : string;
  module_doc : string;
  imports : list string;
  classes : list ClassSkeleton;
  functions : list FunctionSig
}.

(** The nested helper of [to_text]; [verbose] is the enclosing method's
    argument. *)
Definition _doc (verbose : bool) (raw indent : string) : list string :=
  if is_empty raw then []
  else
    let first := strip (hd "" (split nl_char raw)) in
    if negb verbose then [indent +:+ q3 +:+ first +:+ q3]
    else
      let doc_lines := split nl_char (strip raw) in
      if length doc_lines =? 1 then [indent +:+ q3 +:+ first +:+ q3]
      else [indent +:+ q3 +:+ hd "" doc_lines]
           ++ map (λ l, indent +:+ strip l) (tl doc_lines)
           ++ [indent +:+ q3].

(** [ret] and the signature line shared by methods and functions *)
Definition ret_suffix (return_type : string) : string :=
  if is_empty return_type then "" else " -> " +:+ return_type.

(** one iteration of [for method in cls.methods] *)
Definition method_step (verbose : bool) (lines : list string)
    (method : FunctionSig) : list string :=
  let ret := ret_suffix (fs_return_type method) in
  let params := _compact_params (fs_params method) in
  let lines := lines ++ ["  + " +:+ fs_name method +:+ "(" +:+ params +:+ ")" +:+ ret] in
  lines ++ _doc verbose (fs_docstring method) "    ".

(** one iteration of [for cls in self.classes] *)
Definition class_step (verbose : bool) (lines : list string)
    (cls : ClassSkeleton) : list string :=
  let bases_str :=
    match cs_bases cls with
    | [] => ""
    | _ => "(" +:+ join ", " (cs_bases cls) +:+ ")"
    end in
  let lines := lines ++ ["class " +:+ cs_name cls +:+ bases_str] in
  let lines := lines ++ _doc verbose (cs_docstring cls) "  " in
  let lines := fold_left (method_step verbose) (cs_methods cls) lines in
  lines ++ [""].

(** one iteration of [for fn in self.functions] *)
Definition function_step (verbose : bool) (lines : list string)
    (fn : FunctionSig) : list string :=
  let ret := ret_suffix (fs_return_type fn) in
  let params := _compact_params (fs_params fn) in
  let lines := lines ++ ["def " +:+ fs_name fn +:+ "(" +:+ params +:+ ")" +:+ ret] in
  lines ++ _doc verbose (fs_docstring fn) "  ".

(** The list [lines] of [to_text] just before it is joined. *)
Definition to_text_lines (self : CodeSkeleton) (verbose : bool) : list string :=
  let lines := [] in
  let lines := lines ++ ["# " +:+ file_name self +:+ " [" +:+ language self +:+ "]"] in
  let lines :=
    if is_empty (module_doc self) then lines
    else
      let first := strip (hd "" (split nl_char (module_doc self))) in
      lines ++ ["module: " +:+ dquote +:+ first +:+ dquote] in
  let lines :=
    match imports self with
    | [] => lines
    | _ => lines ++ ["imports: " +:+ join ", " (imports self)]
    end in
  let lines := lines ++ [""] in
  let lines := fold_left (class_step verbose) (classes self) lines in
  let lines := fold_left (function_step verbose) (functions self) lines in
  lines.

Definition to_text (self : CodeSkeleton) (verbose : bool) : string :=
  strip (join nl (to_text_lines self verbose)).

End skeleton.

Import skeleton.

(** ** The concrete syntax tree handed over by the parser *)

Inductive Node : Type :=
  mkNode { type : string; start_byte : nat; end_byte : nat; children : list Node }.

(** [content_bytes[node.start_byte:node.end_byte].decode(...)]; every adapter
    module defines this same helper. *)
Definition _node_text (node : Node) (content_bytes : string) : string :=
  String.substring (start_byte node) (end_byte node - start_byte node) content_bytes.

(** [enumerate(siblings)] *)
Definition enumerate {A : Type} (l : list A) : list (nat * A) :=
  zip (seq 0 (length l)) l.

(** A loop body either falls through to the next element or leaves the loop. *)
Inductive Flow (S : Type) : Type :=
  | Next (s : S)
  | Break (s : S).
Arguments Next {S} s.
Arguments Break {S} s.

Definition for_loop {S A : Type} (body : S → A → Flow S) : list A → S → S :=
  fix go (l : list A) (st : S) : S :=
    match l with
    | [] => st
    | x :: l' =>
        match body st x with
        | Next s => go l' s
        | Break s => s
        end
    end.

(** The three result lists an [extract] method fills while it walks the
    top-level nodes. *)
Record Acc : Type := mkAcc {
  acc_imports : list string;
  acc_classes : list ClassSkeleton;
  acc_functions : list FunctionSig
}.

Definition acc_empty : Acc := mkAcc [] [] [].
Definition add_import (x : string) (st : Acc) : Acc :=
  mkAcc (acc_imports st ++ [x]) (acc_classes st) (acc_functions st).
Definition add_imports (xs : list string) (st : Acc) : Acc :=
  mkAcc (acc_imports st ++ xs) (acc_classes st) (acc_functions st).
Definition add_class (c : ClassSkeleton) (st : Acc) : Acc :=
  mkAcc (acc_imports st) (acc_classes st ++ [c]) (acc_functions st).
Definition add_function (f : FunctionSig) (st : Acc) : Acc :=
  mkAcc (acc_imports st) (acc_classes st) (acc_functions st ++ [f]).

(** Strip the enclosing parentheses of a parameter list, as every adapter
    does: [raw = text.strip(); if raw.startswith("(") and raw.endswith(")"):
    raw = raw[1:-1]; raw.strip()]. *)
Definition strip_parens (text : string) : string :=
  let raw := strip text in
  let raw := if startswith raw "(" && endswith raw ")"
             then slice_inner 1 1 raw else raw in
  strip raw.

(** The quote-stripping loop [for q in (...): if raw.startswith(q) and
    raw.endswith(q) and len(raw) >= 2 * len(q): return raw[len(q):-len(q)].strip()]
    falling back to [raw]. *)
Fixpoint unquote (quotes : list string) (raw : string) : string :=
  match quotes with
  | [] => raw
  | q :: rest =>
      if startswith raw q && endswith raw q
         && (2 * String.length q <=? String.length raw)
      then strip (slice_inner (String.length q) (String.length q) raw)
      else unquote rest raw
  end.

(** ** languages/go.py *)

Module go.

(** The [while] loop of [_preceding_doc], walking back from [idx - 1];
    [before] holds [siblings[idx-1]], [siblings[idx-2]], ... *)
Fixpoint doc_loop (content_bytes : string) (before : list Node)
    (lines : list string) : list string :=
  match before with
  | [] => lines
  | n :: rest =>
      if type n == "comment" then
        let raw := strip (_node_text n content_bytes) in
        let raw := if startswith raw "//" then strip (slice_from 2 raw) else raw in
        doc_loop content_bytes rest (raw :: lines)
      else lines
  end.

(** Collect consecutive // comment lines immediately before siblings[idx]. *)
Definition _preceding_doc (siblings : list Node) (idx : nat)
    (content_bytes : string) : string :=
  strip (join nl (doc_loop content_bytes (reverse (take idx siblings)) [])).

Record fn_vars : Type := mkFnVars {
  v_name : string;
  v_params : string;
  v_return_type : string;
  v_param_list_count : nat
}.

Definition fn_step (is_method : bool) (content_bytes : string)
    (st : fn_vars) (child : Node) : fn_vars :=
  if (type child == "identifier") && is_empty (v_name st) then
    mkFnVars (_node_text child content_bytes) (v_params st)
             (v_return_type st) (v_param_list_count st)
  else if (type child == "field_identifier") && is_empty (v_name st) then
    mkFnVars (_node_text child content_bytes) (v_params st)
             (v_return_type st) (v_param_list_count st)
  else if type child == "parameter_list" then
    let count := S (v_param_list_count st) in
    if is_method && (count =? 1) then
      (* continue: the first parameter_list is the receiver *)
      mkFnVars (v_name st) (v_params st) (v_return_type st) count
    else if is_empty (v_params st) then
      mkFnVars (v_name st) (strip_parens (_node_text child content_bytes))
               (v_return_type st) count
    else mkFnVars (v_name st) (v_params st) (v_return_type st) count
  else if type child == "type_identifier" then
    mkFnVars (v_name st) (v_params st) (_node_text child content_bytes)
             (v_param_list_count st)
  else st.

Definition _extract_function (node : Node) (content_bytes docstring : string)
    : FunctionSig :=
  let is_method := type node == "method_declaration" in
  let st := fold_left (fn_step is_method content_bytes) (children node)
                      (mkFnVars "" "" "" 0) in
  mkFunctionSig (v_name st) (v_params st) (v_return_type st) docstring.

Definition _extract_struct (node : Node) (content_bytes docstring : string)
    : ClassSkeleton :=
  let name :=
    match List.find (λ child, type child == "type_identifier") (children node) with
    | Some child => _node_text child content_bytes
    | None => ""
    end in
  mkClassSkeleton name [] docstring [].

Definition spec_step (content_bytes : string) (st : Acc) (s : Node) : Acc :=
  if type s == "interpreted_string_literal"
  then add_import (strip_chars dquote (strip (_node_text s content_bytes))) st
  else st.

(** one member of a parenthesized import group *)
Definition spec_list_step (content_bytes : string) (st : Acc) (s2 : Node) : Acc :=
  if type s2 == "import_spec"
  then fold_left (spec_step content_bytes) (children s2) st
  else st.

Definition import_step (content_bytes : string) (st : Acc) (sub : Node) : Acc :=
  if type sub == "import_spec" then
    fold_left (spec_step content_bytes) (children sub) st
  else if type sub == "import_spec_list" then
    fold_left (spec_list_step content_bytes) (children sub) st
  else st.

Definition type_spec_body (siblings : list Node) (idx : nat)
    (content_bytes : string) (sub : Node) (st : Acc) (s2 : Node) : Flow Acc :=
  if str_in (type s2) ["struct_type"; "interface_type"] then
    let doc := _preceding_doc siblings idx content_bytes in
    Break (add_class (_extract_struct sub content_bytes doc) st)
  else Next st.

(** one member of a type declaration *)
Definition type_decl_step (siblings : list Node) (idx : nat)
    (content_bytes : string) (st : Acc) (sub : Node) : Acc :=
  if type sub == "type_spec"
  then for_loop (type_spec_body siblings idx content_bytes sub) (children sub) st
  else st.

Definition extract_step (siblings : list Node) (content_bytes : string)
    (st : Acc) (ic : nat * Node) : Acc :=
  let '(idx, child) := ic in
  if type child == "import_declaration" then
    fold_left (import_step content_bytes) (children child) st
  else if str_in (type child) ["function_declaration"; "method_declaration"] then
    let doc := _preceding_doc siblings idx content_bytes in
    add_function (_extract_function child content_bytes doc) st
  else if type child == "type_declaration" then
    fold_left (type_decl_step siblings idx content_bytes) (children child) st
  else st.

(** [GoExtractor.extract], from the root node of the parsed content on *)
Definition extract (file_name content : string) (root : Node) : CodeSkeleton :=
  let content_bytes := content in
  let siblings := children root in
  let st := fold_left (extract_step siblings content_bytes)
                      (enumerate siblings) acc_empty in
  mkCodeSkeleton file_name "Go" "" (acc_imports st) (acc_classes st)
                 (acc_functions st).

End go.

(** ** languages/rust.py *)

Module rust.

(** The [while] loop of [_preceding_doc]: only a line comment with a
    doc_comment child continues the walk. *)
Fixpoint doc_loop (content_bytes : string) (before : list Node)
    (lines : list string) : list string :=
  match before with
  | [] => lines
  | node :: rest =>
      if type node == "line_comment" then
        match List.find (λ c, type c == "doc_comment") (children node) with
        | None => lines
        | Some doc_child =>
            doc_loop content_bytes rest
                     (strip (_node_text doc_child content_bytes) :: lines)
        end
      else lines
  end.

(** Collect consecutive /// doc comment lines before siblings[idx]. *)
Definition _preceding_doc (siblings : list Node) (idx : nat)
    (content_bytes : string) : string :=
  strip (join nl (doc_loop content_bytes (reverse (take idx siblings)) [])).

Definition fn_step (content_bytes : string)
    (st : string * string * string) (child : Node) : string * string * string :=
  let '(name, params, return_type) := st in
  if (type child == "identifier") && is_empty name then
    (_node_text child content_bytes, params, return_type)
  else if type child == "parameters" then
    (name, strip_parens (_node_text child content_bytes), return_type)
  else if type child == "type_identifier" then
    (name, params, _node_text child content_bytes)
  else if type child == "scoped_type_identifier" then
    (name, params, _node_text child content_bytes)
  else if type child == "generic_type" then
    (name, params, _node_text child content_bytes)
  else st.

Definition _extract_function (node : Node) (content_bytes docstring : string)
    : FunctionSig :=
  let '(name, params, return_type) :=
    fold_left (fn_step content_bytes) (children node) ("", "", "") in
  mkFunctionSig name params return_type docstring.

Definition struct_step (content_bytes : string)
    (st : string * list string) (child : Node) : string * list string :=
  let '(name, bases) := st in
  if str_in (type child) ["type_identifier"; "identifier"] && is_empty name then
    (_node_text child content_bytes, bases)
  else if type child == "trait_bounds" then
    (name,
     fold_left (λ bases sub,
                  if type sub == "type_identifier"
                  then bases ++ [_node_text sub content_bytes] else bases)
               (children child) bases)
  else st.

Definition _extract_struct_or_trait (node : Node)
    (content_bytes docstring : string) : ClassSkeleton :=
  let '(name, bases) :=
    fold_left (struct_step content_bytes) (children node) ("", []) in
  mkClassSkeleton name bases docstring [].

Definition method_step (siblings : list Node) (content_bytes : string)
    (methods : list FunctionSig) (ic : nat * Node) : list FunctionSig :=
  let '(idx, sub) := ic in
  if type sub == "function_item" then
    let doc := _preceding_doc siblings idx content_bytes in
    methods ++ [_extract_function sub content_bytes doc]
  else methods.

Definition impl_step (content_bytes : string)
    (st : string * list FunctionSig) (child : Node) : string * list FunctionSig :=
  let '(name, methods) := st in
  if (type child == "type_identifier") && is_empty name then
    (_node_text child content_bytes, methods)
  else if type child == "declaration_list" then
    let siblings := children child in
    (name, fold_left (method_step siblings content_bytes)
                     (enumerate siblings) methods)
  else st.

(** impl Foo { ... } is treated as a class with methods. *)
Definition _extract_impl (node : Node) (content_bytes : string) : ClassSkeleton :=
  let '(name, methods) :=
    fold_left (impl_step content_bytes) (children node) ("", []) in
  mkClassSkeleton ("impl " +:+ name) [] "" methods.

Definition extract_step (siblings : list Node) (content_bytes : string)
    (st : Acc) (ic : nat * Node) : Acc :=
  let '(idx, child) := ic in
  if type child == "use_declaration" then
    add_import
      (replace "use " ""
         (rstrip_chars ";" (strip (_node_text child content_bytes)))) st
  else if str_in (type child) ["struct_item"; "trait_item"; "enum_item"] then
    let doc := _preceding_doc siblings idx content_bytes in
    add_class (_extract_struct_or_trait child content_bytes doc) st
  else if type child == "impl_item" then
    add_class (_extract_impl child content_bytes) st
  else if type child == "function_item" then
    let doc := _preceding_doc siblings idx content_bytes in
    add_function (_extract_function child content_bytes doc) st
  else st.

(** [RustExtractor.extract], from the root node of the parsed content on *)
Definition extract (file_name content : string) (root : Node) : CodeSkeleton :=
  let content_bytes := content in
  let siblings := children root in
  let st := fold_left (extract_step siblings content_bytes)
                      (enumerate siblings) acc_empty in
  mkCodeSkeleton file_name "Rust" "" (acc_imports st) (acc_classes st)
                 (acc_functions st).

End rust.

(** ** languages/python.py *)

Module python.

Definition quotes : list string := [q3; sq3; dquote; squote].

(** Extract docstring from the first expression_statement in a body. *)
Definition _first_string_child (body_node : option Node)
    (content_bytes : string) : string :=
  match body_node with
  | None => ""
  | Some body =>
      match List.find (λ child, type child == "expression_statement")
                      (children body) with
      | None => ""
      | Some child =>
          match List.find (λ sub, str_in (type sub) ["string"; "concatenated_string"])
                          (children child) with
          | Some sub => unquote quotes (strip (_node_text sub content_bytes))
          | None => ""
          end
      end
  end.

Record fn_vars : Type := mkFnVars {
  v_name : string;
  v_params : string;
  v_return_type : string;
  v_body_node : option Node
}.

Definition fn_step (content_bytes : string) (st : fn_vars) (child : Node)
    : fn_vars :=
  if type child == "identifier" then
    mkFnVars (_node_text child content_bytes) (v_params st)
             (v_return_type st) (v_body_node st)
  else if type child == "parameters" then
    mkFnVars (v_name st) (strip_parens (_node_text child content_bytes))
             (v_return_type st) (v_body_node st)
  else if type child == "type" then
    mkFnVars (v_name st) (v_params st)
             (strip (_node_text child content_bytes)) (v_body_node st)
  else if type child == "block" then
    mkFnVars (v_name st) (v_params st) (v_return_type st) (Some child)
  else st.

Definition _extract_function (node : Node) (content_bytes : string)
    : FunctionSig :=
  let st := fold_left (fn_step content_bytes) (children node)
                      (mkFnVars "" "" "" None) in
  let docstring := _first_string_child (v_body_node st) content_bytes in
  mkFunctionSig (v_name st) (v_params st) (v_return_type st) docstring.

Record cls_vars : Type := mkClsVars {
  c_name : string;
  c_bases : list string;
  c_body_node : option Node
}.

Definition cls_step (content_bytes : string) (st : cls_vars) (child : Node)
    : cls_vars :=
  if type child == "identifier" then
    mkClsVars (_node_text child content_bytes) (c_bases st) (c_body_node st)
  else if type child == "argument_list" then
    mkClsVars (c_name st)
      (fold_left (λ bases arg,
                    if negb (str_in (type arg) [","; "("; ")"])
                    then bases ++ [strip (_node_text arg content_bytes)]
                    else bases)
                 (children child) (c_bases st))
      (c_body_node st)
  else if type child == "block" then
    mkClsVars (c_name st) (c_bases st) (Some child)
  else st.

Definition method_step (content_bytes : string)
    (methods : list FunctionSig) (child : Node) : list FunctionSig :=
  if type child == "function_definition" then
    methods ++ [_extract_function child content_bytes]
  else if type child == "decorated_definition" then
    fold_left (λ methods sub,
                 if type sub == "function_definition"
                 then methods ++ [_extract_function sub content_bytes]
                 else methods)
              (children child) methods
  else methods.

Definition _extract_class (node : Node) (content_bytes : string)
    : ClassSkeleton :=
  let st := fold_left (cls_step content_bytes) (children node)
                      (mkClsVars "" [] None) in
  let docstring := _first_string_child (c_body_node st) content_bytes in
  let methods :=
    match c_body_node st with
    | Some body_node =>
        fold_left (method_step content_bytes) (children body_node) []
    | None => []
    end in
  mkClassSkeleton (c_name st) (c_bases st) docstring methods.

(** the loop of the import_statement branch of [_extract_imports] *)
Definition import_step (content_bytes : string)
    (results : list string) (child : Node) : list string :=
  if type child == "dotted_name" then
    results ++ [_node_text child content_bytes]
  else if type child == "aliased_import" then
    match List.find (λ sub, type sub == "dotted_name") (children child) with
    | Some sub => results ++ [_node_text sub content_bytes]
    | None => results
    end
  else results.

(** the loop of the import_from_statement branch; the third component is
    the value of an early [return results] *)
Definition from_body (content_bytes : string)
    (st : string * list string * option (list string)) (child : Node)
    : Flow (string * list string * option (list string)) :=
  let '(module, names, returned) := st in
  if (type child == "dotted_name") && is_empty module then
    Next (_node_text child content_bytes, names, returned)
  else if type child == "import_prefix" then
    Next (_node_text child content_bytes, names, returned)
  else if type child == "wildcard_import" then
    Break (module, names, Some [module +:+ ".*"])
  else if (type child == "dotted_name") && negb (is_empty module) then
    Next (module, names ++ [_node_text child content_bytes], returned)
  else if type child == "aliased_import" then
    match List.find (λ sub, type sub == "dotted_name") (children child) with
    | Some sub => Next (module, names ++ [_node_text sub content_bytes], returned)
    | None => Next st
    end
  else Next st.

(** Flatten import node into module name strings. *)
Definition _extract_imports (node : Node) (content_bytes : string)
    : list string :=
  if type node == "import_statement" then
    fold_left (import_step content_bytes) (children node) []
  else if type node == "import_from_statement" then
    let '(module, names, returned) :=
      for_loop (from_body content_bytes) (children node) ("", [], None) in
    match returned with
    | Some results => results
    | None =>
        match names with
        | _ :: _ =>
            map (λ n, if is_empty module then n else module +:+ "." +:+ n) names
        | [] => if is_empty module then [] else [module]
        end
    end
  else [].

(** the module docstring loop of [extract] *)
Definition module_doc_body (content_bytes : string)
    (module_doc : string) (child : Node) : Flow string :=
  if type child == "expression_statement" then
    Break (fold_left
             (λ module_doc sub,
                if str_in (type sub) ["string"; "concatenated_string"]
                then unquote quotes (strip (_node_text sub content_bytes))
                else module_doc)
             (children child) module_doc)
  else if negb (str_in (type child) ["comment"; "newline"]) then
    Break module_doc
  else Next module_doc.

Definition decorated_body (content_bytes : string)
    (st : Acc) (sub : Node) : Flow Acc :=
  if type sub == "class_definition" then
    Break (add_class (_extract_class sub content_bytes) st)
  else if type sub == "function_definition" then
    Break (add_function (_extract_function sub content_bytes) st)
  else Next st.

Definition extract_step (content_bytes : string) (st : Acc) (child : Node)
    : Acc :=
  if str_in (type child) ["import_statement"; "import_from_statement"] then
    add_imports (_extract_imports child content_bytes) st
  else if type child == "class_definition" then
    add_class (_extract_class child content_bytes) st
  else if type child == "function_definition" then
    add_function (_extract_function child content_bytes) st
  else if type child == "decorated_definition" then
    for_loop (decorated_body content_bytes) (children child) st
  else st.

(** [PythonExtractor.extract], from the root node of the parsed content on *)
Definition extract (file_name content : string) (root : Node) : CodeSkeleton :=
  let content_bytes := content in
  let module_doc :=
    for_loop (module_doc_body content_bytes) (children root) "" in
  let st := fold_left (extract_step content_bytes) (children root) acc_empty in
  mkCodeSkeleton file_name "Python" module_doc (acc_imports st)
                 (acc_classes st) (acc_functions st).

End python.

(** ** Block comments shared by js_ts.py, java.py and cpp.py

    [_parse_jsdoc] in js_ts.py and [_parse_block_comment] in java.py and
    cpp.py are the same function: strip the comment markers and the leading
    star of each line, drop the lines left empty. *)
Definition parse_block_comment (raw : string) : string :=
  let raw := strip raw in
  let raw := if startswith raw "/**" then slice_from 3 raw
             else if startswith raw "/*" then slice_from 2 raw
             else raw in
  let raw := if endswith raw "*/" then slice_inner 0 2 raw else raw in
  let lines := map (λ l, strip (lstrip_chars "*" (strip l))) (split nl_char raw) in
  strip (join nl (filter (λ l, is_empty l = false) lines)).

(** ** languages/js_ts.py *)

Module js_ts.

Definition _parse_jsdoc : string → string := parse_block_comment.

(** Return JSDoc block comment immediately before siblings[idx], or ''. *)
Definition _preceding_doc (siblings : list Node) (idx : nat)
    (content_bytes : string) : string :=
  if idx =? 0 then ""
  else
    match siblings !! (idx - 1) with
    | None => ""
    | Some prev =>
        if type prev == "comment" then
          let raw := strip (_node_text prev content_bytes) in
          if startswith raw "/*" then _parse_jsdoc raw
          else if startswith raw "//" then strip (slice_from 2 raw)
          else ""
        else ""
    end.

Definition quotes : list string :=
  [q3; sq3; dquote; squote; String "096"%char ""].

Definition _first_string_in_body (body_node : option Node)
    (content_bytes : string) : string :=
  match body_node with
  | None => ""
  | Some body =>
      match List.find (λ child, type child == "expression_statement")
                      (children body) with
      | None => ""
      | Some child =>
          match List.find (λ sub, type sub == "string") (children child) with
          | Some sub => unquote quotes (strip (_node_text sub content_bytes))
          | None => ""
          end
      end
  end.

Definition _extract_params (params_node : Node) (content_bytes : string)
    : string :=
  strip_parens (_node_text params_node content_bytes).

Record fn_vars : Type := mkFnVars {
  v_name : string;
  v_params : string;
  v_return_type : string;
  v_body_node : option Node
}.

Definition fn_step (content_bytes : string) (st : fn_vars) (child : Node)
    : fn_vars :=
  if (type child == "identifier") && is_empty (v_name st) then
    mkFnVars (_node_text child content_bytes) (v_params st)
             (v_return_type st) (v_body_node st)
  else if (type child == "property_identifier") && is_empty (v_name st) then
    mkFnVars (_node_text child content_bytes) (v_params st)
             (v_return_type st) (v_body_node st)
  else if str_in (type child) ["formal_parameters"; "call_signature"] then
    mkFnVars (v_name st) (_extract_params child content_bytes)
             (v_return_type st) (v_body_node st)
  else if type child == "type_annotation" then
    match List.find (λ sub, negb (str_in (type sub) [":"])) (children child) with
    | Some sub =>
        mkFnVars (v_name st) (v_params st)
                 (strip (_node_text sub content_bytes)) (v_body_node st)
    | None => st
    end
  else if type child == "statement_block" then
    mkFnVars (v_name st) (v_params st) (v_return_type st) (Some child)
  else st.

Definition _extract_function (node : Node) (content_bytes lang_name : string)
    (docstring : string) : FunctionSig :=
  let st := fold_left (fn_step content_bytes) (children node)
                      (mkFnVars "" "" "" None) in
  let docstring :=
    if is_empty docstring
    then _first_string_in_body (v_body_node st) content_bytes
    else docstring in
  mkFunctionSig (v_name st) (v_params st) (v_return_type st) docstring.

(** [fn.name = value] *)
Definition set_name (fn : FunctionSig) (value : string) : FunctionSig :=
  mkFunctionSig value (fs_params fn) (fs_return_type fn) (fs_docstring fn).

Record cls_vars : Type := mkClsVars {
  c_name : string;
  c_bases : list string;
  c_body_node : option Node
}.

Definition heritage_step (content_bytes : string)
    (bases : list string) (sub : Node) : list string :=
  if type sub == "extends_clause" then
    fold_left (λ bases s2,
                 if str_in (type s2) ["identifier"; "type_identifier"; "member_expression"]
                 then bases ++ [_node_text s2 content_bytes] else bases)
              (children sub) bases
  else bases.

Definition cls_step (content_bytes : string) (st : cls_vars) (child : Node)
    : cls_vars :=
  if (type child == "identifier") && is_empty (c_name st) then
    mkClsVars (_node_text child content_bytes) (c_bases st) (c_body_node st)
  else if (type child == "type_identifier") && is_empty (c_name st) then
    mkClsVars (_node_text child content_bytes) (c_bases st) (c_body_node st)
  else if type child == "class_heritage" then
    mkClsVars (c_name st)
              (fold_left (heritage_step content_bytes) (children child) (c_bases st))
              (c_body_node st)
  else if type child == "class_body" then
    mkClsVars (c_name st) (c_bases st) (Some child)
  else st.

(** the arrow-function field of a public_field_definition [child] *)
Definition field_body (siblings : list Node) (idx : nat) (child : Node)
    (content_bytes lang_name : string)
    (methods : list FunctionSig) (sub : Node) : Flow (list FunctionSig) :=
  if type sub == "arrow_function" then
    let doc := _preceding_doc siblings idx content_bytes in
    let fn := _extract_function sub content_bytes lang_name doc in
    let fn :=
      match List.find (λ s2, str_in (type s2) ["property_identifier"; "identifier"])
                      (children child) with
      | Some s2 => set_name fn (_node_text s2 content_bytes)
      | None => fn
      end in
    Break (methods ++ [fn])
  else Next methods.

Definition method_step (siblings : list Node) (content_bytes lang_name : string)
    (methods : list FunctionSig) (ic : nat * Node) : list FunctionSig :=
  let '(idx, child) := ic in
  if type child == "method_definition" then
    let doc := _preceding_doc siblings idx content_bytes in
    methods ++ [_extract_function child content_bytes lang_name doc]
  else if type child == "public_field_definition" then
    for_loop (field_body siblings idx child content_bytes lang_name)
             (children child) methods
  else methods.

Definition _extract_class (node : Node) (content_bytes lang_name : string)
    (docstring : string) : ClassSkeleton :=
  let st := fold_left (cls_step content_bytes) (children node)
                      (mkClsVars "" [] None) in
  let docstring :=
    if is_empty docstring
    then _first_string_in_body (c_body_node st) content_bytes
    else docstring in
  let methods :=
    match c_body_node st with
    | Some body_node =>
        let siblings := children body_node in
        fold_left (method_step siblings content_bytes lang_name)
                  (enumerate siblings) []
    | None => []
    end in
  mkClassSkeleton (c_name st) (c_bases st) docstring methods.

(** The local variables of [extract]: the three result lists and the set
    [_seen_imports]. *)
Record JsAcc : Type := mkJsAcc {
  js_imports : list string;
  js_seen_imports : gset string;
  js_classes : list ClassSkeleton;
  js_functions : list FunctionSig
}.

Definition js_add_class (c : ClassSkeleton) (st : JsAcc) : JsAcc :=
  mkJsAcc (js_imports st) (js_seen_imports st) (js_classes st ++ [c])
          (js_functions st).
Definition js_add_function (f : FunctionSig) (st : JsAcc) : JsAcc :=
  mkJsAcc (js_imports st) (js_seen_imports st) (js_classes st)
          (js_functions st ++ [f]).

Definition import_body (content_bytes : string) (st : JsAcc) (sub : Node)
    : Flow JsAcc :=
  if type sub == "string" then
    let raw := strip_chars (dquote +:+ squote)
                           (strip (_node_text sub content_bytes)) in
    if decide (raw ∈ js_seen_imports st) then Break st
    else Break (mkJsAcc (js_imports st ++ [raw])
                        ({[ raw ]} ∪ js_seen_imports st)
                        (js_classes st) (js_functions st))
  else Next st.

Definition export_body (siblings : list Node) (idx : nat)
    (content_bytes lang_name : string) (st : JsAcc) (sub : Node) : Flow JsAcc :=
  if type sub == "class_declaration" then
    let doc := _preceding_doc siblings idx content_bytes in
    Break (js_add_class (_extract_class sub content_bytes lang_name doc) st)
  else if str_in (type sub) ["function_declaration"; "generator_function_declaration"] then
    let doc := _preceding_doc siblings idx content_bytes in
    Break (js_add_function (_extract_function sub content_bytes lang_name doc) st)
  else Next st.

(** the loop over the children of one variable_declarator; [fn_name] is
    reset for each declarator *)
Definition declarator_step (siblings : list Node) (idx : nat)
    (content_bytes lang_name : string)
    (st : string * JsAcc) (s2 : Node) : string * JsAcc :=
  let '(fn_name, acc) := st in
  if type s2 == "identifier" then (_node_text s2 content_bytes, acc)
  else if type s2 == "arrow_function" then
    let doc := _preceding_doc siblings idx content_bytes in
    let fn := _extract_function s2 content_bytes lang_name doc in
    (fn_name, js_add_function (set_name fn fn_name) acc)
  else st.

Definition lexical_step (siblings : list Node) (idx : nat)
    (content_bytes lang_name : string) (st : JsAcc) (sub : Node) : JsAcc :=
  if type sub == "variable_declarator" then
    snd (fold_left (declarator_step siblings idx content_bytes lang_name)
                   (children sub) ("", st))
  else st.

Definition extract_step (siblings : list Node) (content_bytes lang_name : string)
    (st : JsAcc) (ic : nat * Node) : JsAcc :=
  let '(idx, child) := ic in
  if type child == "import_statement" then
    for_loop (import_body content_bytes) (children child) st
  else if type child == "class_declaration" then
    let doc := _preceding_doc siblings idx content_bytes in
    js_add_class (_extract_class child content_bytes lang_name doc) st
  else if str_in (type child) ["function_declaration"; "generator_function_declaration"] then
    let doc := _preceding_doc siblings idx content_bytes in
    js_add_function (_extract_function child content_bytes lang_name doc) st
  else if type child == "export_statement" then
    for_loop (export_body siblings idx content_bytes lang_name)
             (children child) st
  else if type child == "lexical_declaration" then
    fold_left (lexical_step siblings idx content_bytes lang_name)
              (children child) st
  else st.

(** [self._lang_name] as set by [JsTsExtractor.__init__(lang)] *)
Definition lang_name_of (lang : string) : string :=
  if lang == "javascript" then "JavaScript" else "TypeScript".

(** [JsTsExtractor(lang).extract], from the root node on *)
Definition extract (lang : string) (file_name content : string) (root : Node)
    : CodeSkeleton :=
  let content_bytes := content in
  let lang_name := lang_name_of lang in
  let siblings := children root in
  let st := fold_left (extract_step siblings content_bytes lang_name)
                      (enumerate siblings) (mkJsAcc [] ∅ [] []) in
  mkCodeSkeleton file_name lang_name "" (js_imports st) (js_classes st)
                 (js_functions st).

End js_ts.

(** ** languages/java.py *)

Module java.

Definition _parse_block_comment : string → string := parse_block_comment.

(** Return Javadoc block comment immediately before siblings[idx], or ''. *)
Definition _preceding_doc (siblings : list Node) (idx : nat)
    (content_bytes : string) : string :=
  if idx =? 0 then ""
  else
    match siblings !! (idx - 1) with
    | None => ""
    | Some prev =>
        if type prev == "block_comment"
        then _parse_block_comment (_node_text prev content_bytes)
        else ""
    end.

Definition return_types : list string :=
  ["type_identifier"; "void_type"; "integral_type"; "floating_point_type";
   "boolean_type"; "array_type"; "generic_type"].

Definition method_vars_step (content_bytes : string)
    (st : string * string * string) (child : Node) : string * string * string :=
  let '(name, params, return_type) := st in
  if (type child == "identifier") && is_empty name then
    if is_empty return_type then st
    else (_node_text child content_bytes, params, return_type)
  else if str_in (type child) return_types then
    if is_empty return_type
    then (name, params, _node_text child content_bytes)
    else st
  else if type child == "formal_parameters" then
    (name, strip_parens (_node_text child content_bytes), return_type)
  else st.

Definition _extract_method (node : Node) (content_bytes docstring : string)
    : FunctionSig :=
  let '(name, params, return_type) :=
    fold_left (method_vars_step content_bytes) (children node) ("", "", "") in
  mkFunctionSig name params return_type docstring.

Record cls_vars : Type := mkClsVars {
  c_name : string;
  c_bases : list string;
  c_body_node : option Node
}.

Definition type_ids (content_bytes : string) (bases : list string)
    (nodes : list Node) : list string :=
  fold_left (λ bases n,
               if type n == "type_identifier"
               then bases ++ [_node_text n content_bytes] else bases)
            nodes bases.

Definition cls_step (content_bytes : string) (st : cls_vars) (child : Node)
    : cls_vars :=
  if str_in (type child) ["type_identifier"; "identifier"] && is_empty (c_name st) then
    mkClsVars (_node_text child content_bytes) (c_bases st) (c_body_node st)
  else if type child == "superclass" then
    mkClsVars (c_name st) (type_ids content_bytes (c_bases st) (children child))
              (c_body_node st)
  else if type child == "super_interfaces" then
    mkClsVars (c_name st)
      (fold_left (λ bases sub,
                    if type sub == "type_list"
                    then type_ids content_bytes bases (children sub)
                    else bases)
                 (children child) (c_bases st))
      (c_body_node st)
  else if type child == "class_body" then
    mkClsVars (c_name st) (c_bases st) (Some child)
  else st.

Definition method_step (siblings : list Node) (content_bytes : string)
    (methods : list FunctionSig) (ic : nat * Node) : list FunctionSig :=
  let '(idx, child) := ic in
  if str_in (type child) ["method_declaration"; "constructor_declaration"] then
    let doc := _preceding_doc siblings idx content_bytes in
    methods ++ [_extract_method child content_bytes doc]
  else methods.

Definition _extract_class (node : Node) (content_bytes docstring : string)
    : ClassSkeleton :=
  let st := fold_left (cls_step content_bytes) (children node)
                      (mkClsVars "" [] None) in
  let methods :=
    match c_body_node st with
    | Some body_node =>
        let siblings := children body_node in
        fold_left (method_step siblings content_bytes) (enumerate siblings) []
    | None => []
    end in
  mkClassSkeleton (c_name st) (c_bases st) docstring methods.

Definition import_step (content_bytes : string) (st : Acc) (sub : Node) : Acc :=
  if type sub == "scoped_identifier" then
    add_import (_node_text sub content_bytes) st
  else if type sub == "identifier" then
    add_import (_node_text sub content_bytes) st
  else st.

Definition extract_step (siblings : list Node) (content_bytes : string)
    (st : Acc) (ic : nat * Node) : Acc :=
  let '(idx, child) := ic in
  if type child == "import_declaration" then
    fold_left (import_step content_bytes) (children child) st
  else if str_in (type child)
            ["class_declaration"; "interface_declaration"; "enum_declaration"] then
    let doc := _preceding_doc siblings idx content_bytes in
    add_class (_extract_class child content_bytes doc) st
  else st.

(** [JavaExtractor.extract], from the root node on; the functions list of
    the result is the constant empty list. *)
Definition extract (file_name content : string) (root : Node) : CodeSkeleton :=
  let content_bytes := content in
  let siblings := children root in
  let st := fold_left (extract_step siblings content_bytes)
                      (enumerate siblings) acc_empty in
  mkCodeSkeleton file_name "Java" "" (acc_imports st) (acc_classes st) [].

End java.

(** ** languages/cpp.py *)

Module cpp.

Definition _parse_block_comment : string → string := parse_block_comment.

(** Return Doxygen block comment immediately before siblings[idx], or ''. *)
Definition _preceding_doc (siblings : list Node) (idx : nat)
    (content_bytes : string) : string :=
  if idx =? 0 then ""
  else
    match siblings !! (idx - 1) with
    | None => ""
    | Some prev =>
        if type prev == "comment"
        then _parse_block_comment (_node_text prev content_bytes)
        else ""
    end.

Fixpoint _extract_function_declarator (node : Node) (content_bytes : string)
    {struct node} : string * string :=
  fold_left
    (λ (st : string * string) (child : Node),
       let '(name, params) := st in
       if str_in (type child) ["identifier"; "field_identifier"] && is_empty name then
         (_node_text child content_bytes, params)
       else if (type child == "qualified_identifier") && is_empty name then
         (_node_text child content_bytes, params)
       else if type child == "function_declarator" then
         let '(n, p) := _extract_function_declarator child content_bytes in
         (if is_empty n then name else n, if is_empty p then params else p)
       else if type child == "parameter_list" then
         (name, strip_parens (_node_text child content_bytes))
       else st)
    (children node) ("", "").

Definition fn_step (content_bytes : string)
    (st : string * string * string) (child : Node) : string * string * string :=
  let '(name, params, return_type) := st in
  if type child == "function_declarator" then
    let '(n, p) := _extract_function_declarator child content_bytes in
    (n, p, return_type)
  else if str_in (type child)
            ["type_specifier"; "primitive_type"; "type_identifier";
             "qualified_identifier"; "auto"] then
    if is_empty return_type
    then (name, params, _node_text child content_bytes) else st
  else if type child == "pointer_declarator" then
    fold_left (λ (st : string * string * string) sub,
                 let '(name, params, return_type) := st in
                 if type sub == "function_declarator" then
                   let '(n, p) := _extract_function_declarator sub content_bytes in
                   (n, p, return_type)
                 else st)
              (children child) st
  else st.

Definition _extract_function (node : Node) (content_bytes docstring : string)
    : FunctionSig :=
  let '(name, params, return_type) :=
    fold_left (fn_step content_bytes) (children node) ("", "", "") in
  mkFunctionSig name params return_type docstring.

Record cls_vars : Type := mkClsVars {
  c_name : string;
  c_bases : list string;
  c_body_node : option Node
}.

Definition cls_step (content_bytes : string) (st : cls_vars) (child : Node)
    : cls_vars :=
  if (type child == "type_identifier") && is_empty (c_name st) then
    mkClsVars (_node_text child content_bytes) (c_bases st) (c_body_node st)
  else if type child == "base_class_clause" then
    mkClsVars (c_name st)
      (fold_left (λ bases sub,
                    if type sub == "type_identifier"
                    then bases ++ [_node_text sub content_bytes] else bases)
                 (children child) (c_bases st))
      (c_body_node st)
  else if type child == "field_declaration_list" then
    mkClsVars (c_name st) (c_bases st) (Some child)
  else st.

(** the loop over the parts of a declaration or field_declaration member:
    (ret_type, fn_name, fn_params) *)
Definition member_body (content_bytes : string)
    (st : string * string * string) (sub : Node)
    : Flow (string * string * string) :=
  let '(ret_type, fn_name, fn_params) := st in
  if str_in (type sub)
       ["type_specifier"; "primitive_type"; "type_identifier";
        "qualified_identifier"] && is_empty ret_type then
    Next (_node_text sub content_bytes, fn_name, fn_params)
  else if type sub == "function_declarator" then
    let '(n, p) := _extract_function_declarator sub content_bytes in
    Break (ret_type, n, p)
  else Next st.

Definition method_step (siblings : list Node) (content_bytes : string)
    (methods : list FunctionSig) (ic : nat * Node) : list FunctionSig :=
  let '(idx, child) := ic in
  if type child == "function_definition" then
    let doc := _preceding_doc siblings idx content_bytes in
    methods ++ [_extract_function child content_bytes doc]
  else if str_in (type child) ["declaration"; "field_declaration"] then
    let '(ret_type, fn_name, fn_params) :=
      for_loop (member_body content_bytes) (children child) ("", "", "") in
    if is_empty fn_name then methods
    else
      let doc := _preceding_doc siblings idx content_bytes in
      methods ++ [mkFunctionSig fn_name fn_params ret_type doc]
  else methods.

Definition _extract_class (node : Node) (content_bytes docstring : string)
    : ClassSkeleton :=
  let st := fold_left (cls_step content_bytes) (children node)
                      (mkClsVars "" [] None) in
  let methods :=
    match c_body_node st with
    | Some body_node =>
        let siblings := children body_node in
        fold_left (method_step siblings content_bytes) (enumerate siblings) []
    | None => []
    end in
  mkClassSkeleton (c_name st) (c_bases st) docstring methods.

Definition include_step (content_bytes : string) (st : Acc) (sub : Node) : Acc :=
  if str_in (type sub) ["string_literal"; "system_lib_string"] then
    add_import (strip_chars (dquote +:+ "<>") (strip (_node_text sub content_bytes))) st
  else st.

(** one declaration directly inside a namespace block *)
Definition inner_step (inner : list Node) (content_bytes : string)
    (st : Acc) (ic : nat * Node) : Acc :=
  let '(i2, s2) := ic in
  if str_in (type s2) ["class_specifier"; "struct_specifier"] then
    let doc := _preceding_doc inner i2 content_bytes in
    add_class (_extract_class s2 content_bytes doc) st
  else if type s2 == "function_definition" then
    let doc := _preceding_doc inner i2 content_bytes in
    add_function (_extract_function s2 content_bytes doc) st
  else st.

Definition namespace_step (content_bytes : string) (st : Acc) (sub : Node) : Acc :=
  if type sub == "declaration_list" then
    let inner := children sub in
    fold_left (inner_step inner content_bytes) (enumerate inner) st
  else st.

Definition extract_step (siblings : list Node) (content_bytes : string)
    (st : Acc) (ic : nat * Node) : Acc :=
  let '(idx, child) := ic in
  if type child == "preproc_include" then
    fold_left (include_step content_bytes) (children child) st
  else if str_in (type child) ["class_specifier"; "struct_specifier"] then
    let doc := _preceding_doc siblings idx content_bytes in
    add_class (_extract_class child content_bytes doc) st
  else if type child == "function_definition" then
    let doc := _preceding_doc siblings idx content_bytes in
    add_function (_extract_function child content_bytes doc) st
  else if type child == "namespace_definition" then
    fold_left (namespace_step content_bytes) (children child) st
  else st.

(** [CppExtractor.extract], from the root node on *)
Definition extract (file_name content : string) (root : Node) : CodeSkeleton :=
  let content_bytes := content in
  let siblings := children root in
  let st := fold_left (extract_step siblings content_bytes)
                      (enumerate siblings) acc_empty in
  mkCodeSkeleton file_name "C/C++" "" (acc_imports st) (acc_classes st)
                 (acc_functions st).

End cpp.

(** ** The registry and the public facade

    [__init__.py] only forwards to [get_extractor().extract_skeleton]; the
    registry module it imports is modelled here. *)

Module extractor.

Inductive LanguageId : Type :=
  | Python | JavaScript | TypeScript | Java | Cpp | Rust | Go.

(** ASCII [str.lower] *)
Definition lower_char (c : ascii) : ascii :=
  let n := nat_of_ascii c in
  if (65 <=? n) && (n <=? 90) then ascii_of_nat (n + 32) else c.
Fixpoint lower (s : string) : string :=
  match s with
  | EmptyString => EmptyString
  | String c s' => String (lower_char c) (lower s')
  end.

(** Modelled from the spec: the extension of a file name, which the
    registry (missing from the sources) uses as the dispatch key, is taken
    to be the suffix that starts at the last dot, compared without regard
    to case; a name without a dot has the empty extension. *)
Fixpoint last_dot_suffix (s : string) : option string :=
  match s with
  | EmptyString => None
  | String c s' =>
      match last_dot_suffix s' with
      | Some r => Some r
      | None => if Ascii.eqb c "."%char then Some s else None
      end
  end.
Definition extension (file_name : string) : string :=
  match last_dot_suffix file_name with
  | Some ext => lower ext
  | None => ""
  end.

(** Modelled from the spec: the extension to language table of the
    registry (missing from the sources), as the specification lists it. *)
Definition language_of_extension (ext : string) : option LanguageId :=
  if ext == ".py" then Some Python
  else if str_in ext [".js"; ".jsx"; ".mjs"] then Some JavaScript
  else if str_in ext [".ts"; ".tsx"] then Some TypeScript
  else if ext == ".java" then Some Java
  else if str_in ext [".c"; ".h"; ".cc"; ".cpp"; ".cxx"; ".hpp"] then Some Cpp
  else if ext == ".rs" then Some Rust
  else if ext == ".go" then Some Go
  else None.

(** The language name each adapter writes into its skeleton. *)
Definition display_name (lang : LanguageId) : string :=
  match lang with
  | Python => "Python"
  | JavaScript => "JavaScript"
  | TypeScript => "TypeScript"
  | Java => "Java"
  | Cpp => "C/C++"
  | Rust => "Rust"
  | Go => "Go"
  end.

(** Modelled from the spec: the dispatch table of the registry (missing from
    the sources), one adapter per language id; the adapter is applied to the
    root node its parser produced. *)
Definition adapter_extract (lang : LanguageId) (file_name content : string)
    (root : Node) : CodeSkeleton :=
  match lang with
  | Python => python.extract file_name content root
  | JavaScript => js_ts.extract "javascript" file_name content root
  | TypeScript => js_ts.extract "typescript" file_name content root
  | Java => java.extract file_name content root
  | Cpp => cpp.extract file_name content root
  | Rust => rust.extract file_name content root
  | Go => go.extract file_name content root
  end.

Section facade.

(** The external collaborators: whether the grammar of a language loads
    when its adapter is constructed, and the parser of a language, which
    yields the root node of the tree or fails ([None]: the adapter
    raises during extraction). *)
Variable grammar_loads : LanguageId → bool.
Variable parse : LanguageId → string → option Node.

(** Modelled from the spec: [extract_skeleton] of the registry object
    (missing from the sources): dispatch on the extension, extract with
    the selected adapter, serialize; the absence value for an
    unrecognized extension, an adapter whose grammar failed to load and
    an adapter that raises. *)
Definition registry_extract_skeleton (file_name content : string)
    (verbose : bool) : option string :=
  match language_of_extension (extension file_name) with
  | None => None
  | Some lang =>
      if grammar_loads lang then
        match parse lang content with
        | None => None
        | Some root =>
            Some (to_text (adapter_extract lang file_name content root) verbose)
        end
      else None
  end.

(** [extract_skeleton] of [__init__.py] *)
Definition extract_skeleton (file_name content : string) (verbose : bool)
    : option string :=
  registry_extract_skeleton file_name content verbose.

End facade.

End extractor.

(** ** Notions used to state the properties *)

(** The first line of a text and texts without a line break. *)
Definition first_line (s : string) : string := hd "" (split nl_char s).
Definition single_line (s : string) : Prop := char_in s nl_char = false.

(** The header line of a skeleton text. *)
Definition header_line (file_name language : string) : string :=
  "# " +:+ file_name +:+ " [" +:+ language +:+ "]".

(** The whitespace-separated tokens of a text ([s.split()] in Python): the
    text is cut at every whitespace character and the empty pieces are
    dropped. *)
Fixpoint ws_fields (s : string) : list string :=
  match s with
  | EmptyString => [EmptyString]
  | String c s' =>
      if is_space c then EmptyString :: ws_fields s'
      else match ws_fields s' with
           | [] => [String c EmptyString]
           | w :: ws => String c w :: ws
           end
  end.
Definition non_empty (s : string) : Prop := is_empty s = false.
Definition tokens (s : string) : list string := filter non_empty (ws_fields s).

(** The first piece followed by the remaining tokens, each after one space. *)
Definition tail_join (fields : list string) : string :=
  match fields with
  | [] => ""
  | w :: ws =>
      w +:+ match filter non_empty ws with
            | [] => ""
            | ts => " " +:+ join " " ts
            end
  end.

(** Parameter compaction as the specification words it: every run of
    whitespace becomes one space, a trailing comma is removed, nothing else
    changes. *)
Definition strip_trailing_comma (s : string) : string :=
  if endswith s "," then slice_inner 0 1 s else s.
Definition compaction_as_specified (params : string) : string :=
  strip_trailing_comma (re_sub_ws params).

(** The compact doc block as the specification words it: the first source
    line of the docstring between the markers. *)
Definition compact_doc_as_specified (raw indent : string) : list string :=
  [indent +:+ q3 +:+ first_line raw +:+ q3].

(** The verbose doc block as the specification words it: every source line
    of the docstring, each at the indent, between the markers. *)
Definition verbose_doc_as_specified (raw indent : string) : list string :=
  let doc_lines := split nl_char raw in
  [indent +:+ q3 +:+ hd "" doc_lines]
  ++ map (λ l, indent +:+ lstrip_by is_space l) (tl doc_lines)
  ++ [indent +:+ q3].

(** The blocks of lines [to_text] writes for a method, a class and a
    top-level function, and the lines before the first block. *)
Definition method_block (verbose : bool) (method : FunctionSig) : list string :=
  ["  + " +:+ fs_name method +:+ "(" +:+ _compact_params (fs_params method)
   +:+ ")" +:+ ret_suffix (fs_return_type method)]
  ++ _doc verbose (fs_docstring method) "    ".

Definition class_block (verbose : bool) (cls : ClassSkeleton) : list string :=
  ["class " +:+ cs_name cls +:+
   match cs_bases cls with
   | [] => ""
   | _ => "(" +:+ join ", " (cs_bases cls) +:+ ")"
   end]
  ++ _doc verbose (cs_docstring cls) "  "
  ++ flat_map (method_block verbose) (cs_methods cls)
  ++ [""].

Definition function_block (verbose : bool) (fn : FunctionSig) : list string :=
  ["def " +:+ fs_name fn +:+ "(" +:+ _compact_params (fs_params fn)
   +:+ ")" +:+ ret_suffix (fs_return_type fn)]
  ++ _doc verbose (fs_docstring fn) "  ".

Definition head_lines (self : CodeSkeleton) : list string :=
  [header_line (file_name self) (language self)]
  ++ (if is_empty (module_doc self) then []
      else ["module: " +:+ dquote +:+ strip (first_line (module_doc self)) +:+ dquote])
  ++ match imports self with
     | [] => []
     | _ => ["imports: " +:+ join ", " (imports self)]
     end
  ++ [""].

(** A loop whose body only appends to a list variable: the view [π] of the
    state after the body is the view before it followed by what the body
    yields from the empty state [ε]. *)
Definition flow_state {S : Type} (f : Flow S) : S :=
  match f with Next s | Break s => s end.
Definition flow_breaks {S : Type} (f : Flow S) : bool :=
  match f with Next _ => false | Break _ => true end.

Definition appends {S A : Type} (ε : S) (π : S → list A) (f : S → S) : Prop :=
  ∀ st, π (f st) = π st ++ π (f ε).

Definition appends_flow {S A : Type} (ε : S) (π : S → list A)
    (f : S → Flow S) : Prop :=
  ∀ st, π (flow_state (f st)) = π st ++ π (flow_state (f ε))
        ∧ flow_breaks (f st) = flow_breaks (f ε).

(** What one iteration of an [extract] loop adds to each result list, and a
    skeleton whose three lists are these additions in iteration order. *)
Definition in_walk_order {B : Type} (step : Acc → B → Acc) (l : list B)
    (sk : CodeSkeleton) : Prop :=
  imports sk = flat_map (λ x, acc_imports (step acc_empty x)) l
  ∧ classes sk = flat_map (λ x, acc_classes (step acc_empty x)) l
  ∧ functions sk = flat_map (λ x, acc_functions (step acc_empty x)) l.


(** The skeleton a JS/TS walk produces: classes and functions are the
    additions of each iteration in order; an import is kept at its first
    occurrence only. *)
Fixpoint first_occurrences (seen : gset string) (l : list string) : list string :=
  match l with
  | [] => []
  | x :: l' =>
      if decide (x ∈ seen) then first_occurrences seen l'
      else x :: first_occurrences ({[ x ]} ∪ seen) l'
  end.

Definition js_acc_empty : js_ts.JsAcc := js_ts.mkJsAcc [] ∅ [] [].

Definition js_in_walk_order (step : js_ts.JsAcc → nat * Node → js_ts.JsAcc)
    (l : list (nat * Node)) (sk : CodeSkeleton) : Prop :=
  imports sk
  = first_occurrences ∅ (flat_map (λ x, js_ts.js_imports (step js_acc_empty x)) l)
  ∧ classes sk = flat_map (λ x, js_ts.js_classes (step js_acc_empty x)) l
  ∧ functions sk = flat_map (λ x, js_ts.js_functions (step js_acc_empty x)) l.






(** The methods a Rust impl block yields: for each declaration list among
    its children, in order, the function items of the list, in order. *)
Definition rust_impl_methods (node : Node) (content_bytes : string)
    : list FunctionSig :=
  flat_map
    (λ child,
       if type child == "declaration_list"
       then flat_map (rust.method_step (children child) content_bytes [])
                     (enumerate (children child))
       else [])
    (children node).

(** Modelled from the grammar of the Rust parser (an external collaborator):
    in an impl item, a trait that is implemented comes first and is followed
    by the keyword for; the type the block is attached to comes after the
    keyword, or is the first type of the item when there is no keyword.
    [impl_target_name] is the text of that type when it is written as a
    plain type identifier. *)
Fixpoint after_for (nodes : list Node) : option (list Node) :=
  match nodes with
  | [] => None
  | n :: rest => if type n == "for" then Some rest else after_for rest
  end.

Definition impl_target_name (node : Node) (content_bytes : string) : string :=
  let candidates :=
    match after_for (children node) with
    | Some rest => rest
    | None => children node
    end in
  match List.find (λ c, type c == "type_identifier") candidates with
  | Some c => _node_text c content_bytes
  | None => ""
  end.

(** ** Example sources and their parse trees *)

Module examples.

Definition leaf (ty : string) (s e : nat) : Node := mkNode ty s e [].

(** A Go method with a receiver, two parameters and a result type,
    preceded by a line comment. *)
Definition add_src : string :=
  "// Add does X." +:+ nl
  +:+ "func (s *Server) Add(a int, b int) int { return a + b }".
Definition add_method : Node :=
  mkNode "method_declaration" 15 70
    [leaf "func" 15 19; leaf "parameter_list" 20 31;
     leaf "field_identifier" 32 35; leaf "parameter_list" 35 49;
     leaf "type_identifier" 50 53; leaf "block" 54 70].
Definition add_root : Node :=
  mkNode "source_file" 0 70 [leaf "comment" 0 14; add_method].

(** A Go method with a receiver, no parameters and two results; the
    grammar gives the result the node type of a parameter list. *)
Definition pair_src : string :=
  "func (s *Server) Pair() (int, error) { return 0, nil }".
Definition pair_method : Node :=
  mkNode "method_declaration" 0 54
    [leaf "func" 0 4; leaf "parameter_list" 5 16;
     leaf "field_identifier" 17 21; leaf "parameter_list" 21 23;
     leaf "parameter_list" 24 36; leaf "block" 37 54].
Definition pair_root : Node := mkNode "source_file" 0 54 [pair_method].

(** A Rust impl block for Foo with one doc-commented method. *)
Definition foo_src : string :=
  "impl Foo {" +:+ nl
  +:+ "    /// Creates new" +:+ nl
  +:+ "    fn new() -> Self { Self }" +:+ nl
  +:+ "}".
Definition foo_new : Node :=
  mkNode "function_item" 35 60
    [leaf "fn" 35 37; leaf "identifier" 38 41; leaf "parameters" 41 43;
     leaf "->" 44 46; leaf "type_identifier" 47 51; leaf "block" 52 60].
Definition foo_impl : Node :=
  mkNode "impl_item" 0 62
    [leaf "impl" 0 4; leaf "type_identifier" 5 8;
     mkNode "declaration_list" 9 62
       [leaf "{" 9 10;
        mkNode "line_comment" 15 31
          [leaf "//" 15 17; leaf "outer_doc_comment_marker" 17 18;
           leaf "doc_comment" 18 31];
        foo_new;
        leaf "}" 61 62]].
Definition foo_root : Node := mkNode "source_file" 0 62 [foo_impl].

(** A Rust impl block that implements the trait Display for Foo. *)
Definition display_src : string := "impl Display for Foo { }".
Definition display_impl : Node :=
  mkNode "impl_item" 0 24
    [leaf "impl" 0 4; leaf "type_identifier" 5 12; leaf "for" 13 16;
     leaf "type_identifier" 17 20;
     mkNode "declaration_list" 21 24 [leaf "{" 21 22; leaf "}" 23 24]].

(** A Go type declaration of a struct. *)
Definition point_src : string := "type Point struct{}".
Definition point_decl : Node :=
  mkNode "type_declaration" 0 19
    [leaf "type" 0 4;
     mkNode "type_spec" 5 19
       [leaf "type_identifier" 5 10; leaf "struct_type" 11 19]].
Definition point_root : Node := mkNode "source_file" 0 19 [point_decl].

(** A Python module that imports os twice. *)
Definition dup_src : string := "import os" +:+ nl +:+ "import os".
Definition dup_root : Node :=
  mkNode "module" 0 19
    [mkNode "import_statement" 0 9
       [leaf "import" 0 6; mkNode "dotted_name" 7 9 [leaf "identifier" 7 9]];
     mkNode "import_statement" 10 19
       [leaf "import" 10 16; mkNode "dotted_name" 17 19 [leaf "identifier" 17 19]]].

End examples.

(** A class reported without bases and without methods. *)
Definition go_class_bare (cls : ClassSkeleton) : Prop :=
  cs_bases cls = [] ∧ cs_methods cls = [].

(** Nodes none of which is a parameter list. *)
Definition no_parameter_list (l : list Node) : Prop :=
  Forall (λ n, (type n == "parameter_list") = false) l.

(** A skeleton with one function whose docstring has two lines. *)
Definition two_line_doc_skeleton : CodeSkeleton :=
  mkCodeSkeleton "x.py" "Python" "" [] []
    [mkFunctionSig "f" "a" "" ("Does X." +:+ nl +:+ "More.")].

(** The text of the first type identifier with a non-empty text among the
    children of a node. *)
Definition first_named_type (content_bytes : string) (nodes : list Node)
    : string :=
  match List.find (λ c, (type c == "type_identifier")
                        && negb (is_empty (_node_text c content_bytes))) nodes with
  | Some c => _node_text c content_bytes
  | None => ""
  end.


(** ** Notions used to state the order inside a declaration *)



(** A Python module with a from-import of two names, a class with two
    methods, a second class and two functions. *)
Module order_example.


Definition from_import : Node :=
  mkNode "import_from_statement" 0 24
    [examples.leaf "from" 0 4; examples.leaf "dotted_name" 5 7;
     examples.leaf "import" 8 14; examples.leaf "dotted_name" 15 19;
     examples.leaf "," 19 20; examples.leaf "dotted_name" 21 24].

(** a function definition from [a] to [b] whose name ends at [name_end] and
    whose parameters end at [params_end] *)
Definition def_node (a name_end params_end b : nat) : Node :=
  mkNode "function_definition" a b
    [examples.leaf "def" a (a + 3); examples.leaf "identifier" (a + 4) name_end;
     examples.leaf "parameters" name_end params_end;
     examples.leaf ":" params_end (S params_end);
     examples.leaf "block" (b - 4) b].

Definition class_a : Node :=
  mkNode "class_definition" 25 77
    [examples.leaf "class" 25 30; examples.leaf "identifier" 31 32;
     examples.leaf ":" 32 33;
     mkNode "block" 38 77 [def_node 38 43 49 55; def_node 60 65 71 77]].

Definition class_b : Node :=
  mkNode "class_definition" 78 91
    [examples.leaf "class" 78 83; examples.leaf "identifier" 84 85;
     examples.leaf ":" 85 86;
     mkNode "block" 87 91 [examples.leaf "pass_statement" 87 91]].

Definition root : Node :=
  mkNode "module" 0 119
    [from_import; class_a; class_b; def_node 92 97 99 105;
     def_node 106 111 113 119].

End order_example.

(** ** Notions used to state further properties *)

(** Whitespace in compact form: every whitespace character of the text is a
    plain space, and a space is never followed by another whitespace
    character. *)
Definition head_not_space (s : string) : bool :=
  match s with
  | EmptyString => true
  | String d _ => negb (is_space d)
  end.

Fixpoint ws_compact (s : string) : bool :=
  match s with
  | EmptyString => true
  | String c s' =>
      (if is_space c then Ascii.eqb c " "%char && head_not_space s' else true)
      && ws_compact s'
  end.

(** Every character of a text satisfies a test. *)
Fixpoint all_chars (p : ascii → bool) (s : string) : bool :=
  match s with
  | EmptyString => true
  | String c s' => p c && all_chars p s'
  end.

(** A skeleton all of whose docstrings fit on one line. *)
Definition one_line_docs (self : CodeSkeleton) : Prop :=
  Forall (λ cls, single_line (cs_docstring cls)
                 ∧ Forall (λ m, single_line (fs_docstring m)) (cs_methods cls))
         (classes self)
  ∧ Forall (λ fn, single_line (fs_docstring fn)) (functions self).

(** The text a Go comment node adds to a docstring, and the text a Rust doc
    comment node adds. *)
Definition go_comment_line (content_bytes : string) (n : Node) : string :=
  let raw := strip (_node_text n content_bytes) in
  if startswith raw "//" then strip (slice_from 2 raw) else raw.

Definition rust_is_doc_comment (n : Node) : bool :=
  (type n == "line_comment")
  && match List.find (λ c, type c == "doc_comment") (children n) with
     | Some _ => true
     | None => false
     end.

Definition rust_doc_line (content_bytes : string) (n : Node) : string :=
  match List.find (λ c, type c == "doc_comment") (children n) with
  | Some doc_child => strip (_node_text doc_child content_bytes)
  | None => ""
  end.

(** The last node of a list fails a test (or the list is empty). *)
Definition last_fails (p : Node → bool) (l : list Node) : Prop :=
  ∀ n, last l = Some n → p n = false.

(** The first parameter text the Go adapter keeps: the parenthesized
    lists of a declaration in child order, the first of them left out for a
    method, each with its parentheses removed, and of these texts the first
    that is not empty. *)
Definition go_param_lists (is_method : bool) (nodes : list Node) : list Node :=
  let lists := List.filter (λ n, type n == "parameter_list") nodes in
  if is_method then tail lists else lists.

Definition first_non_empty (texts : list string) : string :=
  hd "" (List.filter (λ s, negb (is_empty s)) texts).

(** A text occurs somewhere inside another. *)
Fixpoint occurs (old s : string) : bool :=
  String.prefix old s
  || match s with
     | EmptyString => false
     | String _ s' => occurs old s'
     end.

(** The name one child of a Python from-import contributes: the text of a
    dotted name, or of the dotted name inside an aliased import. *)
Definition python_imported_name (content_bytes : string) (child : Node)
    : list string :=
  if type child == "dotted_name" then [_node_text child content_bytes]
  else if type child == "aliased_import" then
    match List.find (λ sub, type sub == "dotted_name") (children child) with
    | Some sub => [_node_text sub content_bytes]
    | None => []
    end
  else [].

(** The children of a C/C++ function declarator that can name it. *)
Definition cpp_is_name (n : Node) : bool :=
  str_in (type n) ["identifier"; "field_identifier"; "qualified_identifier"].

(** * Properties *)

#[local] Arguments join : simpl never.

(** ** Strings *)

Lemma sapp_nil_l (s : string) : "" +:+ s = s.
Proof. reflexivity. Qed.

Lemma sapp_cons (c : ascii) (s t : string) :
  String c s +:+ t = String c (s +:+ t).
Proof. reflexivity. Qed.

Lemma sapp_nil_r (s : string) : s +:+ "" = s.
Proof. induction s as [|c s IH]; [done|]. by rewrite sapp_cons, IH. Qed.

Lemma sapp_assoc (a b c : string) : (a +:+ b) +:+ c = a +:+ b +:+ c.
Proof. induction a as [|x a IH]; [done|]. by rewrite !sapp_cons, IH. Qed.

Lemma join_cons (sep x : string) (l : list string) :
  join sep (x :: l)
  = x +:+ match l with [] => "" | _ => sep +:+ join sep l end.
Proof. destruct l; unfold join; simpl; [by rewrite sapp_nil_r | done]. Qed.

Lemma char_in_app (a b : string) (c : ascii) :
  char_in (a +:+ b) c = char_in a c || char_in b c.
Proof.
  induction a as [|x a IH]; [done|].
  rewrite sapp_cons. simpl. rewrite IH. by rewrite orb_assoc.
Qed.

Lemma single_line_app (a b : string) :
  single_line a → single_line b → single_line (a +:+ b).
Proof. unfold single_line. intros Ha Hb. by rewrite char_in_app, Ha, Hb. Qed.

Lemma lstrip_by_keep (p : ascii → bool) c s :
  p c = false → lstrip_by p (String c s) = String c s.
Proof. intros Hc. simpl. by rewrite Hc. Qed.

Lemma rstrip_by_keep (p : ascii → bool) c s :
  p c = false → rstrip_by p (String c s) = String c (rstrip_by p s).
Proof. intros Hc. simpl. rewrite Hc. by destruct (rstrip_by p s). Qed.

Lemma rstrip_by_drop (p : ascii → bool) c s :
  p c = true →
  rstrip_by p (String c s)
  = match rstrip_by p s with "" => "" | r => String c r end.
Proof. intros Hc. simpl. by rewrite Hc. Qed.

Lemma rstrip_by_app (p : ascii → bool) (a b : string) :
  rstrip_by p (a +:+ b)
  = match rstrip_by p b with "" => rstrip_by p a | r => a +:+ r end.
Proof.
  induction a as [|c a IH].
  - rewrite sapp_nil_l. by destruct (rstrip_by p b).
  - rewrite sapp_cons. simpl. rewrite IH.
    destruct (rstrip_by p b) as [|d r]; [done|].
    rewrite sapp_cons. by destruct (a +:+ String d r) eqn:E; [destruct a|].
Qed.

(** Stripping yields a piece of the text: no character appears. *)
Lemma char_in_lstrip_by (p : ascii → bool) s c :
  char_in s c = false → char_in (lstrip_by p s) c = false.
Proof.
  induction s as [|x s IH]; [done|]. simpl. intros H.
  apply orb_false_iff in H as [Hx Hs]. destruct (p x); [auto|].
  simpl. by rewrite Hx, Hs.
Qed.

Lemma char_in_rstrip_by (p : ascii → bool) s c :
  char_in s c = false → char_in (rstrip_by p s) c = false.
Proof.
  induction s as [|x s IH]; [done|]. simpl. intros H.
  apply orb_false_iff in H as [Hx Hs]. specialize (IH Hs).
  destruct (rstrip_by p s) as [|d r].
  - destruct (p x); [done|]. simpl. by rewrite Hx.
  - simpl in *. by rewrite Hx, IH.
Qed.

Lemma single_line_strip s : single_line s → single_line (strip s).
Proof.
  unfold single_line, strip, strip_by. intros H.
  by apply char_in_rstrip_by, char_in_lstrip_by.
Qed.

Lemma split_nonnil sep s : split sep s ≠ [].
Proof.
  destruct s as [|c s]; [done|]. simpl.
  destruct (Ascii.eqb c sep); [done|]. by destruct (split sep s).
Qed.

Lemma char_in_cons (d : ascii) (r : string) (c : ascii) :
  char_in (String d r) c = Ascii.eqb c d || char_in r c.
Proof. reflexivity. Qed.

Lemma split_cons (sep c : ascii) (s : string) :
  split sep (String c s)
  = if Ascii.eqb c sep then "" :: split sep s
    else match split sep s with
         | [] => [String c ""]
         | w :: ws => String c w :: ws
         end.
Proof. reflexivity. Qed.

Lemma first_line_cons (c : ascii) (s : string) :
  first_line (String c s)
  = if Ascii.eqb c nl_char then "" else String c (first_line s).
Proof.
  unfold first_line. rewrite split_cons.
  destruct (Ascii.eqb c nl_char); [done|].
  pose proof (split_nonnil nl_char s). by destruct (split nl_char s).
Qed.

Lemma first_line_single s : single_line s → first_line s = s.
Proof.
  unfold single_line. induction s as [|c s IH]; [done|].
  rewrite char_in_cons, first_line_cons. intros H.
  apply orb_false_iff in H as [Hc Hs].
  rewrite Ascii.eqb_sym in Hc. rewrite Hc. by rewrite IH.
Qed.

Lemma first_line_app_nl (h z : string) :
  single_line h → first_line (h +:+ String nl_char z) = h.
Proof.
  unfold single_line. induction h as [|c h IH].
  - intros _. rewrite sapp_nil_l, first_line_cons. by rewrite Ascii.eqb_refl.
  - rewrite char_in_cons, sapp_cons, first_line_cons. intros H.
    apply orb_false_iff in H as [Hc Hs].
    rewrite Ascii.eqb_sym in Hc. rewrite Hc. by rewrite IH.
Qed.

Lemma first_line_is_single s : single_line (first_line s).
Proof.
  unfold single_line. induction s as [|c s IH]; [done|].
  rewrite first_line_cons. destruct (Ascii.eqb c nl_char) eqn:Hc; [done|].
  rewrite char_in_cons, IH, orb_false_r. by rewrite Ascii.eqb_sym.
Qed.

(** ** Whitespace compaction *)

Lemma lstrip_collapsed_run s :
  lstrip_by is_space (re_sub_ws_go true s) = re_sub_ws_go true s.
Proof.
  induction s as [|c s IH]; [done|]. simpl.
  destruct (is_space c) eqn:Hc; [done|]. simpl. by rewrite Hc.
Qed.

Lemma lstrip_collapsed s :
  lstrip_by is_space (re_sub_ws s) = re_sub_ws_go true s.
Proof.
  unfold re_sub_ws. destruct s as [|c s]; [done|]. simpl.
  destruct (is_space c) eqn:Hc; simpl.
  - apply lstrip_collapsed_run.
  - by rewrite Hc.
Qed.

Lemma ws_fields_nonnil s : ws_fields s ≠ [].
Proof.
  destruct s as [|c s]; [done|]. simpl. destruct (is_space c); [done|].
  by destruct (ws_fields s).
Qed.

Lemma tokens_non_empty s : Forall non_empty (tokens s).
Proof.
  unfold tokens. apply list.Forall_forall. intros x Hx.
  by apply list_elem_of_filter in Hx as [? _].
Qed.

Lemma join_tokens_empty (l : list string) :
  Forall non_empty l → join " " l = "" → l = [].
Proof.
  intros Hl Hj. destruct l as [|x l]; [done|].
  rewrite join_cons in Hj. apply Forall_cons in Hl as [Hx _].
  destruct x; [done|]. by rewrite sapp_cons in Hj.
Qed.

Lemma collapse_rstrip s :
  rstrip_by is_space (re_sub_ws_go true s) = join " " (tokens s)
  ∧ rstrip_by is_space (re_sub_ws_go false s) = tail_join (ws_fields s).
Proof.
  induction s as [|c s [IHt IHf]]; [by vm_compute|].
  unfold tokens in *. simpl. destruct (is_space c) eqn:Hc.
  - rewrite filter_cons_False by (by unfold non_empty). split; [done|].
    rewrite rstrip_by_drop by done. rewrite IHt.
    unfold tail_join; rewrite ?sapp_nil_l.
    destruct (filter non_empty (ws_fields s)) as [|t ts] eqn:Hf; [done|].
    pose proof (tokens_non_empty s) as Hne. unfold tokens in Hne.
    rewrite Hf in Hne.
    destruct (join " " (t :: ts)) eqn:Hj; [|done].
    by apply join_tokens_empty in Hj.
  - rewrite rstrip_by_keep by done. rewrite IHf.
    pose proof (ws_fields_nonnil s). destruct (ws_fields s) as [|w ws]; [done|].
    rewrite filter_cons_True by (by unfold non_empty). rewrite join_cons. simpl.
    by destruct (filter non_empty ws).
Qed.

Lemma strip_collapse_tokens s : strip (re_sub_ws s) = join " " (tokens s).
Proof.
  unfold strip, strip_by. rewrite lstrip_collapsed. apply collapse_rstrip.
Qed.

(** C4, as the claim states it, fails: a leading comma is removed as well.
    The code maps the text of a comma followed by the letter a to the letter
    a alone, where collapsing whitespace and removing a trailing comma would
    leave the text unchanged. *)
Lemma compact_params_strips_leading_comma :
  _compact_params ",a" ≠ compaction_as_specified ",a".
Proof. by vm_compute. Qed.

(** C4 (amended): parameter compaction yields the whitespace-separated tokens
    of the raw parameter text joined by single spaces (so every run of
    whitespace inside the text becomes one space and whitespace at either end
    disappears), with every leading and every trailing comma then removed;
    the tokens themselves are left as they are.  The raw text made of a, a
    comma, a line break, three spaces and b is rendered as a, comma, space,
    b. *)
Theorem compact_params_tokens :
  (∀ params : string,
     _compact_params params = strip_chars "," (join " " (tokens params)))
  ∧ _compact_params ("a," +:+ nl +:+ "   b") = "a, b".
Proof.
  split; [|by vm_compute].
  intros params. unfold _compact_params. by rewrite strip_collapse_tokens.
Qed.

(** ** Doc blocks *)

(** C5, as the claim states it, fails: the first line is not kept as it is
    in the source but trimmed.  For the docstring whose first line is the
    letter a followed by a space and whose second line is the letter b, the
    compact doc block holds the letter a alone between the markers. *)
Lemma compact_doc_trims_first_line :
  _doc false ("a " +:+ nl +:+ "b") "  "
  ≠ compact_doc_as_specified ("a " +:+ nl +:+ "b") "  ".
Proof. by vm_compute. Qed.

(** C5 (amended): in compact mode, for every non-empty docstring, the doc
    block is exactly one output line: the indent, the opening marker, the
    first line of the docstring with its leading and trailing whitespace
    removed, and the closing marker; the text between the markers contains
    no line break. *)
Theorem compact_doc_first_line_stripped :
  ∀ raw indent : string,
    raw ≠ "" →
    _doc false raw indent = [indent +:+ q3 +:+ strip (first_line raw) +:+ q3]
    ∧ single_line (strip (first_line raw)).
Proof.
  intros raw indent Hraw. split.
  - unfold _doc. by destruct raw.
  - apply single_line_strip, first_line_is_single.
Qed.

Lemma compact_doc_first_line_stripped_witness :
  _doc false ("Does X. " +:+ nl +:+ "More.") "  "
  = ["  " +:+ q3 +:+ strip (first_line ("Does X. " +:+ nl +:+ "More.")) +:+ q3]
  ∧ single_line (strip (first_line ("Does X. " +:+ nl +:+ "More."))).
Proof. apply compact_doc_first_line_stripped. done. Defined.

(** C6, as the claim states it, fails.  A docstring that starts with an empty
    line followed by the lines a and b is rendered without its empty line,
    because the docstring is trimmed before it is split into lines; and a
    docstring made of an empty line followed by the line abc, whose trimmed
    text is a single line, is rendered as two adjacent markers with nothing
    between them. *)
Lemma verbose_doc_drops_lines :
  _doc true (nl +:+ "a" +:+ nl +:+ "b") "  "
  ≠ verbose_doc_as_specified (nl +:+ "a" +:+ nl +:+ "b") "  "
  ∧ _doc true (nl +:+ "abc") "  " = ["  " +:+ q3 +:+ q3]
  ∧ _doc true (nl +:+ "abc") "  " ≠ verbose_doc_as_specified (nl +:+ "abc") "  ".
Proof. by vm_compute. Qed.

(** C6 (amended): in verbose mode, for every docstring whose text, once its
    leading and trailing whitespace is removed, spans more than one line, the
    doc block has one output line for each line of that trimmed text, in
    order, followed by a closing line: the first is the indent, the opening
    marker and the first line; each later one is the indent and the line
    with its own leading and trailing whitespace removed; the closing line
    is the indent and the marker. *)
Theorem verbose_doc_lines :
  ∀ (raw indent l0 l1 : string) (rest : list string),
    split nl_char (strip raw) = l0 :: l1 :: rest →
    _doc true raw indent
    = [indent +:+ q3 +:+ l0]
      ++ map (λ l, indent +:+ strip l) (l1 :: rest)
      ++ [indent +:+ q3]
    ∧ length (_doc true raw indent) = length (split nl_char (strip raw)) + 1.
Proof.
  intros raw indent l0 l1 rest Hsplit.
  assert (_doc true raw indent
          = [indent +:+ q3 +:+ l0]
            ++ map (λ l, indent +:+ strip l) (l1 :: rest)
            ++ [indent +:+ q3]) as Heq.
  { unfold _doc. destruct raw as [|c raw]; [by vm_compute in Hsplit|].
    simpl is_empty. cbv iota. simpl negb. cbv iota.
    rewrite Hsplit. done. }
  split; [done|]. rewrite Heq, Hsplit. simpl.
  rewrite length_app, length_map. simpl. lia.
Qed.

Lemma verbose_doc_lines_witness :
  _doc true ("Does X." +:+ nl +:+ "  More.  ") "  "
  = ["  " +:+ q3 +:+ "Does X."]
    ++ map (λ l, "  " +:+ strip l) ["  More."]
    ++ ["  " +:+ q3]
  ∧ length (_doc true ("Does X." +:+ nl +:+ "  More.  ") "  ")
    = length (split nl_char (strip ("Does X." +:+ nl +:+ "  More.  "))) + 1.
Proof.
  apply (verbose_doc_lines ("Does X." +:+ nl +:+ "  More.  ") "  "
           "Does X." "  More." []).
  reflexivity.
Defined.

(** Scenario A: a function whose docstring is the line Does X. followed by
    the line More. shows the first line between the markers in compact mode
    and both lines inside the markers in verbose mode. *)
Lemma docstring_example :
  to_text two_line_doc_skeleton false
  = "# x.py [Python]" +:+ nl +:+ nl
    +:+ "def f(a)" +:+ nl
    +:+ "  " +:+ q3 +:+ "Does X." +:+ q3
  ∧ to_text two_line_doc_skeleton true
    = "# x.py [Python]" +:+ nl +:+ nl
      +:+ "def f(a)" +:+ nl
      +:+ "  " +:+ q3 +:+ "Does X." +:+ nl
      +:+ "  More." +:+ nl
      +:+ "  " +:+ q3.
Proof. by vm_compute. Qed.

(** ** Loops that only append *)

Section appending.
Context {S A : Type} (ε : S) (π : S → list A).
Hypothesis view_empty : π ε = [].

Lemma appends_id : appends ε π (λ st, st).
Proof. intros st. by rewrite view_empty, app_nil_r. Qed.

Lemma fold_left_flat_map {B : Type} (step : S → B → S) (l : list B) :
  (∀ x, appends ε π (λ st, step st x)) →
  ∀ st, π (fold_left step l st) = π st ++ flat_map (λ x, π (step ε x)) l.
Proof.
  intros Hstep. induction l as [|x l IH]; intros st; simpl.
  - by rewrite app_nil_r.
  - rewrite IH, (Hstep x st). by rewrite app_assoc.
Qed.

Lemma appends_fold_left {B : Type} (step : S → B → S) (l : list B) :
  (∀ x, appends ε π (λ st, step st x)) →
  appends ε π (λ st, fold_left step l st).
Proof.
  intros Hstep st. rewrite !fold_left_flat_map by done.
  by rewrite view_empty.
Qed.

Lemma appends_for_loop {B : Type} (body : S → B → Flow S) (l : list B) :
  (∀ x, appends_flow ε π (λ st, body st x)) →
  appends ε π (λ st, for_loop body l st).
Proof.
  intros Hbody. induction l as [|x l IH]; intros st; simpl.
  - by rewrite view_empty, app_nil_r.
  - destruct (Hbody x st) as [Hst Hbr].
    destruct (body st x) as [s|s], (body ε x) as [s0|s0]; simpl in *; try done.
    rewrite (IH s), (IH s0), Hst. by rewrite app_assoc.
Qed.

Lemma appends_flow_next (f : S → S) :
  appends ε π f → appends_flow ε π (λ st, Next (f st)).
Proof. intros Hf st. split; [apply Hf | done]. Qed.

Lemma appends_flow_break (f : S → S) :
  appends ε π f → appends_flow ε π (λ st, Break (f st)).
Proof. intros Hf st. split; [apply Hf | done]. Qed.
End appending.

Ltac appends_leaf :=
  intros ?; simpl; rewrite ?app_nil_r, <- ?app_assoc; reflexivity.

(** Walks through the conditionals and nested loops of a loop body. *)
Ltac appends_solve :=
  cbv zeta;
  lazymatch goal with
  | |- appends _ _ (λ st, if ?c then _ else _) => destruct c; appends_solve
  | |- appends _ _ (λ st, match ?c with Some _ => _ | None => _ end) =>
      destruct c; appends_solve
  | |- appends _ _ (λ st, fold_left _ _ st) =>
      apply appends_fold_left; [reflexivity | intros ?; appends_solve]
  | |- appends _ _ (λ st, for_loop _ _ st) =>
      apply appends_for_loop; [reflexivity | intros ?; appends_solve]
  | |- appends_flow _ _ (λ st, if ?c then _ else _) => destruct c; appends_solve
  | |- appends_flow _ _ (λ st, Next _) => apply appends_flow_next; appends_solve
  | |- appends_flow _ _ (λ st, Break _) => apply appends_flow_break; appends_solve
  | |- appends _ _ _ => appends_leaf
  end.

(** ** The lines of the skeleton text *)

Lemma method_step_block verbose lines method :
  skeleton.method_step verbose lines method = lines ++ method_block verbose method.
Proof. unfold skeleton.method_step, method_block. by rewrite <- app_assoc. Qed.

Lemma function_step_block verbose lines fn :
  function_step verbose lines fn = lines ++ function_block verbose fn.
Proof. unfold function_step, function_block. by rewrite <- app_assoc. Qed.

Lemma fold_left_blocks {B : Type} (step : list string → B → list string)
    (block : B → list string) (l : list B) :
  (∀ lines x, step lines x = lines ++ block x) →
  ∀ lines, fold_left step l lines = lines ++ flat_map block l.
Proof.
  intros Hstep. induction l as [|x l IH]; intros lines; simpl.
  - by rewrite app_nil_r.
  - rewrite IH, Hstep. by rewrite <- app_assoc.
Qed.

Lemma class_step_block verbose lines cls :
  class_step verbose lines cls = lines ++ class_block verbose cls.
Proof.
  unfold class_step, class_block.
  rewrite (fold_left_blocks _ _ _ (method_step_block verbose)).
  by rewrite <- !app_assoc.
Qed.

Lemma to_text_lines_blocks (self : CodeSkeleton) (verbose : bool) :
  to_text_lines self verbose
  = head_lines self
    ++ flat_map (class_block verbose) (classes self)
    ++ flat_map (function_block verbose) (functions self).
Proof.
  unfold to_text_lines.
  rewrite (fold_left_blocks _ _ _ (function_step_block verbose)).
  rewrite (fold_left_blocks _ _ _ (class_step_block verbose)).
  unfold head_lines, header_line, first_line. simpl.
  destruct (is_empty (module_doc self)), (imports self); simpl;
    by rewrite <- ?app_assoc.
Qed.

(** ** The header line *)

Lemma header_line_single file_name language :
  single_line file_name → single_line language →
  single_line (header_line file_name language).
Proof.
  intros Hf Hl. unfold header_line.
  repeat apply single_line_app; done.
Qed.

Lemma header_line_rstrip file_name language :
  rstrip_by is_space (header_line file_name language)
  = header_line file_name language.
Proof.
  unfold header_line. rewrite <- !sapp_assoc. by rewrite rstrip_by_app.
Qed.

Lemma first_line_text (h : string) (rest : list string) :
  single_line h → lstrip_by is_space h = h → h ≠ "" →
  rstrip_by is_space h = h →
  first_line (strip (join nl (h :: rest))) = h.
Proof.
  intros Hsingle Hl Hne Hr. rewrite join_cons. unfold strip, strip_by.
  assert (∀ z, lstrip_by is_space (h +:+ z) = h +:+ z) as Hlz.
  { intros z. destruct h as [|c h]; [done|]. simpl in Hl.
    rewrite sapp_cons. simpl. destruct (is_space c); [|done].
    (* a leading whitespace character would have been stripped *)
    exfalso. assert (String.length (lstrip_by is_space h) ≤ String.length h) as Hlen.
    { clear. induction h as [|d h IH]; simpl; [lia|].
      destruct (is_space d); simpl; lia. }
    rewrite Hl in Hlen. simpl in Hlen. lia. }
  rewrite Hlz, rstrip_by_app, Hr.
  destruct rest as [|x rest].
  - simpl. by apply first_line_single.
  - unfold nl at 1. rewrite sapp_cons, sapp_nil_l.
    rewrite rstrip_by_drop by done.
    destruct (rstrip_by is_space (join nl (x :: rest))) as [|d r] eqn:E.
    + by apply first_line_single.
    + by apply first_line_app_nl.
Qed.

Lemma to_text_first_line (self : CodeSkeleton) (verbose : bool) :
  single_line (file_name self) → single_line (language self) →
  first_line (to_text self verbose)
  = header_line (file_name self) (language self).
Proof.
  intros Hf Hl. unfold to_text. rewrite to_text_lines_blocks.
  unfold head_lines. rewrite <- !app_assoc. simpl.
  apply first_line_text.
  - by apply header_line_single.
  - done.
  - done.
  - apply header_line_rstrip.
Qed.

Lemma adapter_file_name lang file_name content root :
  skeleton.file_name (extractor.adapter_extract lang file_name content root)
  = file_name.
Proof. by destruct lang. Qed.

Lemma adapter_language lang file_name content root :
  language (extractor.adapter_extract lang file_name content root)
  = extractor.display_name lang.
Proof. by destruct lang. Qed.

(** C7, as the claim states it, fails: the file name is echoed into the
    header as it is, so a supported file name that contains a line break
    spreads the header over two lines.  For the Python file name made of a,
    a line break and b.py, the first line of the text is the hash sign, a
    space and the letter a. *)
Lemma header_breaks_on_newline_in_file_name :
  first_line
    (to_text (extractor.adapter_extract extractor.Python
                ("a" +:+ nl +:+ "b.py") "" (mkNode "module" 0 0 [])) false)
  ≠ header_line ("a" +:+ nl +:+ "b.py")
                (extractor.display_name extractor.Python).
Proof. by vm_compute. Qed.

(** C7 (amended): for every supported language, every file name that
    contains no line break, every content and parse tree and either
    verbosity, the first line of the text produced from the skeleton the
    language's adapter extracts is exactly the hash sign, a space, the file
    name, a space and the display name of the language in square
    brackets. *)
Theorem first_line_is_header :
  ∀ (lang : extractor.LanguageId) (file_name content : string) (root : Node)
    (verbose : bool),
    single_line file_name →
    first_line
      (to_text (extractor.adapter_extract lang file_name content root) verbose)
    = "# " +:+ file_name +:+ " [" +:+ extractor.display_name lang +:+ "]".
Proof.
  intros lang file_name content root verbose Hsingle.
  rewrite to_text_first_line.
  - by rewrite adapter_file_name, adapter_language.
  - by rewrite adapter_file_name.
  - rewrite adapter_language. by destruct lang.
Qed.

Lemma first_line_is_header_witness :
  first_line
    (to_text (extractor.adapter_extract extractor.Go "main.go" ""
                (mkNode "source_file" 0 0 [])) true)
  = "# " +:+ "main.go" +:+ " [" +:+ extractor.display_name extractor.Go +:+ "]".
Proof. apply first_line_is_header. reflexivity. Defined.

(** ** Walks over the top-level nodes *)

Lemma walk_fold {B : Type} (step : Acc → B → Acc) (l : list B) :
  (∀ x, appends acc_empty acc_imports (λ st, step st x)) →
  (∀ x, appends acc_empty acc_classes (λ st, step st x)) →
  (∀ x, appends acc_empty acc_functions (λ st, step st x)) →
  ∀ file_name language module_doc,
    in_walk_order step l
      (mkCodeSkeleton file_name language module_doc
         (acc_imports (fold_left step l acc_empty))
         (acc_classes (fold_left step l acc_empty))
         (acc_functions (fold_left step l acc_empty))).
Proof.
  intros Hi Hc Hf file_name language module_doc.
  unfold in_walk_order. simpl.
  rewrite (fold_left_flat_map acc_empty acc_imports) by done.
  rewrite (fold_left_flat_map acc_empty acc_classes) by done.
  by rewrite (fold_left_flat_map acc_empty acc_functions) by done.
Qed.

Lemma methods_fold {B : Type} (step : list FunctionSig → B → list FunctionSig)
    (l : list B) :
  (∀ x, appends [] id (λ st, step st x)) →
  ∀ methods, fold_left step l methods = methods ++ flat_map (step []) l.
Proof.
  intros Hstep methods.
  exact (fold_left_flat_map [] id step l Hstep methods).
Qed.

Lemma fold_left_inv {S B : Type} (I : S → Prop) (step : S → B → S)
    (l : list B) :
  (∀ st x, I st → I (step st x)) → ∀ st, I st → I (fold_left step l st).
Proof.
  intros Hstep. induction l as [|x l IH]; intros st Hst; simpl; [done|].
  by apply IH, Hstep.
Qed.

Lemma for_loop_inv {S B : Type} (I : S → Prop) (body : S → B → Flow S)
    (l : list B) :
  (∀ st x, I st → I (flow_state (body st x))) →
  ∀ st, I st → I (for_loop body l st).
Proof.
  intros Hbody. induction l as [|x l IH]; intros st Hst; simpl; [done|].
  specialize (Hbody st x Hst). destruct (body st x) as [s|s]; simpl in *.
  - by apply IH.
  - done.
Qed.

Lemma enumerate_lookup {A : Type} (l : list A) (idx : nat) (x : A) :
  l !! idx = Some x → In (idx, x) (enumerate l).
Proof.
  intros Hx. apply list_elem_of_In, list_elem_of_lookup. exists idx.
  unfold enumerate.
  apply lookup_zip_with_Some. exists idx, x. split; [done|]. split; [|done].
  apply lookup_seq. split; [done|]. by eapply lookup_lt_Some.
Qed.

(** ** The Go adapter *)

Lemma go_step_imports sib c ic :
  appends acc_empty acc_imports (λ st, go.extract_step sib c st ic).
Proof.
  destruct ic as [idx child].
  unfold go.extract_step, go.import_step, go.spec_list_step, go.spec_step,
    go.type_decl_step, go.type_spec_body.
  appends_solve.
Qed.

Lemma go_step_classes sib c ic :
  appends acc_empty acc_classes (λ st, go.extract_step sib c st ic).
Proof.
  destruct ic as [idx child].
  unfold go.extract_step, go.import_step, go.spec_list_step, go.spec_step,
    go.type_decl_step, go.type_spec_body.
  appends_solve.
Qed.

Lemma go_step_functions sib c ic :
  appends acc_empty acc_functions (λ st, go.extract_step sib c st ic).
Proof.
  destruct ic as [idx child].
  unfold go.extract_step, go.import_step, go.spec_list_step, go.spec_step,
    go.type_decl_step, go.type_spec_body.
  appends_solve.
Qed.

Lemma go_walk file_name content root :
  in_walk_order (go.extract_step (children root) content)
                (enumerate (children root))
                (go.extract file_name content root).
Proof.
  apply walk_fold; intros ic;
    [apply go_step_imports | apply go_step_classes | apply go_step_functions].
Qed.

Lemma go_fn_fold_skip is_method c (l : list Node) (st : go.fn_vars) :
  no_parameter_list l →
  go.v_params (fold_left (go.fn_step is_method c) l st) = go.v_params st
  ∧ go.v_param_list_count (fold_left (go.fn_step is_method c) l st)
    = go.v_param_list_count st.
Proof.
  intros Hl. revert st. induction Hl as [|n l Hn _ IH]; intros st; [done|].
  simpl. destruct (IH (go.fn_step is_method c st n)) as [-> ->].
  unfold go.fn_step. rewrite Hn.
  destruct (_ && _); [done|]. destruct (_ && _); [done|].
  by destruct (type n == "type_identifier").
Qed.

Lemma go_params_sticky is_method c (l : list Node) (st : go.fn_vars) :
  go.v_params st ≠ "" →
  go.v_params (fold_left (go.fn_step is_method c) l st) = go.v_params st.
Proof.
  revert st. induction l as [|n l IH]; intros st Hst; [done|].
  simpl. assert (go.v_params (go.fn_step is_method c st n) = go.v_params st) as Hn.
  { unfold go.fn_step.
    destruct (_ && _); [done|]. destruct (_ && _); [done|].
    destruct (type n == "parameter_list").
    - cbv zeta. destruct (_ && _); [done|].
      destruct (go.v_params st); done.
    - by destruct (type n == "type_identifier"). }
  rewrite IH; rewrite Hn; done.
Qed.

(** Where the receiver exclusion holds: in a method declaration whose
    receiver list is followed by a parameter list with a non-empty inner
    text, the reported parameters are the inner text of that second list. *)
Lemma go_method_second_list (node : Node) (c docstring : string)
    (pre mid post : list Node) (recv plist : Node) :
  type node = "method_declaration" →
  children node = pre ++ recv :: mid ++ plist :: post →
  no_parameter_list pre → no_parameter_list mid →
  type recv = "parameter_list" → type plist = "parameter_list" →
  strip_parens (_node_text plist c) ≠ "" →
  fs_params (go._extract_function node c docstring)
  = strip_parens (_node_text plist c).
Proof.
  intros Hnode Hch Hpre Hmid Hrecv Hplist Hne.
  unfold go._extract_function. rewrite Hnode, Hch. simpl fs_params.
  rewrite fold_left_app. simpl fold_left.
  rewrite fold_left_app. simpl fold_left.
  set (st0 := fold_left _ pre _).
  destruct (go_fn_fold_skip true c pre (go.mkFnVars "" "" "" 0) Hpre)
    as [Hp0 Hc0]. fold st0 in Hp0, Hc0. simpl in Hp0, Hc0.
  set (st1 := go.fn_step true c st0 recv).
  assert (go.v_params st1 = "" ∧ go.v_param_list_count st1 = 1) as [Hp1 Hc1].
  { unfold st1, go.fn_step. rewrite Hrecv. simpl.
    destruct (is_empty (go.v_name st0)); simpl; by rewrite Hc0. }
  set (st2 := fold_left _ mid st1).
  destruct (go_fn_fold_skip true c mid st1 Hmid) as [Hp2 Hc2].
  fold st2 in Hp2, Hc2. rewrite Hp1 in Hp2. rewrite Hc1 in Hc2.
  set (st3 := go.fn_step true c st2 plist).
  assert (go.v_params st3 = strip_parens (_node_text plist c)) as Hp3.
  { unfold st3, go.fn_step. rewrite Hplist. simpl.
    destruct (is_empty (go.v_name st2)); simpl; by rewrite Hc2, Hp2. }
  rewrite go_params_sticky; rewrite Hp3; done.
Qed.

(** Scenario B: the receiver list is left out, the parameters, the result
    type and the doc comment of the method are reported. *)
Lemma go_receiver_excluded_example :
  functions (go.extract "server.go" examples.add_src examples.add_root)
  = [mkFunctionSig "Add" "a int, b int" "int" "Add does X."].
Proof. by vm_compute. Qed.

(** C2 (code defect): for a method with a receiver, an empty parameter list
    and a parenthesized result list, the adapter leaves the receiver out but
    does not report the second parameter list, whose text is empty: the
    guard that keeps the first parameter text found treats the empty text as
    not yet found, and the result list takes its place. *)
Theorem go_method_reports_result_list_as_params :
  go._extract_function examples.pair_method examples.pair_src ""
  = mkFunctionSig "Pair" "int, error" "" ""
  ∧ to_text (go.extract "server.go" examples.pair_src examples.pair_root) false
    = "# server.go [Go]" +:+ nl +:+ nl +:+ "def Pair(int, error)".
Proof. by vm_compute. Qed.

Lemma go_step_classes_bare sib c st ic :
  Forall go_class_bare (acc_classes st) →
  Forall go_class_bare (acc_classes (go.extract_step sib c st ic)).
Proof.
  set (I := λ st : Acc, Forall go_class_bare (acc_classes st)).
  assert (∀ st s, I st → I (go.spec_step c st s)) as Hspec.
  { intros st' s Hst. unfold go.spec_step.
    by destruct (type s == "interpreted_string_literal"). }
  destruct ic as [idx child]. revert st. change (∀ st, I st → I (go.extract_step sib c st (idx, child))).
  unfold go.extract_step, go.import_step, go.spec_list_step, go.type_decl_step,
    go.type_spec_body.
  destruct (type child == "import_declaration").
  { apply (fold_left_inv I). intros st sub Hst.
    destruct (type sub == "import_spec").
    { revert st Hst. by apply (fold_left_inv I). }
    destruct (type sub == "import_spec_list"); [|done].
    revert st Hst. apply (fold_left_inv I). intros st s2 Hst.
    destruct (type s2 == "import_spec"); [|done].
    revert st Hst. by apply (fold_left_inv I). }
  destruct (str_in (type child) _); [done|].
  destruct (type child == "type_declaration"); [|done].
  apply (fold_left_inv I).
  intros st sub Hst. destruct (type sub == "type_spec"); [|done].
  revert st Hst. apply (for_loop_inv I). intros st s2 Hst.
  destruct (str_in (type s2) _); [|done]. unfold I. simpl.
  apply Forall_app. split; [done|]. by apply Forall_singleton.
Qed.

(** C10: every class the Go adapter reports has an empty list of bases and
    an empty list of methods, and every method declaration among the
    top-level nodes is placed, with the doc comment that precedes it, in the
    list of top-level functions. *)
Theorem go_classes_bare_methods_top_level :
  ∀ (file_name content : string) (root : Node),
    Forall (λ cls, cs_bases cls = [] ∧ cs_methods cls = [])
           (classes (go.extract file_name content root))
    ∧ ∀ (idx : nat) (child : Node),
        children root !! idx = Some child →
        type child = "method_declaration" →
        In (go._extract_function child content
              (go._preceding_doc (children root) idx content))
           (functions (go.extract file_name content root)).
Proof.
  intros file_name content root. split.
  - unfold go.extract. simpl.
    apply (fold_left_inv (λ st, Forall go_class_bare (acc_classes st))).
    + intros st ic. apply go_step_classes_bare.
    + by apply Forall_nil.
  - intros idx child Hchild Htype.
    destruct (go_walk file_name content root) as (_ & _ & ->).
    apply in_flat_map. exists (idx, child). split.
    + by apply enumerate_lookup.
    + unfold go.extract_step. rewrite Htype. simpl. by left.
Qed.

Lemma go_classes_bare_methods_top_level_witness :
  In (go._extract_function examples.add_method examples.add_src
        (go._preceding_doc (children examples.add_root) 1 examples.add_src))
     (functions (go.extract "server.go" examples.add_src examples.add_root)).
Proof.
  apply (go_classes_bare_methods_top_level "server.go" examples.add_src
           examples.add_root); reflexivity.
Defined.

(** ** The Rust adapter *)

Lemma rust_step_imports sib c ic :
  appends acc_empty acc_imports (λ st, rust.extract_step sib c st ic).
Proof. destruct ic as [idx child]. unfold rust.extract_step. appends_solve. Qed.

Lemma rust_step_classes sib c ic :
  appends acc_empty acc_classes (λ st, rust.extract_step sib c st ic).
Proof. destruct ic as [idx child]. unfold rust.extract_step. appends_solve. Qed.

Lemma rust_step_functions sib c ic :
  appends acc_empty acc_functions (λ st, rust.extract_step sib c st ic).
Proof. destruct ic as [idx child]. unfold rust.extract_step. appends_solve. Qed.

Lemma rust_walk file_name content root :
  in_walk_order (rust.extract_step (children root) content)
                (enumerate (children root))
                (rust.extract file_name content root).
Proof.
  apply walk_fold; intros ic;
    [apply rust_step_imports | apply rust_step_classes
     | apply rust_step_functions].
Qed.

Lemma rust_method_step_appends sib c ic :
  appends [] id (λ methods, rust.method_step sib c methods ic).
Proof. destruct ic as [idx sub]. unfold rust.method_step. appends_solve. Qed.

Lemma rust_impl_fold c (nodes : list Node) (name : string)
    (methods : list FunctionSig) :
  fold_left (rust.impl_step c) nodes (name, methods)
  = (if is_empty name then first_named_type c nodes else name,
     methods
     ++ flat_map
          (λ child,
             if type child == "declaration_list"
             then flat_map (rust.method_step (children child) c [])
                           (enumerate (children child))
             else [])
          nodes).
Proof.
  revert name methods. induction nodes as [|child nodes IH]; intros name methods.
  { simpl. rewrite app_nil_r. by destruct name. }
  change (fold_left (rust.impl_step c) (child :: nodes) (name, methods))
    with (fold_left (rust.impl_step c) nodes
            (rust.impl_step c (name, methods) child)).
  destruct (rust.impl_step c (name, methods) child) as [name' methods'] eqn:Hstep.
  rewrite IH. unfold rust.impl_step in Hstep.
  unfold first_named_type. simpl List.find. simpl flat_map.
  destruct (type child == "type_identifier") eqn:Hty.
  - assert ((type child == "declaration_list") = false) as Hdl.
    { apply String.eqb_eq in Hty. by rewrite Hty. }
    rewrite Hdl in *. simpl in *. destruct (is_empty name) eqn:Hname; simpl in *.
    + injection Hstep; intros; subst name' methods'.
      destruct (is_empty (_node_text child c)) eqn:Hc; simpl; [|done].
      destruct (_node_text child c); done.
    + injection Hstep; intros; subst name' methods'. by rewrite Hname.
  - rewrite andb_false_l in *. simpl in *.
    destruct (type child == "declaration_list").
    + injection Hstep; intros; subst name' methods'.
      rewrite (methods_fold _ _ (rust_method_step_appends _ c)).
      by rewrite <- app_assoc.
    + by injection Hstep; intros; subst name' methods'.
Qed.

Lemma rust_impl_shape node c :
  rust._extract_impl node c
  = mkClassSkeleton ("impl " +:+ first_named_type c (children node)) [] ""
                    (rust_impl_methods node c).
Proof.
  unfold rust._extract_impl. by rewrite rust_impl_fold.
Qed.

Lemma find_first_named c (nodes : list Node) (n : Node) :
  List.find (λ x, type x == "type_identifier") nodes = Some n →
  _node_text n c ≠ "" →
  first_named_type c nodes = _node_text n c.
Proof.
  unfold first_named_type. induction nodes as [|x nodes IH]; [done|].
  simpl. destruct (type x == "type_identifier"); simpl.
  - intros [= ->] Hne. by destruct (_node_text n c) eqn:E.
  - auto.
Qed.

(** C3, as the claim states it, fails: a block that implements a trait for a
    type is named after the trait.  The block that implements Display for
    Foo is attached to the type Foo and is reported as the class impl
    Display. *)
Lemma rust_trait_impl_named_after_trait :
  cs_name (rust._extract_impl examples.display_impl examples.display_src)
  ≠ "impl " +:+ impl_target_name examples.display_impl examples.display_src.
Proof. by vm_compute. Qed.

(** C3 (amended): for every Rust impl block that implements no trait (it has
    no for keyword) and whose target type is written as a plain type
    identifier T with a non-empty text, the adapter yields a class named impl
    T.  For every impl block the class has no bases and an empty docstring
    and holds, in source order, the methods collected from the function items
    of the declaration lists of the block; every top-level impl block is
    reported as such a class of its own; a struct, trait or enum declaration
    is reported without any method.  The impl block for Foo with the
    doc-commented method new returning Self yields the class impl Foo with
    the method new, no parameters, return type Self and docstring Creates
    new. *)
Theorem rust_impl_block_synthetic_class :
  (∀ (node : Node) (content : string),
     after_for (children node) = None →
     impl_target_name node content ≠ "" →
     cs_name (rust._extract_impl node content)
     = "impl " +:+ impl_target_name node content)
  ∧ (∀ (node : Node) (content : string),
       cs_bases (rust._extract_impl node content) = []
       ∧ cs_docstring (rust._extract_impl node content) = ""
       ∧ cs_methods (rust._extract_impl node content)
         = rust_impl_methods node content)
  ∧ (∀ (file_name content : string) (root : Node) (idx : nat) (child : Node),
       children root !! idx = Some child →
       type child = "impl_item" →
       In (rust._extract_impl child content)
          (classes (rust.extract file_name content root)))
  ∧ (∀ (node : Node) (content docstring : string),
       cs_methods (rust._extract_struct_or_trait node content docstring) = [])
  ∧ classes (rust.extract "foo.rs" examples.foo_src examples.foo_root)
    = [mkClassSkeleton "impl Foo" [] ""
         [mkFunctionSig "new" "" "Self" "Creates new"]].
Proof.
  split; [|split; [|split; [|split]]].
  - intros node content Hfor Hname. rewrite rust_impl_shape. simpl.
    unfold impl_target_name in *. rewrite Hfor in *.
    destruct (List.find _ (children node)) as [n|] eqn:Hfind; [|done].
    by rewrite (find_first_named _ _ _ Hfind Hname).
  - intros node content. by rewrite rust_impl_shape.
  - intros file_name content root idx child Hchild Htype.
    destruct (rust_walk file_name content root) as (_ & -> & _).
    apply in_flat_map. exists (idx, child). split.
    + by apply enumerate_lookup.
    + unfold rust.extract_step. rewrite Htype. simpl. by left.
  - intros node content docstring. unfold rust._extract_struct_or_trait.
    by destruct (fold_left _ _ _).
  - by vm_compute.
Qed.

Lemma rust_impl_block_synthetic_class_witness :
  cs_name (rust._extract_impl examples.foo_impl examples.foo_src)
  = "impl " +:+ impl_target_name examples.foo_impl examples.foo_src.
Proof.
  apply (proj1 rust_impl_block_synthetic_class); [reflexivity | by vm_compute].
Defined.

(** ** The Python adapter *)







(** ** The Java adapter *)






(** ** The C and C++ adapter *)







(** ** The JavaScript and TypeScript adapter *)

#[local] Set Warnings "-clear-no-such-hyp".

Lemma first_occurrences_app (seen : gset string) (a b : list string) :
  first_occurrences seen (a ++ b)
  = first_occurrences seen a ++ first_occurrences (list_to_set a ∪ seen) b.
Proof.
  revert seen. induction a as [|x a IH]; intros seen; simpl.
  - by rewrite (left_id_L ∅ (∪)).
  - destruct (decide (x ∈ seen)) as [Hx|Hx].
    + rewrite IH. do 2 f_equal. set_solver.
    + simpl. rewrite IH. do 3 f_equal. set_solver.
Qed.

Lemma first_occurrences_fresh (seen : gset string) (l : list string) :
  NoDup (first_occurrences seen l)
  ∧ ∀ x, x ∈ first_occurrences seen l → x ∉ seen.
Proof.
  revert seen. induction l as [|x l IH]; intros seen; simpl.
  - split; [constructor | by intros x ?%elem_of_nil].
  - destruct (decide (x ∈ seen)) as [Hx|Hx]; [apply IH|].
    destruct (IH ({[ x ]} ∪ seen)) as [Hnd Hfresh]. split.
    + constructor; [|done]. intros Hin. apply Hfresh in Hin. set_solver.
    + intros y [->|Hy]%elem_of_cons; [done|].
      apply Hfresh in Hy. set_solver.
Qed.

(** The loop over the children of an import statement touches neither the
    classes nor the functions, and adds the text of the first string child
    unless it has been seen. *)
Lemma js_import_loop c (l : list Node) (st : js_ts.JsAcc) :
  let st' := for_loop (js_ts.import_body c) l st in
  let raws := js_ts.js_imports (for_loop (js_ts.import_body c) l js_acc_empty) in
  js_ts.js_classes st' = js_ts.js_classes st
  ∧ js_ts.js_functions st' = js_ts.js_functions st
  ∧ js_ts.js_imports st'
    = js_ts.js_imports st ++ first_occurrences (js_ts.js_seen_imports st) raws
  ∧ js_ts.js_seen_imports st' = list_to_set raws ∪ js_ts.js_seen_imports st.
Proof.
  induction l as [|sub l IH]; simpl.
  { rewrite app_nil_r. repeat split; set_solver. }
  unfold js_ts.import_body at 1 3 5 7 9 11.
  destruct (type sub == "string"); [|apply IH].
  cbv zeta. simpl flow_state.
  destruct (decide (_ ∈ js_ts.js_seen_imports js_acc_empty)) as [Habs|_];
    [by apply elem_of_empty in Habs|].
  destruct (decide (_ ∈ js_ts.js_seen_imports st)) as [Hin|Hnot]; simpl.
  - destruct (decide (_ ∈ js_ts.js_seen_imports st)); [|done].
    rewrite app_nil_r. repeat split; set_solver.
  - destruct (decide (_ ∈ js_ts.js_seen_imports st)); [done|].
    repeat split; set_solver.
Qed.

Lemma js_declarator_step_shape sib idx c ln (s2 : Node) (fn_name : string) :
  ∃ (fn_name' : string) (fs : list FunctionSig),
    ∀ st, js_ts.declarator_step sib idx c ln (fn_name, st) s2
          = (fn_name',
             js_ts.mkJsAcc (js_ts.js_imports st) (js_ts.js_seen_imports st)
                           (js_ts.js_classes st) (js_ts.js_functions st ++ fs)).
Proof.
  unfold js_ts.declarator_step.
  destruct (type s2 == "identifier").
  { exists (_node_text s2 c), []. intros [? ? ? ?]. simpl. by rewrite app_nil_r. }
  destruct (type s2 == "arrow_function").
  { eexists fn_name, [_]. intros st. reflexivity. }
  exists fn_name, []. intros [? ? ? ?]. simpl. by rewrite app_nil_r.
Qed.

Lemma js_declarator_fold_shape sib idx c ln (l : list Node) (fn_name : string) :
  ∃ (fn_name' : string) (fs : list FunctionSig),
    ∀ st, fold_left (js_ts.declarator_step sib idx c ln) l (fn_name, st)
          = (fn_name',
             js_ts.mkJsAcc (js_ts.js_imports st) (js_ts.js_seen_imports st)
                           (js_ts.js_classes st) (js_ts.js_functions st ++ fs)).
Proof.
  revert fn_name. induction l as [|s2 l IH]; intros fn_name.
  { exists fn_name, []. intros [? ? ? ?]. simpl. by rewrite app_nil_r. }
  destruct (js_declarator_step_shape sib idx c ln s2 fn_name) as (fn1 & fs1 & H1).
  destruct (IH fn1) as (fn2 & fs2 & H2).
  exists fn2, (fs1 ++ fs2). intros st.
  change (fold_left (js_ts.declarator_step sib idx c ln) (s2 :: l) (fn_name, st))
    with (fold_left (js_ts.declarator_step sib idx c ln) l
            (js_ts.declarator_step sib idx c ln (fn_name, st) s2)).
  rewrite H1, H2. simpl. by rewrite <- app_assoc.
Qed.

Lemma js_declarator_fold sib idx c ln (l : list Node) (fn_name : string)
    (st : js_ts.JsAcc) :
  let r := fold_left (js_ts.declarator_step sib idx c ln) l (fn_name, st) in
  let r0 := fold_left (js_ts.declarator_step sib idx c ln) l (fn_name, js_acc_empty) in
  js_ts.js_classes (snd r) = js_ts.js_classes st ++ js_ts.js_classes (snd r0)
  ∧ js_ts.js_functions (snd r)
    = js_ts.js_functions st ++ js_ts.js_functions (snd r0)
  ∧ js_ts.js_imports (snd r) = js_ts.js_imports st
  ∧ js_ts.js_seen_imports (snd r) = js_ts.js_seen_imports st.
Proof.
  cbv zeta.
  destruct (js_declarator_fold_shape sib idx c ln l fn_name) as (fn' & fs & H).
  rewrite !H. simpl. by rewrite app_nil_r.
Qed.

Lemma js_lexical_step_classes sib idx c ln sub :
  appends js_acc_empty js_ts.js_classes
          (λ st, js_ts.lexical_step sib idx c ln st sub).
Proof.
  unfold js_ts.lexical_step.
  destruct (type sub == "variable_declarator"); [|appends_leaf].
  intros st. apply js_declarator_fold.
Qed.

Lemma js_lexical_step_functions sib idx c ln sub :
  appends js_acc_empty js_ts.js_functions
          (λ st, js_ts.lexical_step sib idx c ln st sub).
Proof.
  unfold js_ts.lexical_step.
  destruct (type sub == "variable_declarator"); [|appends_leaf].
  intros st. apply js_declarator_fold.
Qed.

Lemma js_step_classes sib c ln ic :
  appends js_acc_empty js_ts.js_classes
          (λ st, js_ts.extract_step sib c ln st ic).
Proof.
  destruct ic as [idx child]. unfold js_ts.extract_step, js_ts.export_body.
  destruct (type child == "import_statement").
  { intros st. destruct (js_import_loop c (children child) st) as (-> & _).
    destruct (js_import_loop c (children child) js_acc_empty) as (-> & _).
    by rewrite app_nil_r. }
  destruct (type child == "class_declaration"); [appends_solve|].
  destruct (str_in (type child) _); [appends_solve|].
  destruct (type child == "export_statement"); [appends_solve|].
  destruct (type child == "lexical_declaration"); [|appends_solve].
  apply appends_fold_left; [done|]. intros sub.
  apply js_lexical_step_classes.
Qed.

Lemma js_step_functions sib c ln ic :
  appends js_acc_empty js_ts.js_functions
          (λ st, js_ts.extract_step sib c ln st ic).
Proof.
  destruct ic as [idx child]. unfold js_ts.extract_step, js_ts.export_body.
  destruct (type child == "import_statement").
  { intros st. destruct (js_import_loop c (children child) st) as (_ & -> & _).
    destruct (js_import_loop c (children child) js_acc_empty) as (_ & -> & _).
    by rewrite app_nil_r. }
  destruct (type child == "class_declaration"); [appends_solve|].
  destruct (str_in (type child) _); [appends_solve|].
  destruct (type child == "export_statement"); [appends_solve|].
  destruct (type child == "lexical_declaration"); [|appends_solve].
  apply appends_fold_left; [done|]. intros sub.
  apply js_lexical_step_functions.
Qed.

(** A step that leaves the imports and the set of seen imports alone. *)
Lemma js_lexical_step_keeps sib idx c ln st sub :
  js_ts.js_imports (js_ts.lexical_step sib idx c ln st sub) = js_ts.js_imports st
  ∧ js_ts.js_seen_imports (js_ts.lexical_step sib idx c ln st sub)
    = js_ts.js_seen_imports st.
Proof.
  unfold js_ts.lexical_step.
  destruct (type sub == "variable_declarator"); [|done].
  by destruct (js_declarator_fold sib idx c ln (children sub) "" st)
    as (_ & _ & -> & ->).
Qed.

Lemma js_step_imports sib c ln st ic :
  let raws := js_ts.js_imports (js_ts.extract_step sib c ln js_acc_empty ic) in
  js_ts.js_imports (js_ts.extract_step sib c ln st ic)
  = js_ts.js_imports st ++ first_occurrences (js_ts.js_seen_imports st) raws
  ∧ js_ts.js_seen_imports (js_ts.extract_step sib c ln st ic)
    = list_to_set raws ∪ js_ts.js_seen_imports st.
Proof.
  destruct ic as [idx child]. cbv zeta.
  set (keeps := λ (f : js_ts.JsAcc → js_ts.JsAcc),
         ∀ st, js_ts.js_imports (f st) = js_ts.js_imports st
               ∧ js_ts.js_seen_imports (f st) = js_ts.js_seen_imports st).
  assert (∀ f, keeps f →
            js_ts.js_imports (f st)
            = js_ts.js_imports st
              ++ first_occurrences (js_ts.js_seen_imports st)
                   (js_ts.js_imports (f js_acc_empty))
            ∧ js_ts.js_seen_imports (f st)
              = list_to_set (js_ts.js_imports (f js_acc_empty))
                ∪ js_ts.js_seen_imports st) as Hkeeps.
  { intros f Hf. destruct (Hf st) as [-> ->].
    destruct (Hf js_acc_empty) as [-> _]. simpl.
    rewrite app_nil_r. split; [done | set_solver]. }
  unfold js_ts.extract_step.
  destruct (type child == "import_statement").
  { by destruct (js_import_loop c (children child) st) as (_ & _ & -> & ->). }
  destruct (type child == "class_declaration").
  { by apply (Hkeeps (λ st, js_ts.js_add_class _ st)). }
  destruct (str_in (type child) _).
  { by apply (Hkeeps (λ st, js_ts.js_add_function _ st)). }
  destruct (type child == "export_statement").
  { apply (Hkeeps (λ st, for_loop _ (children child) st)). intros st0.
    apply (for_loop_inv
             (λ s, js_ts.js_imports s = js_ts.js_imports st0
                   ∧ js_ts.js_seen_imports s = js_ts.js_seen_imports st0));
      [|done].
    intros s sub Hs. unfold js_ts.export_body.
    destruct (type sub == "class_declaration"); [done|].
    by destruct (str_in (type sub) _). }
  destruct (type child == "lexical_declaration").
  { apply (Hkeeps (λ st, fold_left _ (children child) st)). intros st0.
    apply (fold_left_inv
             (λ s, js_ts.js_imports s = js_ts.js_imports st0
                   ∧ js_ts.js_seen_imports s = js_ts.js_seen_imports st0));
      [|done].
    intros s sub [<- <-]. apply js_lexical_step_keeps. }
  by apply (Hkeeps (λ st, st)).
Qed.

Lemma js_fold_imports sib c ln (l : list (nat * Node)) (st : js_ts.JsAcc) :
  let raws :=
    flat_map (λ ic, js_ts.js_imports (js_ts.extract_step sib c ln js_acc_empty ic)) l in
  js_ts.js_imports (fold_left (js_ts.extract_step sib c ln) l st)
  = js_ts.js_imports st ++ first_occurrences (js_ts.js_seen_imports st) raws
  ∧ js_ts.js_seen_imports (fold_left (js_ts.extract_step sib c ln) l st)
    = list_to_set raws ∪ js_ts.js_seen_imports st.
Proof.
  cbv zeta. revert st. induction l as [|ic l IH]; intros st; simpl.
  { rewrite app_nil_r. split; [done | set_solver]. }
  destruct (IH (js_ts.extract_step sib c ln st ic)) as [-> ->].
  destruct (js_step_imports sib c ln st ic) as [-> ->].
  rewrite first_occurrences_app, <- app_assoc. split; [done|].
  rewrite list_to_set_app_L. set_solver.
Qed.

Lemma js_walk lang file_name content root :
  js_in_walk_order
    (js_ts.extract_step (children root) content (js_ts.lang_name_of lang))
    (enumerate (children root))
    (js_ts.extract lang file_name content root).
Proof.
  unfold js_in_walk_order, js_ts.extract. cbv zeta.
  change (js_ts.mkJsAcc [] ∅ [] []) with js_acc_empty.
  cbn [imports classes functions]. split; [|split].
  - by destruct (js_fold_imports (children root) content
                   (js_ts.lang_name_of lang) (enumerate (children root))
                   js_acc_empty) as [-> _].
  - by rewrite (fold_left_flat_map js_acc_empty js_ts.js_classes)
      by (intros ic; apply js_step_classes).
  - by rewrite (fold_left_flat_map js_acc_empty js_ts.js_functions)
      by (intros ic; apply js_step_functions).
Qed.



(** ** Order and duplicates *)









(** ** The order inside a declaration *)












(** C9: the imports the JS/TS adapter produces never contain an entry twice,
    whereas the Python adapter keeps repeated imports: there is a Python
    source whose imports list contains an entry twice. *)
Theorem import_dedup_is_adapter_specific :
  (∀ (lang file_name content : string) (root : Node),
     NoDup (imports (js_ts.extract lang file_name content root)))
  ∧ ∃ (file_name content : string) (root : Node),
      ¬ NoDup (imports (python.extract file_name content root)).
Proof.
  split.
  - intros lang file_name content root.
    destruct (js_walk lang file_name content root) as (-> & _).
    apply first_occurrences_fresh.
  - exists "dup.py", examples.dup_src, examples.dup_root.
    assert (imports (python.extract "dup.py" examples.dup_src examples.dup_root)
            = ["os"; "os"]) as -> by (by vm_compute).
    intros Hnd. apply NoDup_cons in Hnd as [Hnotin _].
    apply Hnotin. by left.
Qed.

(** ** The facade *)

(** The header of every text the facade returns. *)
Lemma facade_first_line grammar_loads parse file_name content verbose text :
  single_line file_name →
  extractor.extract_skeleton grammar_loads parse file_name content verbose
  = Some text →
  ∃ lang,
    extractor.language_of_extension (extractor.extension file_name) = Some lang
    ∧ first_line text
      = header_line file_name (extractor.display_name lang).
Proof.
  intros Hsingle.
  unfold extractor.extract_skeleton, extractor.registry_extract_skeleton.
  destruct (extractor.language_of_extension _) as [lang|]; [|done].
  destruct (grammar_loads lang); [|done].
  destruct (parse lang content) as [root|]; [|done].
  intros [= <-]. exists lang. split; [done|].
  rewrite to_text_first_line.
  - by rewrite adapter_file_name, adapter_language.
  - by rewrite adapter_file_name.
  - rewrite adapter_language. by destruct lang.
Qed.

(** C1: the facade is a total function into the optional texts: for every
    input it returns a text or the absence value, and it returns a text
    exactly when the extension of the file name is in the table, the grammar
    of the selected language loads and its parser yields a tree, the text
    then being the serialized skeleton.  In particular it returns the absence
    value for every file name whose extension is not in the table, such as
    one ending in .xyz, whatever the content; when the grammar of the
    selected adapter failed to load; and when the selected adapter raises
    during extraction. *)
Theorem facade_returns_text_or_absence :
  ∀ (grammar_loads : extractor.LanguageId → bool)
    (parse : extractor.LanguageId → string → option Node)
    (file_name content : string) (verbose : bool),
    let result :=
      extractor.extract_skeleton grammar_loads parse file_name content verbose in
    (result = None ∨ ∃ text, result = Some text)
    ∧ (∀ text,
         result = Some text ↔
         ∃ lang root,
           extractor.language_of_extension (extractor.extension file_name)
           = Some lang
           ∧ grammar_loads lang = true
           ∧ parse lang content = Some root
           ∧ text = to_text (extractor.adapter_extract lang file_name content root)
                            verbose)
    ∧ (extractor.language_of_extension (extractor.extension file_name) = None →
       result = None)
    ∧ (∀ lang,
         extractor.language_of_extension (extractor.extension file_name)
         = Some lang →
         grammar_loads lang = false → result = None)
    ∧ (∀ lang,
         extractor.language_of_extension (extractor.extension file_name)
         = Some lang →
         parse lang content = None → result = None)
    ∧ extractor.language_of_extension (extractor.extension ("notes" +:+ ".xyz"))
      = None.
Proof.
  intros grammar_loads parse file_name content verbose result.
  unfold result, extractor.extract_skeleton, extractor.registry_extract_skeleton.
  destruct (extractor.language_of_extension (extractor.extension file_name))
    as [lang|] eqn:Hlang.
  - destruct (grammar_loads lang) eqn:Hload.
    + destruct (parse lang content) as [root|] eqn:Hparse.
      * repeat split; try done; eauto.
        -- intros [= <-]. by exists lang, root.
        -- intros (l & r & [= <-] & _ & Hr & ->). rewrite Hparse in Hr.
           by injection Hr as <-.
        -- intros l [= <-] Hl. by rewrite Hload in Hl.
        -- intros l [= <-] Hp. by rewrite Hparse in Hp.
      * repeat split; try done; eauto.
        intros (l & r & [= <-] & _ & Hr & _). by rewrite Hparse in Hr.
    + repeat split; try done; eauto.
      intros (l & r & [= <-] & Hl & _). by rewrite Hload in Hl.
  - repeat split; try done; eauto.
    by intros (l & r & ? & _).
Qed.

Lemma facade_returns_text_or_absence_witness :
  extractor.extract_skeleton (λ _, true) (λ _ _, None)
    ("notes" +:+ ".xyz") "any content" false = None.
Proof.
  apply (facade_returns_text_or_absence (λ _, true) (λ _ _, None)
           ("notes" +:+ ".xyz") "any content" false).
  reflexivity.
Defined.

(** * Further properties *)

(** ** More on strings *)

Lemma slength_app (a b : string) :
  String.length (a +:+ b) = String.length a + String.length b.
Proof. induction a as [|c a IH]; [done|]. rewrite sapp_cons. simpl. by rewrite IH. Qed.

Lemma substring_all (s : string) : String.substring 0 (String.length s) s = s.
Proof. induction s as [|c s IH]; [done|]. simpl. by rewrite IH. Qed.

Lemma substring_prefix (a b : string) :
  String.substring 0 (String.length a) (a +:+ b) = a.
Proof.
  induction a as [|c a IH].
  - simpl. by destruct b.
  - rewrite sapp_cons. simpl. by rewrite IH.
Qed.

Lemma substring_skip (a b : string) (m : nat) :
  String.substring (String.length a) m (a +:+ b) = String.substring 0 m b.
Proof. induction a as [|c a IH]; [done|]. rewrite sapp_cons. simpl. apply IH. Qed.

Lemma startswith_app (p s : string) : startswith (p +:+ s) p = true.
Proof.
  unfold startswith. induction p as [|c p IH].
  - by destruct s.
  - rewrite sapp_cons. simpl. destruct (ascii_dec c c); [apply IH | done].
Qed.

Lemma endswith_app (s p : string) : endswith (s +:+ p) p = true.
Proof.
  unfold endswith. rewrite slength_app.
  replace (String.length s + String.length p - String.length p)
    with (String.length s) by lia.
  rewrite substring_skip, substring_all, String.eqb_refl.
  rewrite andb_true_r. apply Nat.leb_le. lia.
Qed.

Lemma slice_inner_app (a s b : string) :
  slice_inner (String.length a) (String.length b) (a +:+ s +:+ b) = s.
Proof.
  unfold slice_inner. rewrite !slength_app.
  replace (String.length a + (String.length s + String.length b)
           - String.length b - String.length a)
    with (String.length s) by lia.
  rewrite substring_skip. apply substring_prefix.
Qed.

Lemma rstrip_by_cons (p : ascii → bool) (c : ascii) (s : string) :
  rstrip_by p (String c s)
  = match rstrip_by p s with
    | EmptyString => if p c then EmptyString else String c EmptyString
    | r => String c r
    end.
Proof. reflexivity. Qed.

Lemma rstrip_by_idem (p : ascii → bool) (s : string) :
  rstrip_by p (rstrip_by p s) = rstrip_by p s.
Proof.
  induction s as [|c s IH]; [done|]. simpl.
  destruct (rstrip_by p s) as [|d r] eqn:E.
  - destruct (p c) eqn:Hc; [done|]. simpl. by rewrite Hc.
  - simpl in *. by rewrite IH.
Qed.

Lemma rstrip_by_head (p : ascii → bool) (s : string) (d : ascii) (r : string) :
  rstrip_by p s = String d r → ∃ s', s = String d s'.
Proof.
  destruct s as [|c s]; [done|]. simpl.
  destruct (rstrip_by p s); [destruct (p c)|]; intros [= <- _]; eauto.
Qed.

Lemma lstrip_by_fixed (p : ascii → bool) (s : string) :
  lstrip_by p (lstrip_by p s) = lstrip_by p s.
Proof.
  induction s as [|c s IH]; [done|]. simpl.
  destruct (p c) eqn:Hc; [done|]. simpl. by rewrite Hc.
Qed.

Lemma lstrip_rstrip_fixed (p : ascii → bool) (x : string) :
  lstrip_by p x = x → lstrip_by p (rstrip_by p x) = rstrip_by p x.
Proof.
  intros Hx. destruct (rstrip_by p x) as [|d r] eqn:E; [done|].
  destruct (rstrip_by_head _ _ _ _ E) as [s' ->].
  simpl in Hx. simpl. destruct (p d); [|done].
  exfalso.
  assert (∀ t, String.length (lstrip_by p t) ≤ String.length t) as Hlen.
  { clear. induction t as [|e t IH]; simpl; [lia|].
    destruct (p e); simpl; lia. }
  specialize (Hlen s'). rewrite Hx in Hlen. simpl in Hlen. lia.
Qed.

Lemma strip_by_idem (p : ascii → bool) (s : string) :
  strip_by p (strip_by p s) = strip_by p s.
Proof.
  unfold strip_by.
  rewrite (lstrip_rstrip_fixed p (lstrip_by p s)) by apply lstrip_by_fixed.
  apply rstrip_by_idem.
Qed.

Lemma all_chars_lstrip (p : ascii → bool) (s : string) :
  all_chars (λ c, negb (p c)) s = true → lstrip_by p s = s.
Proof.
  destruct s as [|c s]; [done|]. simpl. intros H.
  apply andb_true_iff in H as [Hc _]. by destruct (p c).
Qed.

Lemma all_chars_rstrip (p : ascii → bool) (s : string) :
  all_chars (λ c, negb (p c)) s = true → rstrip_by p s = s.
Proof.
  induction s as [|c s IH]; [done|]. simpl. intros H.
  apply andb_true_iff in H as [Hc Hs]. rewrite (IH Hs).
  destruct s; [|done]. by destruct (p c).
Qed.

Lemma split_single (s : string) : single_line s → split nl_char s = [s].
Proof.
  unfold single_line. induction s as [|c s IH]; [done|].
  rewrite char_in_cons, split_cons. intros H.
  apply orb_false_iff in H as [Hc Hs].
  rewrite Ascii.eqb_sym in Hc. rewrite Hc. by rewrite (IH Hs).
Qed.

(** ** Parameter compaction *)

Lemma collapsed_run_head (s : string) :
  head_not_space (re_sub_ws_go true s) = true.
Proof.
  induction s as [|c s IH]; [done|]. simpl.
  destruct (is_space c) eqn:Hc; [done|]. simpl. by rewrite Hc.
Qed.

Lemma collapsed_compact (in_run : bool) (s : string) :
  ws_compact (re_sub_ws_go in_run s) = true.
Proof.
  revert in_run. induction s as [|c s IH]; intros in_run; [done|]. simpl.
  destruct (is_space c) eqn:Hc.
  - destruct in_run; [apply IH|]. simpl.
    by rewrite collapsed_run_head, IH.
  - simpl. by rewrite Hc, IH.
Qed.

Lemma ws_compact_lstrip (p : ascii → bool) (s : string) :
  ws_compact s = true → ws_compact (lstrip_by p s) = true.
Proof.
  induction s as [|c s IH]; [done|]. intros H. simpl.
  destruct (p c); [|done]. apply IH.
  simpl in H. by apply andb_true_iff in H as [_ ?].
Qed.

Lemma ws_compact_rstrip (p : ascii → bool) (s : string) :
  ws_compact s = true → ws_compact (rstrip_by p s) = true.
Proof.
  induction s as [|c s IH]; [done|]. intros H.
  simpl in H. apply andb_true_iff in H as [Hc Hs]. specialize (IH Hs).
  simpl. destruct (rstrip_by p s) as [|d r] eqn:E.
  - destruct (p c); [done|]. simpl. rewrite andb_true_r.
    destruct (is_space c); [|done].
    apply andb_true_iff in Hc as [-> _]. done.
  - destruct (rstrip_by_head _ _ _ _ E) as [s' ->].
    simpl. simpl in IH. rewrite IH, andb_true_r. done.
Qed.

Lemma ws_compact_single_line (s : string) :
  ws_compact s = true → single_line s.
Proof.
  unfold single_line. induction s as [|c s IH]; [done|]. intros H.
  simpl in H. apply andb_true_iff in H as [Hc Hs].
  rewrite char_in_cons, (IH Hs), orb_false_r.
  destruct (Ascii.eqb nl_char c) eqn:E; [|done].
  apply Ascii.eqb_eq in E. subst c. done.
Qed.

(** X1: whatever the raw parameter text, the compacted parameters are on one
    line: they contain no line break, every whitespace character in them is a
    plain space, and no space is followed by another whitespace
    character. *)
Theorem compact_params_one_line :
  ∀ params : string,
    ws_compact (_compact_params params) = true
    ∧ single_line (_compact_params params).
Proof.
  intros params.
  assert (ws_compact (_compact_params params) = true) as H.
  { unfold _compact_params, strip_chars, strip, strip_by.
    do 2 (apply ws_compact_rstrip, ws_compact_lstrip).
    apply collapsed_compact. }
  split; [done | by apply ws_compact_single_line].
Qed.

Lemma endswith_char_rstrip (c : ascii) (s : string) :
  endswith s (String c "") = false → rstrip_by (Ascii.eqb c) s = s.
Proof.
  unfold endswith. induction s as [|a s IH]; [done|].
  intros H. simpl String.length in H.
  destruct s as [|b s].
  - simpl in *. rewrite Ascii.eqb_sym. destruct (Ascii.eqb a c); [done|done].
  - assert (rstrip_by (Ascii.eqb c) (String b s) = String b s) as Hs.
    { apply IH. simpl String.length in *.
      replace (S (S (String.length s)) - 1) with (S (S (String.length s) - 1)) in H
        by lia.
      simpl in H. simpl. exact H. }
    simpl rstrip_by at 1. simpl in Hs. rewrite Hs. done.
Qed.

(** X2: a parameter text that contains no whitespace and neither starts nor
    ends with a comma is left exactly as it is. *)
Theorem compact_params_fixed :
  ∀ params : string,
    all_chars (λ c, negb (is_space c)) params = true →
    startswith params "," = false →
    endswith params "," = false →
    _compact_params params = params.
Proof.
  intros params Hws Hstart Hend. unfold _compact_params.
  assert (re_sub_ws params = params) as ->.
  { unfold re_sub_ws. clear Hstart Hend.
    induction params as [|c s IH]; [done|]. simpl in *.
    apply andb_true_iff in Hws as [Hc Hs].
    destruct (is_space c); [done|]. by rewrite (IH Hs). }
  unfold strip, strip_by.
  rewrite (all_chars_lstrip is_space) by done.
  rewrite (all_chars_rstrip is_space) by done.
  unfold strip_chars, strip_by.
  assert (lstrip_by (char_in ",") params = params) as ->.
  { destruct params as [|c s]; [done|]. simpl.
    unfold startswith in Hstart. simpl in Hstart.
    rewrite orb_false_r.
    destruct (ascii_dec "," c) as [<-|Hne]; [by destruct s|].
    destruct (Ascii.eqb c ",") eqn:E; [|done].
    apply Ascii.eqb_eq in E. by subst c. }
  assert (∀ s, rstrip_by (char_in ",") s = rstrip_by (Ascii.eqb ","%char) s) as Hr.
  { clear. induction s as [|c s IH]; [done|].
    rewrite !rstrip_by_cons, IH. simpl char_in.
    by rewrite orb_false_r, (Ascii.eqb_sym c). }
  rewrite Hr. by apply endswith_char_rstrip.
Qed.

Lemma compact_params_fixed_witness :
  _compact_params "x:int=1,*args" = "x:int=1,*args".
Proof. apply compact_params_fixed; reflexivity. Defined.

(** ** The skeleton text *)

Lemma header_head (file_name language : string) :
  ∃ rest, header_line file_name language = String "#"%char rest.
Proof. unfold header_line. eexists. reflexivity. Qed.

(** X3: a skeleton without module documentation, imports, classes and
    functions is serialized, in either mode, to its header line alone. *)
Theorem to_text_empty_skeleton :
  ∀ (file_name language : string) (verbose : bool),
    to_text (mkCodeSkeleton file_name language "" [] [] []) verbose
    = header_line file_name language.
Proof.
  intros file_name language verbose. unfold to_text, to_text_lines. simpl.
  fold (header_line file_name language).
  rewrite join_cons, join_cons, sapp_nil_r.
  destruct (header_head file_name language) as [rest Hrest].
  unfold strip, strip_by.
  assert (lstrip_by is_space (header_line file_name language +:+ nl)
          = header_line file_name language +:+ nl) as ->.
  { rewrite Hrest. by rewrite sapp_cons. }
  rewrite rstrip_by_app. simpl. apply header_line_rstrip.
Qed.

Lemma doc_one_line (raw indent : string) :
  single_line raw → _doc true raw indent = _doc false raw indent.
Proof.
  intros Hraw. unfold _doc. destruct (is_empty raw); [done|]. simpl.
  by rewrite (split_single (strip raw)) by by apply single_line_strip.
Qed.

Lemma flat_map_Forall_ext {A B : Type} (P : A → Prop) (f g : A → list B)
    (l : list A) :
  Forall P l → (∀ x, P x → f x = g x) → flat_map f l = flat_map g l.
Proof.
  intros Hl Hfg. induction Hl as [|x l Hx _ IH]; [done|].
  simpl. by rewrite (Hfg x Hx), IH.
Qed.

(** X4: when every docstring of a skeleton (of its classes, their methods
    and its functions) is a single line, the verbose text and the compact
    text are the same. *)
Theorem to_text_verbose_same_on_one_line_docs :
  ∀ self : CodeSkeleton,
    one_line_docs self → to_text self true = to_text self false.
Proof.
  intros self [Hcls Hfns]. unfold to_text. rewrite !to_text_lines_blocks.
  assert (flat_map (class_block true) (classes self)
          = flat_map (class_block false) (classes self)) as ->.
  { apply (flat_map_Forall_ext _ _ _ _ Hcls). intros cls [Hdoc Hms].
    unfold class_block. rewrite (doc_one_line _ _ Hdoc).
    assert (flat_map (method_block true) (cs_methods cls)
            = flat_map (method_block false) (cs_methods cls)) as ->; [|done].
    apply (flat_map_Forall_ext _ _ _ _ Hms). intros m Hm.
    unfold method_block. by rewrite (doc_one_line _ _ Hm). }
  assert (flat_map (function_block true) (functions self)
          = flat_map (function_block false) (functions self)) as ->; [|done].
  apply (flat_map_Forall_ext _ _ _ _ Hfns). intros fn Hfn.
  unfold function_block. by rewrite (doc_one_line _ _ Hfn).
Qed.

Lemma to_text_verbose_same_on_one_line_docs_witness :
  to_text (mkCodeSkeleton "a.go" "Go" "" ["fmt"]
             [mkClassSkeleton "T" [] "T is a type." []]
             [mkFunctionSig "F" "x int" "int" "F does X."]) true
  = to_text (mkCodeSkeleton "a.go" "Go" "" ["fmt"]
               [mkClassSkeleton "T" [] "T is a type." []]
               [mkFunctionSig "F" "x int" "int" "F does X."]) false.
Proof.
  apply to_text_verbose_same_on_one_line_docs.
  split; repeat constructor.
Defined.

(** X5: the text [to_text] returns never starts or ends with whitespace:
    trimming it again changes nothing, although the lines it joins end with
    an empty line after every class. *)
Theorem to_text_is_trimmed :
  ∀ (self : CodeSkeleton) (verbose : bool),
    strip (to_text self verbose) = to_text self verbose
    ∧ lstrip_by is_space (to_text self verbose) = to_text self verbose
    ∧ rstrip_by is_space (to_text self verbose) = to_text self verbose.
Proof.
  intros self verbose. unfold to_text, strip.
  split; [apply strip_by_idem|]. unfold strip_by. split.
  - apply lstrip_rstrip_fixed, lstrip_by_fixed.
  - apply rstrip_by_idem.
Qed.

(** ** Delimiters *)

(** X6: the enclosing parentheses of a parameter list are removed and the
    text between them is trimmed, whatever that text is; a text that, once
    trimmed, does not start with an opening parenthesis is only trimmed. *)
Theorem strip_parens_inner :
  (∀ s : string, strip_parens ("(" +:+ s +:+ ")") = strip s)
  ∧ (∀ text : string,
       startswith (strip text) "(" = false → strip_parens text = strip text).
Proof.
  split.
  - intros s. unfold strip_parens.
    assert (strip ("(" +:+ s +:+ ")") = "(" +:+ s +:+ ")") as ->.
    { unfold strip, strip_by. rewrite sapp_cons, sapp_nil_l.
      rewrite lstrip_by_keep by done.
      rewrite rstrip_by_keep by done. f_equal.
      by rewrite rstrip_by_app. }
    rewrite startswith_app.
    change ("(" +:+ s +:+ ")") with ("(" +:+ (s +:+ ")")) at 1.
    rewrite <- sapp_assoc, endswith_app. simpl andb. cbv iota.
    rewrite sapp_assoc. f_equal. apply (slice_inner_app "(" s ")").
  - intros text Hstart. unfold strip_parens. rewrite Hstart. simpl.
    apply strip_by_idem.
Qed.

Lemma strip_parens_inner_witness :
  strip_parens "name string" = strip "name string".
Proof. apply (proj2 strip_parens_inner). reflexivity. Defined.

Lemma unquote_cons (q : string) (rest : list string) (raw : string) :
  unquote (q :: rest) raw
  = if startswith raw q && endswith raw q
       && (2 * String.length q <=? String.length raw)
    then strip (slice_inner (String.length q) (String.length q) raw)
    else unquote rest raw.
Proof. reflexivity. Qed.

Lemma unquote_first (q : string) (rest : list string) (s : string) :
  unquote (q :: rest) (q +:+ s +:+ q) = strip s.
Proof.
  rewrite unquote_cons, startswith_app.
  assert (endswith (q +:+ s +:+ q) q = true) as ->.
  { rewrite <- sapp_assoc. apply endswith_app. }
  assert ((2 * String.length q <=? String.length (q +:+ s +:+ q)) = true) as ->.
  { apply Nat.leb_le. rewrite !slength_app. lia. }
  simpl andb. cbv iota. by rewrite slice_inner_app.
Qed.

(** X7: a Python string literal written between three double quotes, or
    between three single quotes, is unquoted to the text between the quotes
    with its leading and trailing whitespace removed, whatever that text
    is. *)
Theorem unquote_triple_quoted :
  ∀ s : string,
    unquote python.quotes (q3 +:+ s +:+ q3) = strip s
    ∧ unquote python.quotes (sq3 +:+ s +:+ sq3) = strip s.
Proof.
  intros s. split; [apply unquote_first|].
  unfold python.quotes. rewrite unquote_cons.
  assert (startswith (sq3 +:+ s +:+ sq3) q3 = false) as -> by done.
  simpl andb. cbv iota. apply unquote_first.
Qed.

(** ** Documentation comments *)

Lemma last_fails_reverse (p : Node → bool) (l : list Node) :
  last_fails p l →
  reverse l = [] ∨ ∃ n rest, reverse l = n :: rest ∧ p n = false.
Proof.
  intros Hl. destruct l as [|x l] using rev_ind; [by left|]. right.
  exists x, (reverse l). rewrite reverse_snoc. split; [done|].
  apply Hl. by rewrite last_snoc.
Qed.

Lemma go_doc_loop_comments (c : string) (cs rest : list Node)
    (lines : list string) :
  Forall (λ n, type n = "comment") cs →
  go.doc_loop c (reverse cs ++ rest) lines
  = go.doc_loop c rest (map (go_comment_line c) cs ++ lines).
Proof.
  intros Hcs. revert rest lines.
  induction Hcs as [|x cs Hx _ IH]; intros rest lines; [done|].
  rewrite reverse_cons, <- app_assoc, IH. simpl. by rewrite Hx.
Qed.

Lemma go_doc_loop_stop (c : string) (pre : list Node) (lines : list string) :
  last_fails (λ n, type n == "comment") pre →
  go.doc_loop c (reverse pre) lines = lines.
Proof.
  intros Hpre. destruct (last_fails_reverse _ _ Hpre) as [->|(n & rest & -> & Hn)];
    [done|]. simpl. by rewrite Hn.
Qed.

(** X8: the Go doc comment of the declaration at a position is made of
    exactly the unbroken run of comment nodes that ends just before it: the
    text of each, trimmed, without its two leading slashes and trimmed
    again, one per line in source order, the whole trimmed.  A node that is
    not a comment ends the run, whatever stands before it. *)
Theorem go_preceding_doc_block :
  ∀ (pre cs post : list Node) (decl : Node) (content_bytes : string),
    Forall (λ n, type n = "comment") cs →
    last_fails (λ n, type n == "comment") pre →
    go._preceding_doc (pre ++ cs ++ decl :: post) (length (pre ++ cs))
                      content_bytes
    = strip (join nl (map (go_comment_line content_bytes) cs)).
Proof.
  intros pre cs post decl c Hcs Hpre. unfold go._preceding_doc.
  rewrite app_assoc, take_app_length, reverse_app.
  rewrite go_doc_loop_comments by done.
  by rewrite go_doc_loop_stop, app_nil_r.
Qed.

Lemma go_preceding_doc_block_witness :
  go._preceding_doc
    ([examples.leaf "package_clause" 0 9]
     ++ [examples.leaf "comment" 10 19; examples.leaf "comment" 20 29]
     ++ examples.leaf "function_declaration" 30 41 :: [])
    (length ([examples.leaf "package_clause" 0 9]
             ++ [examples.leaf "comment" 10 19; examples.leaf "comment" 20 29]))
    ("package p" +:+ nl +:+ "// F does" +:+ nl +:+ "// things" +:+ nl
     +:+ "func F() {}")
  = strip (join nl
             (map (go_comment_line
                     ("package p" +:+ nl +:+ "// F does" +:+ nl +:+ "// things"
                      +:+ nl +:+ "func F() {}"))
                  [examples.leaf "comment" 10 19; examples.leaf "comment" 20 29])).
Proof.
  apply go_preceding_doc_block.
  - repeat constructor.
  - intros n Hn. injection Hn as <-. reflexivity.
Defined.

Lemma rust_doc_loop_comments (c : string) (cs rest : list Node)
    (lines : list string) :
  Forall (λ n, rust_is_doc_comment n = true) cs →
  rust.doc_loop c (reverse cs ++ rest) lines
  = rust.doc_loop c rest (map (rust_doc_line c) cs ++ lines).
Proof.
  intros Hcs. revert rest lines.
  induction Hcs as [|x cs Hx _ IH]; intros rest lines; [done|].
  rewrite reverse_cons, <- app_assoc, IH. simpl.
  unfold rust_is_doc_comment in Hx. apply andb_prop in Hx as [Hty Hdoc].
  rewrite Hty. unfold rust_doc_line.
  by destruct (List.find _ (children x)).
Qed.

Lemma rust_doc_loop_stop (c : string) (pre : list Node) (lines : list string) :
  last_fails rust_is_doc_comment pre →
  rust.doc_loop c (reverse pre) lines = lines.
Proof.
  intros Hpre. destruct (last_fails_reverse _ _ Hpre) as [->|(n & rest & -> & Hn)];
    [done|]. simpl. unfold rust_is_doc_comment in Hn.
  destruct (type n == "line_comment"); [|done].
  by destruct (List.find _ (children n)).
Qed.

(** X9: the Rust doc comment of the item at a position is made of exactly
    the unbroken run, ending just before it, of line comments that have a
    doc_comment child: the trimmed text of that child of each, one per line
    in source order, the whole trimmed.  A plain line comment, like any other
    node, ends the run. *)
Theorem rust_preceding_doc_block :
  ∀ (pre cs post : list Node) (item : Node) (content_bytes : string),
    Forall (λ n, rust_is_doc_comment n = true) cs →
    last_fails rust_is_doc_comment pre →
    rust._preceding_doc (pre ++ cs ++ item :: post) (length (pre ++ cs))
                        content_bytes
    = strip (join nl (map (rust_doc_line content_bytes) cs)).
Proof.
  intros pre cs post item c Hcs Hpre. unfold rust._preceding_doc.
  rewrite app_assoc, take_app_length, reverse_app.
  rewrite rust_doc_loop_comments by done.
  by rewrite rust_doc_loop_stop, app_nil_r.
Qed.

Lemma rust_preceding_doc_block_witness :
  rust._preceding_doc
    ([examples.leaf "line_comment" 0 7]
     ++ [mkNode "line_comment" 8 20
           [examples.leaf "//" 8 10;
            examples.leaf "outer_doc_comment_marker" 10 11;
            examples.leaf "doc_comment" 11 20]]
     ++ examples.leaf "function_item" 20 29 :: [])
    (length ([examples.leaf "line_comment" 0 7]
             ++ [mkNode "line_comment" 8 20
                   [examples.leaf "//" 8 10;
                    examples.leaf "outer_doc_comment_marker" 10 11;
                    examples.leaf "doc_comment" 11 20]]))
    ("// note" +:+ nl +:+ "/// Does X." +:+ nl +:+ "fn f() {}")
  = strip (join nl
             (map (rust_doc_line
                     ("// note" +:+ nl +:+ "/// Does X." +:+ nl +:+ "fn f() {}"))
                  [mkNode "line_comment" 8 20
                     [examples.leaf "//" 8 10;
                      examples.leaf "outer_doc_comment_marker" 10 11;
                      examples.leaf "doc_comment" 11 20]])).
Proof.
  apply rust_preceding_doc_block.
  - repeat constructor.
  - intros n Hn. injection Hn as <-. reflexivity.
Defined.

(** X10: the JS/TS, Java and C++ adapters take the documentation of the
    declaration at a position from the sibling just before it and from
    nothing else: the result does not depend on the siblings further back,
    on the declaration or on what follows it; and when that sibling is not
    a comment node (for Java: not a block comment), the documentation is
    empty. *)
Theorem block_doc_from_previous_sibling_only :
  ∀ (pre post : list Node) (prev : Node) (content_bytes : string),
    (js_ts._preceding_doc (pre ++ prev :: post) (S (length pre)) content_bytes
     = js_ts._preceding_doc [prev] 1 content_bytes
     ∧ java._preceding_doc (pre ++ prev :: post) (S (length pre)) content_bytes
       = java._preceding_doc [prev] 1 content_bytes
     ∧ cpp._preceding_doc (pre ++ prev :: post) (S (length pre)) content_bytes
       = cpp._preceding_doc [prev] 1 content_bytes)
    ∧ ((type prev == "comment") = false →
       js_ts._preceding_doc (pre ++ prev :: post) (S (length pre)) content_bytes
       = ""
       ∧ cpp._preceding_doc (pre ++ prev :: post) (S (length pre)) content_bytes
         = "")
    ∧ ((type prev == "block_comment") = false →
       java._preceding_doc (pre ++ prev :: post) (S (length pre)) content_bytes
       = "").
Proof.
  intros pre post prev c.
  assert ((pre ++ prev :: post) !! (S (length pre) - 1) = Some prev) as Hprev.
  { simpl. rewrite Nat.sub_0_r. by rewrite list_lookup_middle. }
  unfold js_ts._preceding_doc, java._preceding_doc, cpp._preceding_doc.
  rewrite Hprev. simpl.
  split; [done|]. split.
  - by intros ->.
  - by intros ->.
Qed.

Lemma block_doc_from_previous_sibling_only_witness :
  java._preceding_doc
    ([examples.leaf "block_comment" 0 14]
     ++ examples.leaf "line_comment" 15 22
        :: [examples.leaf "class_declaration" 23 33])
    (S (length [examples.leaf "block_comment" 0 14]))
    ("/** A class */" +:+ nl +:+ "// note" +:+ nl +:+ "class A {}")
  = "".
Proof.
  apply (block_doc_from_previous_sibling_only
           [examples.leaf "block_comment" 0 14]
           [examples.leaf "class_declaration" 23 33]
           (examples.leaf "line_comment" 15 22)).
  reflexivity.
Defined.

(** ** Docstrings found in a body *)

Lemma find_skip {A : Type} (p : A → bool) (pre : list A) (x : A)
    (post : list A) :
  Forall (λ n, p n = false) pre → p x = true →
  List.find p (pre ++ x :: post) = Some x.
Proof.
  intros Hpre Hx. induction Hpre as [|y pre Hy _ IH]; simpl.
  - by rewrite Hx.
  - by rewrite Hy.
Qed.

Lemma find_none {A : Type} (p : A → bool) (l : list A) :
  Forall (λ n, p n = false) l → List.find p l = None.
Proof.
  intros Hl. induction Hl as [|y l Hy _ IH]; [done|]. simpl. by rewrite Hy.
Qed.

(** X11: the docstring of a Python function or class, and the fallback
    docstring of a JS/TS function or class, is taken from the first
    expression statement of the body only, whatever statements of other
    kinds stand before it and whatever follows it; when that statement has
    no string child the docstring is empty, even if a later statement is a
    string. *)
Theorem docstring_from_first_expression_statement :
  ∀ (ty : string) (s e : nat) (pre post : list Node) (stmt : Node)
    (content_bytes : string),
    Forall (λ n, (type n == "expression_statement") = false) pre →
    type stmt = "expression_statement" →
    (python._first_string_child (Some (mkNode ty s e (pre ++ stmt :: post)))
                                content_bytes
     = python._first_string_child (Some (mkNode ty s e [stmt])) content_bytes
     ∧ js_ts._first_string_in_body (Some (mkNode ty s e (pre ++ stmt :: post)))
                                   content_bytes
       = js_ts._first_string_in_body (Some (mkNode ty s e [stmt])) content_bytes)
    ∧ (Forall (λ sub, str_in (type sub) ["string"; "concatenated_string"] = false)
              (children stmt) →
       python._first_string_child (Some (mkNode ty s e (pre ++ stmt :: post)))
                                  content_bytes
       = "")
    ∧ (Forall (λ sub, (type sub == "string") = false) (children stmt) →
       js_ts._first_string_in_body (Some (mkNode ty s e (pre ++ stmt :: post)))
                                   content_bytes
       = "").
Proof.
  intros ty s e pre post stmt c Hpre Hstmt.
  assert ((type stmt == "expression_statement") = true) as Hty
    by by rewrite Hstmt.
  unfold python._first_string_child, js_ts._first_string_in_body.
  cbn [children].
  rewrite (find_skip _ pre stmt post Hpre Hty).
  rewrite (find_skip _ [] stmt [] (List.Forall_nil _) Hty).
  split; [done|]. split; intros Hsub; by rewrite (find_none _ _ Hsub).
Qed.

Lemma docstring_from_first_expression_statement_witness :
  python._first_string_child
    (Some (mkNode "block" 13 33
             ([examples.leaf "pass_statement" 13 17]
              ++ mkNode "expression_statement" 22 23
                   [examples.leaf "integer" 22 23]
                 :: [mkNode "expression_statement" 28 33
                       [examples.leaf "string" 28 33]])))
    ("def f():" +:+ nl +:+ "    pass" +:+ nl +:+ "    1" +:+ nl
     +:+ "    " +:+ dquote +:+ "doc" +:+ dquote)
  = "".
Proof.
  apply (docstring_from_first_expression_statement "block" 13 33
           [examples.leaf "pass_statement" 13 17]
           [mkNode "expression_statement" 28 33 [examples.leaf "string" 28 33]]
           (mkNode "expression_statement" 22 23 [examples.leaf "integer" 22 23])).
  - repeat constructor.
  - reflexivity.
  - repeat constructor.
Defined.

Lemma python_module_doc_skip (c : string) (skip rest : list Node) (doc : string) :
  Forall (λ n, str_in (type n) ["comment"; "newline"] = true) skip →
  for_loop (python.module_doc_body c) (skip ++ rest) doc
  = for_loop (python.module_doc_body c) rest doc.
Proof.
  intros Hskip. induction Hskip as [|n skip Hn _ IH]; [done|].
  simpl. unfold python.module_doc_body at 1. rewrite Hn.
  destruct (type n == "expression_statement") eqn:Hty.
  - apply String.eqb_eq in Hty. rewrite Hty in Hn. discriminate Hn.
  - exact IH.
Qed.

(** X12: the Python module docstring is decided by the first top-level node
    that is neither a comment nor a newline: the nodes skipped before it and
    everything after it are irrelevant, and when that node is not an
    expression statement the module has no docstring. *)
Theorem python_module_doc_first_statement :
  ∀ (file_name content ty : string) (s e : nat) (skip rest : list Node)
    (first : Node),
    Forall (λ n, str_in (type n) ["comment"; "newline"] = true) skip →
    str_in (type first) ["comment"; "newline"] = false →
    module_doc (python.extract file_name content
                  (mkNode ty s e (skip ++ first :: rest)))
    = module_doc (python.extract file_name content (mkNode ty s e [first]))
    ∧ ((type first == "expression_statement") = false →
       module_doc (python.extract file_name content
                     (mkNode ty s e (skip ++ first :: rest)))
       = "").
Proof.
  intros file_name content ty s e skip rest first Hskip Hfirst.
  unfold python.extract. cbn [module_doc children].
  rewrite python_module_doc_skip by done.
  simpl. unfold python.module_doc_body. rewrite Hfirst.
  destruct (type first == "expression_statement"); [done|].
  split; [done|]. done.
Qed.

Lemma python_module_doc_first_statement_witness :
  module_doc
    (python.extract "m.py"
       ("# note" +:+ nl +:+ "import os" +:+ nl +:+ dquote +:+ "doc" +:+ dquote)
       (mkNode "module" 0 22
          ([examples.leaf "comment" 0 6]
           ++ mkNode "import_statement" 7 16
                [examples.leaf "import" 7 13; examples.leaf "dotted_name" 14 16]
              :: [mkNode "expression_statement" 17 22
                    [examples.leaf "string" 17 22]])))
  = "".
Proof.
  apply (python_module_doc_first_statement "m.py" _ "module" 0 22
           [examples.leaf "comment" 0 6]
           [mkNode "expression_statement" 17 22 [examples.leaf "string" 17 22]]
           (mkNode "import_statement" 7 16
              [examples.leaf "import" 7 13; examples.leaf "dotted_name" 14 16])).
  - repeat constructor.
  - reflexivity.
  - reflexivity.
Defined.

(** ** Java methods *)

(** X13: a Java method node none of whose children is a type node (as for
    a constructor declaration, which has no return type) is reported with an
    empty name and an empty return type: an identifier is taken as the name
    only once a return type has been seen. *)
Theorem java_method_without_type_is_unnamed :
  ∀ (node : Node) (content_bytes docstring : string),
    Forall (λ child, str_in (type child) java.return_types = false)
           (children node) →
    fs_name (java._extract_method node content_bytes docstring) = ""
    ∧ fs_return_type (java._extract_method node content_bytes docstring) = "".
Proof.
  intros node c docstring Hch. unfold java._extract_method.
  assert (∀ st, st.1.1 = "" ∧ st.2 = "" →
                let st' := fold_left (java.method_vars_step c) (children node) st in
                st'.1.1 = "" ∧ st'.2 = "") as Hinv.
  { induction Hch as [|child l Hchild _ IH]; intros st Hst; [done|].
    simpl. apply IH. destruct st as [[name params] rt].
    destruct Hst as [Hname Hrt]. simpl in Hname, Hrt. subst name rt.
    unfold java.method_vars_step. rewrite Hchild. simpl.
    destruct (type child == "identifier"); simpl; [done|].
    by destruct (type child == "formal_parameters"). }
  specialize (Hinv ("", "", "") (conj eq_refl eq_refl)). simpl in Hinv.
  by destruct (fold_left _ _ _) as [[name params] rt].
Qed.

Lemma java_method_without_type_is_unnamed_witness :
  fs_name
    (java._extract_method
       (mkNode "constructor_declaration" 0 15
          [examples.leaf "modifiers" 0 6; examples.leaf "identifier" 7 10;
           examples.leaf "formal_parameters" 10 12;
           examples.leaf "constructor_body" 13 15])
       "public Foo() {}" "")
  = ""
  ∧ fs_return_type
      (java._extract_method
         (mkNode "constructor_declaration" 0 15
            [examples.leaf "modifiers" 0 6; examples.leaf "identifier" 7 10;
             examples.leaf "formal_parameters" 10 12;
             examples.leaf "constructor_body" 13 15])
         "public Foo() {}" "")
    = "".
Proof.
  apply java_method_without_type_is_unnamed. repeat constructor.
Defined.

Lemma str_in_return_types_not_identifier (t : string) :
  str_in t java.return_types = true → (t == "identifier") = false.
Proof.
  intros Hin. destruct (t == "identifier") eqn:Ht; [|done].
  apply String.eqb_eq in Ht. subst t. discriminate Hin.
Qed.

Lemma java_fold_before_type (c : string) (l : list Node) (params : string) :
  Forall (λ child, str_in (type child) java.return_types = false) l →
  ∃ params',
    fold_left (java.method_vars_step c) l ("", params, "") = ("", params', "").
Proof.
  intros Hl. revert params.
  induction Hl as [|child l Hchild _ IH]; intros params; [by eexists|].
  cbn [fold_left].
  assert (∃ p, java.method_vars_step c ("", params, "") child = ("", p, ""))
    as [p ->]; [|apply IH].
  unfold java.method_vars_step. rewrite Hchild.
  destruct (type child == "identifier"); cbn; [by eexists|].
  destruct (type child == "formal_parameters"); by eexists.
Qed.

Lemma java_fold_before_name (c : string) (l : list Node)
    (params rt : string) :
  rt ≠ "" →
  Forall (λ child, (type child == "identifier") = false) l →
  ∃ params',
    fold_left (java.method_vars_step c) l ("", params, rt) = ("", params', rt).
Proof.
  intros Hrt Hl. revert params.
  induction Hl as [|child l Hchild _ IH]; intros params; [by eexists|].
  cbn [fold_left].
  assert (∃ p, java.method_vars_step c ("", params, rt) child = ("", p, rt))
    as [p ->]; [|apply IH].
  unfold java.method_vars_step. rewrite Hchild. cbn [andb].
  destruct (str_in (type child) java.return_types).
  { destruct rt; [done|]. by eexists. }
  destruct (type child == "formal_parameters"); by eexists.
Qed.

Lemma java_fold_after_name (c : string) (l : list Node)
    (name params rt : string) :
  name ≠ "" → rt ≠ "" →
  ∃ params',
    fold_left (java.method_vars_step c) l (name, params, rt)
    = (name, params', rt).
Proof.
  intros Hname Hrt. revert params.
  induction l as [|child l IH]; intros params; [by eexists|].
  cbn [fold_left].
  assert (∃ p, java.method_vars_step c (name, params, rt) child = (name, p, rt))
    as [p ->]; [|apply IH].
  unfold java.method_vars_step.
  destruct name; [done|]. cbn [is_empty]. rewrite andb_false_r.
  destruct (str_in (type child) java.return_types).
  { destruct rt; [done|]. by eexists. }
  destruct (type child == "formal_parameters"); by eexists.
Qed.

(** X14: for a Java method whose children hold a type node and, after it,
    an identifier, both with a text that is not empty, the return type
    reported is the text of the first type node and the name reported is
    the text of the first identifier that follows it; identifiers before the
    type node are passed over. *)
Theorem java_method_name_follows_type :
  ∀ (node ret ident : Node) (pre mid post : list Node)
    (content_bytes docstring : string),
    children node = pre ++ ret :: mid ++ ident :: post →
    Forall (λ child, str_in (type child) java.return_types = false) pre →
    str_in (type ret) java.return_types = true →
    _node_text ret content_bytes ≠ "" →
    Forall (λ child, (type child == "identifier") = false) mid →
    type ident = "identifier" →
    _node_text ident content_bytes ≠ "" →
    fs_return_type (java._extract_method node content_bytes docstring)
    = _node_text ret content_bytes
    ∧ fs_name (java._extract_method node content_bytes docstring)
      = _node_text ident content_bytes.
Proof.
  intros node ret ident pre mid post c docstring Hch Hpre Hret Hrt Hmid
    Hident Hname.
  unfold java._extract_method. rewrite Hch.
  rewrite fold_left_app.
  destruct (java_fold_before_type c pre "" Hpre) as [p0 ->].
  change (fold_left (java.method_vars_step c) (ret :: mid ++ ident :: post)
            ("", p0, ""))
    with (fold_left (java.method_vars_step c) (mid ++ ident :: post)
            (java.method_vars_step c ("", p0, "") ret)).
  assert (java.method_vars_step c ("", p0, "") ret
          = ("", p0, _node_text ret c)) as ->.
  { unfold java.method_vars_step.
    rewrite (str_in_return_types_not_identifier _ Hret), Hret. done. }
  rewrite fold_left_app.
  destruct (java_fold_before_name c mid p0 _ Hrt Hmid) as [p1 ->].
  change (fold_left (java.method_vars_step c) (ident :: post)
            ("", p1, _node_text ret c))
    with (fold_left (java.method_vars_step c) post
            (java.method_vars_step c ("", p1, _node_text ret c) ident)).
  assert (java.method_vars_step c ("", p1, _node_text ret c) ident
          = (_node_text ident c, p1, _node_text ret c)) as ->.
  { unfold java.method_vars_step. rewrite Hident. simpl.
    by destruct (_node_text ret c). }
  destruct (java_fold_after_name c post _ p1 _ Hname Hrt) as [p2 ->].
  done.
Qed.

Lemma java_method_name_follows_type_witness :
  fs_return_type
    (java._extract_method
       (mkNode "method_declaration" 0 15
          ([examples.leaf "modifiers" 0 6]
           ++ examples.leaf "integral_type" 7 10
              :: [] ++ examples.leaf "identifier" 11 12
                 :: [examples.leaf "formal_parameters" 12 14;
                     examples.leaf ";" 14 15]))
       "public int f();" "")
  = _node_text (examples.leaf "integral_type" 7 10) "public int f();"
  ∧ fs_name
      (java._extract_method
         (mkNode "method_declaration" 0 15
            ([examples.leaf "modifiers" 0 6]
             ++ examples.leaf "integral_type" 7 10
                :: [] ++ examples.leaf "identifier" 11 12
                   :: [examples.leaf "formal_parameters" 12 14;
                       examples.leaf ";" 14 15]))
         "public int f();" "")
    = _node_text (examples.leaf "identifier" 11 12) "public int f();".
Proof.
  apply (java_method_name_follows_type
           (mkNode "method_declaration" 0 15
              ([examples.leaf "modifiers" 0 6]
               ++ examples.leaf "integral_type" 7 10
                  :: [] ++ examples.leaf "identifier" 11 12
                     :: [examples.leaf "formal_parameters" 12 14;
                         examples.leaf ";" 14 15]))
           (examples.leaf "integral_type" 7 10)
           (examples.leaf "identifier" 11 12)
           [examples.leaf "modifiers" 0 6] []
           [examples.leaf "formal_parameters" 12 14; examples.leaf ";" 14 15]).
  - reflexivity.
  - repeat constructor.
  - reflexivity.
  - by vm_compute.
  - constructor.
  - reflexivity.
  - by vm_compute.
Defined.

(** ** Go parameter lists *)

Lemma eqb_other (t a b : string) :
  (t == a) = true → (a == b) = false → (t == b) = false.
Proof. intros Ht Hab. apply String.eqb_eq in Ht. by subst t. Qed.

Lemma go_fn_step_list (is_method : bool) (c : string) (st : go.fn_vars)
    (n : Node) :
  (type n == "parameter_list") = true →
  go.v_params st = "" →
  go.v_param_list_count (go.fn_step is_method c st n)
  = S (go.v_param_list_count st)
  ∧ go.v_params (go.fn_step is_method c st n)
    = if is_method && (go.v_param_list_count st =? 0) then ""
      else strip_parens (_node_text n c).
Proof.
  intros Hty Hst. unfold go.fn_step.
  rewrite (eqb_other _ _ "identifier" Hty eq_refl).
  rewrite (eqb_other _ _ "field_identifier" Hty eq_refl).
  rewrite Hty, Hst. cbn [andb is_empty]. cbv zeta.
  destruct is_method; cbn [andb]; [|done].
  by destruct (go.v_param_list_count st).
Qed.

Lemma go_fn_step_other (is_method : bool) (c : string) (st : go.fn_vars)
    (n : Node) :
  (type n == "parameter_list") = false →
  go.v_param_list_count (go.fn_step is_method c st n)
  = go.v_param_list_count st
  ∧ go.v_params (go.fn_step is_method c st n) = go.v_params st.
Proof.
  intros Hty. unfold go.fn_step. rewrite Hty.
  destruct (_ && _); [done|]. destruct (_ && _); [done|].
  by destruct (type n == "type_identifier").
Qed.

Lemma go_params_fold (is_method : bool) (c : string) (l : list Node)
    (st : go.fn_vars) :
  go.v_params st = "" →
  go.v_params (fold_left (go.fn_step is_method c) l st)
  = first_non_empty
      (map (λ n, strip_parens (_node_text n c))
           (go_param_lists (is_method && (go.v_param_list_count st =? 0)) l)).
Proof.
  revert st. induction l as [|n l IH]; intros st Hst.
  { cbn [fold_left]. rewrite Hst. unfold go_param_lists. cbn [List.filter].
    by destruct (_ && _). }
  cbn [fold_left]. unfold go_param_lists. cbn [List.filter].
  destruct (type n == "parameter_list") eqn:Hty.
  - destruct (go_fn_step_list is_method c st n Hty Hst) as [Hcount Hp].
    destruct (is_method && (go.v_param_list_count st =? 0)) eqn:Hrecv.
    + rewrite (IH _ Hp), Hcount. rewrite andb_false_r. done.
    + cbn [map]. unfold first_non_empty. cbn [List.filter].
      destruct (strip_parens (_node_text n c)) as [|a r] eqn:Htext.
      * cbn [is_empty negb].
        rewrite (IH _ Hp), Hcount. rewrite andb_false_r. done.
      * cbn [is_empty negb hd].
        assert (go.v_params (go.fn_step is_method c st n) ≠ "") as Hne
          by by rewrite Hp.
        by rewrite (go_params_sticky is_method c l _ Hne), Hp.
  - destruct (go_fn_step_other is_method c st n Hty) as [Hcount Hp].
    rewrite Hst in Hp. rewrite (IH _ Hp), Hcount. done.
Qed.

(** X15: the parameters the Go adapter reports for a function or method
    declaration are the text, without its parentheses, of the first
    parenthesized list of the declaration whose inner text is not empty, the
    receiver list of a method left out; they are empty when there is no
    such list.  A parenthesized result list is such a list. *)
Theorem go_params_first_non_empty_list :
  ∀ (node : Node) (content_bytes docstring : string),
    fs_params (go._extract_function node content_bytes docstring)
    = first_non_empty
        (map (λ n, strip_parens (_node_text n content_bytes))
             (go_param_lists (type node == "method_declaration")
                             (children node))).
Proof.
  intros node c docstring. unfold go._extract_function. cbn [fs_params].
  rewrite go_params_fold by done. cbn [go.v_param_list_count].
  by rewrite andb_true_r.
Qed.

(** ** Block comments *)

Lemma slice_from_app (a s : string) :
  slice_from (String.length a) (a +:+ s) = s.
Proof.
  unfold slice_from. rewrite slength_app, substring_skip.
  replace (String.length a + String.length s - String.length a)
    with (String.length s) by lia.
  apply substring_all.
Qed.

Lemma strip_keep_ends (c d : ascii) (s : string) :
  is_space c = false → is_space d = false →
  strip (String c (s +:+ String d "")) = String c (s +:+ String d "").
Proof.
  intros Hc Hd. unfold strip, strip_by.
  rewrite lstrip_by_keep, rstrip_by_keep by done. f_equal.
  rewrite rstrip_by_app. simpl. by rewrite Hd.
Qed.

(** X16: a block comment on one line, that is the opening marker of a
    documentation comment, a text without a line break and the closing
    marker, is reduced to the text, trimmed, without its leading asterisks
    and trimmed again; this is the documentation the JS/TS, Java and C++
    adapters attach to a declaration that follows such a comment. *)
Theorem block_comment_one_line :
  ∀ s : string,
    single_line s →
    parse_block_comment ("/**" +:+ s +:+ "*/")
    = strip (lstrip_chars "*" (strip s)).
Proof.
  intros s Hs. unfold parse_block_comment.
  assert (strip ("/**" +:+ s +:+ "*/") = "/**" +:+ s +:+ "*/") as ->.
  { replace ("/**" +:+ s +:+ "*/")
      with (String "/"%char (("**" +:+ s +:+ "*") +:+ String "/"%char ""))
      by (by rewrite !sapp_assoc).
    by apply strip_keep_ends. }
  rewrite startswith_app.
  replace (slice_from 3 ("/**" +:+ s +:+ "*/")) with (s +:+ "*/")
    by (symmetry; apply (slice_from_app "/**")).
  rewrite endswith_app.
  replace (slice_inner 0 2 (s +:+ "*/")) with s
    by (symmetry; apply (slice_inner_app "" s "*/")).
  rewrite (split_single s Hs). cbn [map].
  set (u := strip (lstrip_chars "*" (strip s))).
  assert (strip u = u) as Hu by apply strip_by_idem.
  destruct u as [|a r] eqn:Eu; [done|].
  rewrite filter_cons_True by done. rewrite filter_nil.
  by rewrite join_cons, sapp_nil_r.
Qed.

Lemma block_comment_one_line_witness :
  parse_block_comment ("/**" +:+ " Adds two numbers. " +:+ "*/")
  = strip (lstrip_chars "*" (strip " Adds two numbers. ")).
Proof. apply block_comment_one_line. reflexivity. Defined.

(** ** Rust use declarations *)

Lemma replace_go_none (old new s : string) :
  occurs old s = false → replace_go old new 0 s = s.
Proof.
  induction s as [|c s IH]; [done|]. intros H.
  cbn [occurs] in H. apply orb_false_elim in H as [Hp Hs].
  cbn [replace_go]. rewrite Hp. by rewrite IH.
Qed.

Lemma rstrip_chars_one (c : ascii) (s : string) :
  endswith s (String c "") = false → rstrip_chars (String c "") s = s.
Proof.
  intros H. unfold rstrip_chars.
  assert (∀ t, rstrip_by (char_in (String c "")) t = rstrip_by (Ascii.eqb c) t)
    as Hr.
  { induction t as [|x t IH]; [done|].
    rewrite !rstrip_by_cons, IH. simpl char_in.
    by rewrite orb_false_r, (Ascii.eqb_sym x). }
  rewrite Hr. by apply endswith_char_rstrip.
Qed.

(** X17: a Rust use declaration whose text is the keyword use, a space, a
    path and a semicolon is reported as one import, the path itself,
    provided the path does not end with a semicolon and the keyword followed
    by a space does not occur inside it. *)
Theorem rust_use_declaration_path :
  ∀ (siblings : list Node) (content_bytes : string) (idx : nat)
    (child : Node) (path : string),
    type child = "use_declaration" →
    _node_text child content_bytes = "use " +:+ path +:+ ";" →
    occurs "use " path = false →
    endswith path ";" = false →
    acc_imports (rust.extract_step siblings content_bytes acc_empty (idx, child))
    = [path].
Proof.
  intros siblings c idx child path Hty Htext Hocc Hend.
  assert (rust.extract_step siblings c acc_empty (idx, child)
          = add_import
              (replace "use " "" (rstrip_chars ";" (strip (_node_text child c))))
              acc_empty) as ->.
  { unfold rust.extract_step. by rewrite Hty. }
  rewrite Htext. cbn [add_import acc_imports acc_empty app]. f_equal.
  assert (strip ("use " +:+ path +:+ ";") = "use " +:+ path +:+ ";") as ->.
  { replace ("use " +:+ path +:+ ";")
      with (String "u"%char (("se " +:+ path) +:+ String ";"%char ""))
      by (by rewrite !sapp_assoc).
    by apply strip_keep_ends. }
  assert (rstrip_chars ";" ("use " +:+ path +:+ ";") = "use " +:+ path) as ->.
  { unfold rstrip_chars.
    replace ("use " +:+ path +:+ ";") with (("use " +:+ path) +:+ ";")
      by (by rewrite !sapp_assoc).
    rewrite rstrip_by_app.
    change (rstrip_by (char_in ";") ";") with "".
    rewrite !sapp_cons, sapp_nil_l.
    rewrite !rstrip_by_keep by done.
    pose proof (rstrip_chars_one ";" path Hend) as Hp.
    unfold rstrip_chars in Hp. by rewrite Hp. }
  unfold replace.
  pose proof (startswith_app "use " path) as Hpre. unfold startswith in Hpre.
  rewrite sapp_cons in *. cbn [replace_go]. rewrite Hpre.
  change (replace_go "use " "" 0 path = path).
  by apply replace_go_none.
Qed.

Lemma rust_use_declaration_path_witness :
  acc_imports
    (rust.extract_step [examples.leaf "use_declaration" 0 21]
       "use std::collections;" acc_empty
       (0, examples.leaf "use_declaration" 0 21))
  = ["std::collections"].
Proof.
  apply rust_use_declaration_path; reflexivity.
Defined.

(** ** Python from-imports *)

Lemma python_from_body_keyword (c : string) (n : Node)
    (st : string * list string * option (list string)) :
  str_in (type n)
         ["dotted_name"; "import_prefix"; "wildcard_import"; "aliased_import"]
  = false →
  python.from_body c st n = Next st.
Proof.
  intros Hn. unfold str_in in Hn. cbn [existsb] in Hn.
  repeat (apply orb_false_elim in Hn as [? Hn]).
  unfold python.from_body. destruct st as [[module names] returned].
  by repeat match goal with H : (_ == _) = false |- _ => rewrite H; clear H end.
Qed.

Lemma python_from_loop_keywords (c : string) (pre rest : list Node)
    (st : string * list string * option (list string)) :
  Forall (λ n, str_in (type n)
                 ["dotted_name"; "import_prefix"; "wildcard_import";
                  "aliased_import"] = false) pre →
  for_loop (python.from_body c) (pre ++ rest) st
  = for_loop (python.from_body c) rest st.
Proof.
  intros Hpre. induction Hpre as [|n pre Hn _ IH]; [done|].
  cbn [app for_loop]. by rewrite (python_from_body_keyword c n st Hn).
Qed.

Lemma python_from_body_name (c : string) (n : Node) (module : string)
    (names : list string) :
  module ≠ "" →
  str_in (type n) ["import_prefix"; "wildcard_import"] = false →
  python.from_body c (module, names, None) n
  = Next (module, names ++ python_imported_name c n, None).
Proof.
  intros Hm Hn. unfold str_in in Hn. cbn [existsb] in Hn.
  apply orb_false_elim in Hn as [Hprefix Hn].
  apply orb_false_elim in Hn as [Hwild _].
  unfold python.from_body, python_imported_name.
  rewrite Hprefix, Hwild. destruct module; [done|]. cbn [is_empty negb].
  rewrite andb_false_r, andb_true_r.
  destruct (type n == "dotted_name"); [done|].
  destruct (type n == "aliased_import"); [|by rewrite app_nil_r].
  destruct (List.find _ (children n)); [done|by rewrite app_nil_r].
Qed.

Lemma python_from_loop_names (c : string) (l : list Node) (module : string)
    (names : list string) :
  module ≠ "" →
  Forall (λ n, str_in (type n) ["import_prefix"; "wildcard_import"] = false) l →
  for_loop (python.from_body c) l (module, names, None)
  = (module, names ++ flat_map (python_imported_name c) l, None).
Proof.
  intros Hm Hl. revert names.
  induction Hl as [|n l Hn _ IH]; intros names.
  { cbn [for_loop flat_map]. by rewrite app_nil_r. }
  cbn [for_loop flat_map]. rewrite (python_from_body_name c n module names Hm Hn).
  by rewrite IH, app_assoc.
Qed.

Lemma python_from_body_module (c : string) (m : Node) :
  type m = "dotted_name" →
  python.from_body c ("", [], None) m = Next (_node_text m c, [], None).
Proof. intros Hm. unfold python.from_body. by rewrite Hm. Qed.

(** X18: for a Python from-import whose first dotted name, the module, has
    a text that is not empty, and which has no relative prefix and no
    wildcard, each imported name (the dotted name itself, or the dotted name
    inside an aliased import) is reported as the module, a dot and the name,
    in source order; with no imported name the module alone is reported. *)
Theorem python_from_import_entries :
  ∀ (node m : Node) (pre names : list Node) (content_bytes : string),
    type node = "import_from_statement" →
    children node = pre ++ m :: names →
    Forall (λ n, str_in (type n)
                   ["dotted_name"; "import_prefix"; "wildcard_import";
                    "aliased_import"] = false) pre →
    type m = "dotted_name" →
    _node_text m content_bytes ≠ "" →
    Forall (λ n, str_in (type n) ["import_prefix"; "wildcard_import"] = false)
           names →
    python._extract_imports node content_bytes
    = match flat_map (python_imported_name content_bytes) names with
      | [] => [_node_text m content_bytes]
      | ns => map (λ n, _node_text m content_bytes +:+ "." +:+ n) ns
      end.
Proof.
  intros node m pre names c Hnode Hch Hpre Hm Htext Hnames.
  unfold python._extract_imports. rewrite Hnode, Hch.
  change ("import_from_statement" == "import_statement") with false.
  change ("import_from_statement" == "import_from_statement") with true.
  cbv iota.
  rewrite (python_from_loop_keywords c pre _ _ Hpre).
  cbn [for_loop]. rewrite (python_from_body_module c m Hm).
  rewrite (python_from_loop_names c names _ [] Htext Hnames).
  cbn [app]. destruct (flat_map _ names) as [|x ns]; [|].
  - by destruct (_node_text m c).
  - apply map_ext. intros n. by destruct (_node_text m c).
Qed.

Lemma python_from_import_entries_witness :
  python._extract_imports
    (mkNode "import_from_statement" 0 29
       ([examples.leaf "from" 0 4]
        ++ examples.leaf "dotted_name" 5 7
           :: [examples.leaf "import" 8 14; examples.leaf "dotted_name" 15 19;
               examples.leaf "," 19 20;
               mkNode "aliased_import" 21 29
                 [examples.leaf "dotted_name" 21 24; examples.leaf "as" 25 27;
                  examples.leaf "identifier" 28 29]]))
    "from os import path, sep as s"
  = ["os.path"; "os.sep"].
Proof.
  apply (python_from_import_entries
           (mkNode "import_from_statement" 0 29
              ([examples.leaf "from" 0 4]
               ++ examples.leaf "dotted_name" 5 7
                  :: [examples.leaf "import" 8 14;
                      examples.leaf "dotted_name" 15 19;
                      examples.leaf "," 19 20;
                      mkNode "aliased_import" 21 29
                        [examples.leaf "dotted_name" 21 24;
                         examples.leaf "as" 25 27;
                         examples.leaf "identifier" 28 29]]))
           (examples.leaf "dotted_name" 5 7)
           [examples.leaf "from" 0 4]
           [examples.leaf "import" 8 14; examples.leaf "dotted_name" 15 19;
            examples.leaf "," 19 20;
            mkNode "aliased_import" 21 29
              [examples.leaf "dotted_name" 21 24; examples.leaf "as" 25 27;
               examples.leaf "identifier" 28 29]]
           "from os import path, sep as s").
  - reflexivity.
  - reflexivity.
  - repeat constructor.
  - reflexivity.
  - by vm_compute.
  - repeat constructor.
Defined.

(** X19: a Python from-import with a wildcard is reported as the single
    entry made of the module, a dot and an asterisk, whatever names were
    met before the wildcard and whatever follows it. *)
Theorem python_wildcard_import_entry :
  ∀ (node m w : Node) (pre mid post : list Node) (content_bytes : string),
    type node = "import_from_statement" →
    children node = pre ++ m :: mid ++ w :: post →
    Forall (λ n, str_in (type n)
                   ["dotted_name"; "import_prefix"; "wildcard_import";
                    "aliased_import"] = false) pre →
    type m = "dotted_name" →
    _node_text m content_bytes ≠ "" →
    Forall (λ n, str_in (type n) ["import_prefix"; "wildcard_import"] = false)
           mid →
    type w = "wildcard_import" →
    python._extract_imports node content_bytes
    = [_node_text m content_bytes +:+ ".*"].
Proof.
  intros node m w pre mid post c Hnode Hch Hpre Hm Htext Hmid Hw.
  unfold python._extract_imports. rewrite Hnode, Hch.
  change ("import_from_statement" == "import_statement") with false.
  change ("import_from_statement" == "import_from_statement") with true.
  cbv iota.
  rewrite (python_from_loop_keywords c pre _ _ Hpre).
  cbn [for_loop]. rewrite (python_from_body_module c m Hm).
  assert (∀ names,
            for_loop (python.from_body c) (mid ++ w :: post)
                     (_node_text m c, names, None)
            = (_node_text m c, names ++ flat_map (python_imported_name c) mid,
               Some [_node_text m c +:+ ".*"])) as Hloop.
  { clear Hch. induction Hmid as [|n mid Hn _ IH]; intros names.
    - cbn [app for_loop flat_map]. unfold python.from_body. rewrite Hw.
      destruct (_node_text m c); [done|]. by rewrite app_nil_r.
    - cbn [app for_loop flat_map].
      rewrite (python_from_body_name c n _ names Htext Hn).
      by rewrite IH, app_assoc. }
  by rewrite Hloop.
Qed.

Lemma python_wildcard_import_entry_witness :
  python._extract_imports
    (mkNode "import_from_statement" 0 16
       ([examples.leaf "from" 0 4]
        ++ examples.leaf "dotted_name" 5 7
           :: [examples.leaf "import" 8 14]
              ++ examples.leaf "wildcard_import" 15 16 :: []))
    "from os import *"
  = [_node_text (examples.leaf "dotted_name" 5 7) "from os import *" +:+ ".*"].
Proof.
  apply (python_wildcard_import_entry
           (mkNode "import_from_statement" 0 16
              ([examples.leaf "from" 0 4]
               ++ examples.leaf "dotted_name" 5 7
                  :: [examples.leaf "import" 8 14]
                     ++ examples.leaf "wildcard_import" 15 16 :: []))
           (examples.leaf "dotted_name" 5 7)
           (examples.leaf "wildcard_import" 15 16)
           [examples.leaf "from" 0 4] [examples.leaf "import" 8 14] []).
  - reflexivity.
  - reflexivity.
  - repeat constructor.
  - reflexivity.
  - by vm_compute.
  - repeat constructor.
  - reflexivity.
Defined.

(** ** C/C++ function declarators *)

Lemma cpp_child_cases (t : string) :
  t = "identifier" ∨ t = "field_identifier" ∨ t = "qualified_identifier"
  ∨ t = "parameter_list"
  ∨ ((t == "identifier") = false ∧ (t == "field_identifier") = false
     ∧ (t == "qualified_identifier") = false ∧ (t == "parameter_list") = false).
Proof.
  destruct (t == "identifier") eqn:E1; [left; by apply String.eqb_eq|].
  destruct (t == "field_identifier") eqn:E2;
    [right; left; by apply String.eqb_eq|].
  destruct (t == "qualified_identifier") eqn:E3;
    [right; right; left; by apply String.eqb_eq|].
  destruct (t == "parameter_list") eqn:E4;
    [right; right; right; left; by apply String.eqb_eq|].
  by repeat right.
Qed.

Lemma cpp_declarator_fold (rec : Node → string * string) (c : string)
    (l : list Node) (name params : string) :
  Forall (λ child, (type child == "function_declarator") = false) l →
  fold_left
    (λ (st : string * string) (child : Node),
       let '(name, params) := st in
       if str_in (type child) ["identifier"; "field_identifier"] && is_empty name then
         (_node_text child c, params)
       else if (type child == "qualified_identifier") && is_empty name then
         (_node_text child c, params)
       else if type child == "function_declarator" then
         let '(n, p) := rec child in
         (if is_empty n then name else n, if is_empty p then params else p)
       else if type child == "parameter_list" then
         (name, strip_parens (_node_text child c))
       else st)
    l (name, params)
  = (if is_empty name
     then first_non_empty (map (λ n, _node_text n c) (List.filter cpp_is_name l))
     else name,
     match last (List.filter (λ n, type n == "parameter_list") l) with
     | Some p => strip_parens (_node_text p c)
     | None => params
     end).
Proof.
  intros Hl. revert name params.
  induction Hl as [|child l Hchild _ IH]; intros name params.
  { cbn. by destruct name. }
  cbn [fold_left List.filter]. rewrite Hchild. unfold cpp_is_name at 1.
  destruct (cpp_child_cases (type child))
    as [Ht|[Ht|[Ht|[Ht|(H1 & H2 & H3 & H4)]]]].
  - rewrite Ht. cbn [str_in existsb String.eqb Ascii.eqb Bool.eqb orb andb].
    destruct name as [|a r]; cbn [is_empty]; rewrite IH; [|done].
    cbn [map]. unfold first_non_empty. cbn [List.filter].
    by destruct (_node_text child c).
  - rewrite Ht. cbn [str_in existsb String.eqb Ascii.eqb Bool.eqb orb andb].
    destruct name as [|a r]; cbn [is_empty]; rewrite IH; [|done].
    cbn [map]. unfold first_non_empty. cbn [List.filter].
    by destruct (_node_text child c).
  - rewrite Ht. cbn [str_in existsb String.eqb Ascii.eqb Bool.eqb orb andb].
    destruct name as [|a r]; cbn [is_empty]; rewrite IH; [|done].
    cbn [map]. unfold first_non_empty. cbn [List.filter].
    by destruct (_node_text child c).
  - rewrite Ht. cbn [str_in existsb String.eqb Ascii.eqb Bool.eqb orb andb].
    rewrite IH, last_cons.
    by destruct (last (List.filter _ l)).
  - unfold str_in. cbn [existsb]. rewrite H1, H2, H3, H4. cbn [orb andb].
    by rewrite IH.
Qed.

(** X20: for a C/C++ function declarator none of whose children is itself
    a function declarator, the name reported is the first text that is not
    empty among its identifier, field identifier and qualified identifier
    children, and the parameters reported are the text, without its
    parentheses, of its last parameter list (empty when it has none). *)
Theorem cpp_declarator_name_and_params :
  ∀ (node : Node) (content_bytes : string),
    Forall (λ child, (type child == "function_declarator") = false)
           (children node) →
    cpp._extract_function_declarator node content_bytes
    = (first_non_empty
         (map (λ n, _node_text n content_bytes)
              (List.filter cpp_is_name (children node))),
       match last (List.filter (λ n, type n == "parameter_list")
                               (children node)) with
       | Some p => strip_parens (_node_text p content_bytes)
       | None => ""
       end).
Proof.
  intros node c Hch. destruct node as [ty s e ch]. cbn [children] in *.
  cbn [cpp._extract_function_declarator children].
  by rewrite (cpp_declarator_fold
                (λ child, cpp._extract_function_declarator child c) c ch "" ""
                Hch).
Qed.

Lemma cpp_declarator_name_and_params_witness :
  cpp._extract_function_declarator
    (mkNode "function_declarator" 4 17
       [examples.leaf "identifier" 4 7; examples.leaf "parameter_list" 7 17])
    "int add(int a, b);"
  = ("add", "int a, b").
Proof.
  apply (cpp_declarator_name_and_params
           (mkNode "function_declarator" 4 17
              [examples.leaf "identifier" 4 7;
               examples.leaf "parameter_list" 7 17])
           "int add(int a, b);").
  repeat constructor.
Defined.

(** ** Import paths *)

Lemma all_chars_weaken (p q : ascii → bool) (s : string) :
  (∀ c, p c = true → q c = true) →
  all_chars p s = true → all_chars q s = true.
Proof.
  intros Hpq. induction s as [|c s IH]; [done|]. cbn [all_chars].
  intros H. apply andb_prop in H as [Hc Hs].
  by rewrite (Hpq c Hc), (IH Hs).
Qed.

Lemma strip_delimited (chars : string) (a b : ascii) (p : string) :
  is_space a = false → is_space b = false →
  char_in chars a = true → char_in chars b = true →
  all_chars (λ ch, negb (char_in chars ch)) p = true →
  strip_chars chars (strip (String a (p +:+ String b ""))) = p.
Proof.
  intros Ha Hb Hina Hinb Hp. rewrite strip_keep_ends by done.
  unfold strip_chars, strip_by. cbn [lstrip_by]. rewrite Hina.
  destruct p as [|x r].
  { rewrite sapp_nil_l. cbn [lstrip_by]. by rewrite Hinb. }
  pose proof Hp as Hp'. cbn [all_chars] in Hp'.
  apply andb_prop in Hp' as [Hx _]. apply negb_true_iff in Hx.
  rewrite sapp_cons, lstrip_by_keep by done. rewrite <- sapp_cons.
  rewrite rstrip_by_app.
  assert (rstrip_by (char_in chars) (String b "") = "") as ->
    by (by rewrite rstrip_by_cons; cbn [rstrip_by]; rewrite Hinb).
  by apply all_chars_rstrip.
Qed.

(** X21: an import written between its delimiters is reported without
    them, whatever the path between them is as long as it holds no quote
    and no angle bracket: the Go adapter removes the double quotes of an
    import path, the JS/TS adapter the double or single quotes of the
    module string, and the C/C++ adapter the double quotes or the angle
    brackets of an include. *)
Theorem import_path_without_delimiters :
  ∀ (content_bytes : string) (s : Node) (path : string),
    all_chars (λ ch, negb (char_in (dquote +:+ squote +:+ "<>") ch)) path = true →
    (type s = "interpreted_string_literal" →
     _node_text s content_bytes = dquote +:+ path +:+ dquote →
     acc_imports (go.spec_step content_bytes acc_empty s) = [path])
    ∧ (type s = "string" →
       _node_text s content_bytes = dquote +:+ path +:+ dquote
       ∨ _node_text s content_bytes = squote +:+ path +:+ squote →
       js_ts.js_imports
         (flow_state (js_ts.import_body content_bytes js_acc_empty s))
       = [path])
    ∧ (type s = "string_literal" →
       _node_text s content_bytes = dquote +:+ path +:+ dquote →
       acc_imports (cpp.include_step content_bytes acc_empty s) = [path])
    ∧ (type s = "system_lib_string" →
       _node_text s content_bytes = "<" +:+ path +:+ ">" →
       acc_imports (cpp.include_step content_bytes acc_empty s) = [path]).
Proof.
  intros c s path Hpath.
  assert (all_chars (λ ch, negb (char_in dquote ch)) path = true) as Hgo.
  { revert Hpath. apply all_chars_weaken. intros ch.
    rewrite !negb_true_iff, !char_in_app. intros H.
    apply orb_false_elim in H as [H1 H].
    apply orb_false_elim in H as [H2 H3]. by rewrite ?H1, ?H2, ?H3. }
  assert (all_chars (λ ch, negb (char_in (dquote +:+ squote) ch)) path = true)
    as Hjs.
  { revert Hpath. apply all_chars_weaken. intros ch.
    rewrite !negb_true_iff, !char_in_app. intros H.
    apply orb_false_elim in H as [H1 H].
    apply orb_false_elim in H as [H2 H3]. by rewrite ?H1, ?H2, ?H3. }
  assert (all_chars (λ ch, negb (char_in (dquote +:+ "<>") ch)) path = true)
    as Hcpp.
  { revert Hpath. apply all_chars_weaken. intros ch.
    rewrite !negb_true_iff, !char_in_app. intros H.
    apply orb_false_elim in H as [H1 H].
    apply orb_false_elim in H as [H2 H3]. by rewrite ?H1, ?H2, ?H3. }
  split; [|split; [|split]].
  - intros Hty Htext. unfold go.spec_step. rewrite Hty, Htext.
    change ("interpreted_string_literal" == "interpreted_string_literal")
      with true. cbv iota. cbn [add_import acc_imports acc_empty app].
    f_equal. by apply (strip_delimited dquote "034" "034" path).
  - intros Hty Htext. unfold js_ts.import_body. rewrite Hty.
    change ("string" == "string") with true. cbv iota zeta.
    assert (strip_chars (dquote +:+ squote) (strip (_node_text s c)) = path)
      as ->.
    { destruct Htext as [-> | ->].
      - by apply (strip_delimited (dquote +:+ squote) "034" "034" path).
      - by apply (strip_delimited (dquote +:+ squote) "039" "039" path). }
    rewrite decide_False by set_solver. done.
  - intros Hty Htext. unfold cpp.include_step. rewrite Hty, Htext.
    change (str_in "string_literal" ["string_literal"; "system_lib_string"])
      with true. cbv iota. cbn [add_import acc_imports acc_empty app].
    f_equal. by apply (strip_delimited (dquote +:+ "<>") "034" "034" path).
  - intros Hty Htext. unfold cpp.include_step. rewrite Hty, Htext.
    change (str_in "system_lib_string" ["string_literal"; "system_lib_string"])
      with true. cbv iota. cbn [add_import acc_imports acc_empty app].
    f_equal. by apply (strip_delimited (dquote +:+ "<>") "<" ">" path).
Qed.

Lemma import_path_without_delimiters_witness :
  acc_imports
    (cpp.include_step "#include <vector>" acc_empty
       (examples.leaf "system_lib_string" 9 17))
  = ["vector"].
Proof.
  apply (import_path_without_delimiters "#include <vector>"
           (examples.leaf "system_lib_string" 9 17) "vector");
    reflexivity.
Defined.

(** ** Decorated definitions *)

(** X22: a Python decorated definition contributes exactly the first class
    or function definition among its children, here a function: the
    decorators before it add nothing and whatever follows it is not looked
    at. *)
Theorem python_decorated_function_reported :
  ∀ (content_bytes : string) (child def : Node) (pre post : list Node),
    type child = "decorated_definition" →
    children child = pre ++ def :: post →
    Forall (λ n, str_in (type n) ["class_definition"; "function_definition"]
                 = false) pre →
    type def = "function_definition" →
    python.extract_step content_bytes acc_empty child
    = add_function (python._extract_function def content_bytes) acc_empty.
Proof.
  intros c child def pre post Hty Hch Hpre Hdef.
  unfold python.extract_step. rewrite Hty, Hch.
  change (str_in "decorated_definition"
            ["import_statement"; "import_from_statement"]) with false.
  change ("decorated_definition" == "class_definition") with false.
  change ("decorated_definition" == "function_definition") with false.
  change ("decorated_definition" == "decorated_definition") with true.
  cbv iota. clear Hch.
  induction Hpre as [|n pre Hn _ IH].
  - cbn [app for_loop]. unfold python.decorated_body. by rewrite Hdef.
  - cbn [app for_loop]. unfold python.decorated_body at 1.
    unfold str_in in Hn. cbn [existsb] in Hn.
    apply orb_false_elim in Hn as [H1 Hn].
    apply orb_false_elim in Hn as [H2 _]. rewrite H1, H2. exact IH.
Qed.

Lemma python_decorated_function_reported_witness :
  python.extract_step
    ("@cache" +:+ nl +:+ "def f(): pass") acc_empty
    (mkNode "decorated_definition" 0 20
       ([examples.leaf "decorator" 0 6]
        ++ mkNode "function_definition" 7 20
             [examples.leaf "def" 7 10; examples.leaf "identifier" 11 12;
              examples.leaf "parameters" 12 14; examples.leaf ":" 14 15;
              examples.leaf "block" 16 20]
           :: []))
  = add_function
      (python._extract_function
         (mkNode "function_definition" 7 20
            [examples.leaf "def" 7 10; examples.leaf "identifier" 11 12;
             examples.leaf "parameters" 12 14; examples.leaf ":" 14 15;
             examples.leaf "block" 16 20])
         ("@cache" +:+ nl +:+ "def f(): pass"))
      acc_empty.
Proof.
  apply (python_decorated_function_reported _ _ _ [examples.leaf "decorator" 0 6] []).
  - reflexivity.
  - reflexivity.
  - repeat constructor.
  - reflexivity.
Defined.
